(** * Project Cloner: a shallow embedding of [project_cloner.py]

    The development models the export worker [CloneThread.run] together
    with [sanitize_filename] and [CloneThread._copy_associated_files],
    the slots [start_clone] and [clone_finished] of the plugin, and the
    output path of the dialog in [project_cloner_dialog.py]
    ([set_default_output_path], [browse_output_path]).

    - Python strings are sequences of Unicode code points: [pystr] is a
      list of code points ([N]).
    - The worker is written in a state-and-exception monad.  The state
      holds the file system, the attribute [self.temp_dir], the open
      [ZipFile] object and the trace of everything observable: the three
      Qt signals, the diagnostic log and the I/O calls, in program order.
    - The host (operating system and QGIS) is an environment record.  It
      fixes the project, the clock and, through [fault], which I/O call
      raises; a call that does not raise has its nominal effect on the
      modelled file system, and a call that raises has none.  Emitting
      a signal and writing to the message log do not raise.
    - [os.path] is the POSIX flavour ([posixpath]); paths are compared
      as written, except that a trailing separator or [/.] is seen
      through when a path is tested for being a directory.
    - [str.isalnum] is fixed on ASCII and a parameter beyond it.
    - The interpolation of the progress value is read in exact
      arithmetic; its binary64 evaluation is given beside it and
      compared with it by computation.
    - The plugin sees the worker through its signals, which reach the
      slots in the order of emission.  The progress bar has the range
      0..100 it is created with.  [str.lower] is fixed on ASCII and a
      parameter beyond it, as are the clock and the home directories. *)

From Stdlib Require Import ZArith NArith List String Ascii Lia Bool.
From Stdlib Require Import PrimFloat Uint63 FloatOps SpecFloat.
From stdpp Require Import base option list sorting gmap.

Local Open Scope Z_scope.

(** ** Python strings *)

Definition char := N.
Definition pystr := list char.

Definition of_string (s : string) : pystr :=
  List.map N_of_ascii (list_ascii_of_string s).

Notation "'py' s" := (of_string s%string) (at level 1, s at level 0, only parsing).

Definition ch (a : ascii) : char := N_of_ascii a.

Arguments of_string : simpl never.
Arguments ch : simpl never.

Definition sep : char := ch "/".
Definition dot : char := ch ".".

Definition in_range (lo hi c : char) : bool := (N.leb lo c && N.leb c hi)%bool.

(** [str.isalnum] on the ASCII range: digits and letters. *)
Definition ascii_isalnum (c : char) : bool :=
  (in_range (ch "0") (ch "9") c || in_range (ch "A") (ch "Z") c
   || in_range (ch "a") (ch "z") c)%bool.

(** [str.startswith] and [str.endswith]. *)
Fixpoint startswith (s p : pystr) {struct p} : bool :=
  match p, s with
  | [], _ => true
  | _ :: _, [] => false
  | x :: p', y :: s' => (N.eqb x y && startswith s' p')%bool
  end.

Definition endswith (s p : pystr) : bool := startswith (rev s) (rev p).

(** [str.rfind] for a single character: the highest index at which [c]
    occurs, or [-1]. *)
Fixpoint rfind_from (c : char) (s : pystr) (i acc : Z) : Z :=
  match s with
  | [] => acc
  | x :: s' => rfind_from c s' (i + 1) (if N.eqb x c then i else acc)
  end.

Definition rfind (s : pystr) (c : char) : Z := rfind_from c s 0 (-1).

(** Slices [s[:i]], [s[i:]] and [s[i:j]] for indices that are not
    negative. *)
Definition slice_to (s : pystr) (i : Z) : pystr := take (Z.to_nat i) s.
Definition slice_from (s : pystr) (i : Z) : pystr := drop (Z.to_nat i) s.
Definition slice (s : pystr) (i j : Z) : pystr := slice_to (slice_from s i) (j - i).

(** [str.rstrip('/')]. *)
Fixpoint drop_leading (c : char) (l : pystr) : pystr :=
  match l with
  | x :: l' => if N.eqb x c then drop_leading c l' else l
  | [] => []
  end.

Definition rstrip_sep (s : pystr) : pystr := rev (drop_leading sep (rev s)).

(** ** [posixpath] *)

Definition is_empty (s : pystr) : bool := match s with [] => true | _ => false end.

(** [os.path.basename]: [i = p.rfind('/') + 1; return p[i:]]. *)
Definition basename (p : pystr) : pystr := slice_from p (rfind p sep + 1).

(** [os.path.dirname]: the head up to the last separator, with trailing
    separators removed unless the head consists of separators only. *)
Definition dirname (p : pystr) : pystr :=
  let head := slice_to p (rfind p sep + 1) in
  if (negb (is_empty head) && negb (forallb (N.eqb sep) head))%bool
  then rstrip_sep head else head.

(** [os.path.splitext] ([genericpath._splitext]): split at the last dot
    of the last component, unless that component has only leading dots
    before it. *)
Definition splitext (p : pystr) : pystr * pystr :=
  let sepIndex := rfind p sep in
  let dotIndex := rfind p dot in
  if dotIndex >? sepIndex then
    if existsb (fun c => negb (N.eqb c dot)) (slice p (sepIndex + 1) dotIndex)
    then (slice_to p dotIndex, slice_from p dotIndex)
    else (p, [])
  else (p, []).

(** [os.path.join] of two components. *)
Definition join (a b : pystr) : pystr :=
  if startswith b [sep] then b
  else if (is_empty a || endswith a [sep])%bool then a ++ b
  else a ++ sep :: b.

(** ** Data model *)

Inductive layer_kind := Vector | Raster | OtherKind.

Record Layer := {
  layer_id : N;
  layer_name : pystr;
  layer_source : pystr;
  kind : layer_kind }.

(** [isinstance(layer, (QgsVectorLayer, QgsRasterLayer))] *)
Definition is_vector_or_raster (l : Layer) : bool :=
  match kind l with Vector | Raster => true | OtherKind => false end.

(** [isinstance(layer, QgsVectorLayer)] *)
Definition is_vector (l : Layer) : bool :=
  match kind l with Vector => true | _ => false end.

(** The [metadata] dictionary of [run]. *)
Record Manifest := {
  created : pystr;
  qgis_version : pystr;
  layer_count : nat;
  include_data_flag : bool }.

(** What a file holds.  An archive holds its members in the order they
    were added. *)
#[warnings="-register-all"]
Inductive content :=
| Blob (n : N)
| ProjectDoc (origin : pystr)
| StyleDoc (l : N)
| LayerDefDoc (l : N)
| ManifestDoc (m : Manifest)
| DirMember
| ZipArchive (members : list (pystr * content)).

Definition member := (pystr * content)%type.

Record FS := {
  files : gmap pystr content;
  dirs : gset pystr }.

(** I/O calls, as they appear in the source. *)
Inductive io_op :=
| OpMkdtemp (p : pystr)
| OpProjectWrite (p : pystr)
| OpCopy2 (src dst : pystr)
| OpListdir (d : pystr)
| OpSaveNamedStyle (l : N) (p : pystr)
| OpWriteLayer (l : N) (p : pystr)
| OpZipOpen (p : pystr)
| OpZipWrite (p arcname : pystr)
| OpDumpMetadata (p : pystr)
| OpZipClose (p : pystr)
| OpRmtree (p : pystr).

Definition is_write_layer (op : io_op) : bool :=
  match op with OpWriteLayer _ _ => true | _ => false end.

(** Everything the caller and the disk can observe, in program order:
    the three signals of [CloneThread], the message log and the I/O
    calls. *)
Inductive event :=
| progress_updated (v : Z)
| status_updated (msg : pystr)
| finished_signal (ok : bool) (msg : pystr)
| log_message (msg : pystr)
| io_call (op : io_op).

(** The host: QGIS and the operating system. *)
Record Host := {
  project_file : pystr;         (* QgsProject.instance().fileName() *)
  map_layers : list Layer;      (* project.mapLayers().values() *)
  has_writeLayer : bool;        (* hasattr(QgsLayerDefinition, "writeLayer") *)
  gettempdir : pystr;
  temp_seed : list N;           (* the random draws behind the mkdtemp name *)
  now_isoformat : pystr;        (* datetime.now().isoformat() *)
  QGIS_VERSION : pystr;
  fault : io_op -> option pystr;  (* the exception text, when the call raises *)
  initial_fs : FS }.

(** The attributes of a [CloneThread] set by [__init__]. *)
Record CloneThread := {
  output_path : pystr;
  include_data : bool }.

(** The characters [tempfile] draws directory names from. *)
Definition temp_alphabet : pystr := py "abcdefghijklmnopqrstuvwxyz0123456789_".

Definition temp_char (n : N) : char :=
  nth (N.to_nat (n mod 37)) temp_alphabet (ch "_").

(** ** The dialog and the plugin

    The widgets of [ProjectClonerDialog] that the code reads and writes,
    and [ProjectCloner] with the message boxes it has shown. *)
Record Dialog := {
  output_path_edit : pystr;       (* output_path_edit.text() *)
  include_data_check : bool;      (* include_data_check.isChecked() *)
  clone_button_enabled : bool;    (* clone_button.isEnabled() *)
  progress_bar : Z;               (* progress_bar.value() *)
  status_label : pystr }.         (* status_label.text() *)

Inductive box_kind := BoxWarning | BoxInformation | BoxCritical.

(** A [QMessageBox]: its kind, its title and its text. *)
Definition message_box := (box_kind * pystr * pystr)%type.

Record ProjectCloner := {
  dialog : Dialog;
  clone_thread : option CloneThread;
  boxes : list message_box }.

(** What the dialog asks of Python and of the operating system:
    [str.lower] beyond ASCII, where the Unicode database decides, for the
    capital sigma by the characters before and after it; the clock, as
    [datetime.now().strftime("%Y%m%d_%H%M%S")]; and the home directories
    [os.path.expanduser] finds, the empty name being the current user. *)
Record Platform := {
  unicode_lower : pystr -> char -> pystr -> pystr;
  strftime_now : pystr;
  homes : pystr -> option pystr }.

(** ** File system operations *)

Definition isfile (fs : FS) (p : pystr) : bool :=
  match files fs !! p with Some _ => true | None => false end.

(** A path names a directory when it is one, possibly written with a
    trailing separator or a trailing [/.] component. *)
Fixpoint strip_trailing_rev (r : pystr) : pystr :=
  match r with
  | c :: r1 =>
      if N.eqb c sep then
        match r1 with [] => r | _ => strip_trailing_rev r1 end
      else if N.eqb c dot then
        match r1 with
        | c' :: _ => if N.eqb c' sep then strip_trailing_rev r1 else r
        | [] => r
        end
      else r
  | [] => []
  end.

Definition resolve (p : pystr) : pystr := rev (strip_trailing_rev (rev p)).

Definition isdir (fs : FS) (p : pystr) : bool := bool_decide (resolve p ∈ dirs fs).

Definition path_exists (fs : FS) (p : pystr) : bool := (isfile fs p || isdir fs p)%bool.

Definition write_file (p : pystr) (c : content) (fs : FS) : FS :=
  {| files := <[p := c]> (files fs); dirs := dirs fs |}.

Definition make_dir (p : pystr) (fs : FS) : FS :=
  {| files := files fs; dirs := {[p]} ∪ dirs fs |}.

(** [inside t p]: [p] is [t] or lies below it. *)
Definition inside (t p : pystr) : bool :=
  (bool_decide (resolve p = t) || startswith p (join t []))%bool.

Definition remove_tree (t : pystr) (fs : FS) : FS :=
  {| files := filter (fun kv => inside t kv.1 = false) (files fs);
     dirs := filter (fun d => inside t d = false) (dirs fs) |}.

(** The names [os.listdir(d)] returns: the entries directly below [d]. *)
Definition child_name (d p : pystr) : option pystr :=
  let prefix := join d [] in
  if startswith p prefix then
    let f := drop (length prefix) p in
    if (negb (is_empty f) && negb (existsb (N.eqb sep) f))%bool then Some f else None
  else None.

Definition dir_entries (fs : FS) (d : pystr) : list pystr :=
  remove_dups (omap (child_name d) ((map_to_list (files fs)).*1 ++ elements (dirs fs))).

(** ** The worker's monad: state and exceptions *)

Record State := {
  fs : FS;
  temp_dir : option pystr;      (* self.temp_dir *)
  zipf : list member;           (* the members of the open ZipFile *)
  trace : list event }.

Inductive res (A : Type) :=
| Ret (a : A)
| Raise (e : pystr).
Arguments Ret {A} a.
Arguments Raise {A} e.

Definition M (A : Type) : Type := State -> res A * State.

Definition ret {A} (a : A) : M A := fun s => (Ret a, s).
Definition raise {A} (e : pystr) : M A := fun s => (Raise e, s).

Definition bind {A B} (m : M A) (k : A -> M B) : M B :=
  fun s => match m s with
           | (Ret a, s') => k a s'
           | (Raise e, s') => (Raise e, s')
           end.

Declare Scope worker_scope.
Delimit Scope worker_scope with worker.
Notation "x <- m ;; k" := (bind m (fun x => k))
  (at level 100, m at next level, right associativity) : worker_scope.
Notation "m ;; k" := (bind m (fun _ => k))
  (at level 100, right associativity) : worker_scope.
Local Open Scope worker_scope.

(** [try: m except Exception as e: h e] *)
Definition try_except {A} (m : M A) (h : pystr -> M A) : M A :=
  fun s => match m s with
           | (Ret a, s') => (Ret a, s')
           | (Raise e, s') => h e s'
           end.

(** [try: m finally: f] *)
Definition try_finally {A} (m : M A) (f : M unit) : M A :=
  fun s => let (r, s') := m s in
           match f s' with
           | (Ret _, s'') => (r, s'')
           | (Raise e, s'') => (Raise e, s'')
           end.

Definition get_fs : M FS := fun s => (Ret (fs s), s).

Definition set_fs (f : FS -> FS) (s : State) : State :=
  {| fs := f (fs s); temp_dir := temp_dir s; zipf := zipf s; trace := trace s |}.

Definition record (e : event) (s : State) : State :=
  {| fs := fs s; temp_dir := temp_dir s; zipf := zipf s; trace := trace s ++ [e] |}.

Definition set_temp_dir (t : pystr) : M unit :=
  fun s => (Ret tt, {| fs := fs s; temp_dir := Some t; zipf := zipf s; trace := trace s |}).

Definition set_zipf (z : list member) (s : State) : State :=
  {| fs := fs s; temp_dir := temp_dir s; zipf := z; trace := trace s |}.

(** Emitting a signal, or writing to the message log. *)
Definition emit (e : event) : M unit := fun s => (Ret tt, record e s).

Definition init_state (f : FS) : State :=
  {| fs := f; temp_dir := None; zipf := []; trace := [] |}.

(** ** Progress interpolation

    [int(10 + (i / total_layers) * 80)].  The source evaluates the
    expression in binary64; [interpolate] is its value in exact
    arithmetic, and [interpolate_float] is the binary64 evaluation.
    [interpolate_float_agrees] below checks that both give the same
    integer for every project of up to 300 layers. *)

Definition interpolate (i total : Z) : Z := 10 + (80 * i) / total.

Definition float_of_int (z : Z) : float := PrimFloat.of_uint63 (Uint63.of_Z z).

(** [int(x)] for a finite [x]. *)
Definition int_of_float (x : float) : option Z :=
  match FloatOps.Prim2SF x with
  | SpecFloat.S754_zero _ => Some 0
  | SpecFloat.S754_finite s m e =>
      let a := if Z.leb 0 e then Z.shiftl (Zpos m) e else Z.shiftr (Zpos m) (- e) in
      Some (if s then - a else a)
  | _ => None
  end.

Definition interpolate_float (i total : Z) : option Z :=
  int_of_float
    (PrimFloat.add (float_of_int 10)
       (PrimFloat.mul (PrimFloat.div (float_of_int i) (float_of_int total))
          (float_of_int 80))).

Definition floats_agree_upto (n : nat) : bool :=
  forallb (fun total =>
    forallb (fun i =>
      match interpolate_float (Z.of_nat i) (Z.of_nat total) with
      | Some v => Z.eqb v (interpolate (Z.of_nat i) (Z.of_nat total))
      | None => false
      end) (seq 1 total)) (seq 1 n).

(** ** Example hosts *)

(** A Unicode table without alphanumerics beyond ASCII is enough for
    the examples, which are ASCII. *)
Definition ascii_only : char -> bool := fun _ => false.

Definition roads : Layer :=
  {| layer_id := 1; layer_name := py "Roads";
     layer_source := py "/data/roads.shp"; kind := Vector |}.

Definition rivers : Layer :=
  {| layer_id := 2; layer_name := py "Rivers & Lakes";
     layer_source := py "/data/gone/rivers.shp"; kind := Vector |}.

Definition notes : Layer :=
  {| layer_id := 3; layer_name := py "Notes";
     layer_source := py ""; kind := OtherKind |}.

(** [roads.shp] with its siblings [roads.dbf] and [roads.shx]. *)
Definition data_disk : FS :=
  {| files := list_to_map [(py "/data/roads.shp", Blob 1);
                           (py "/data/roads.dbf", Blob 2);
                           (py "/data/roads.shx", Blob 3)];
     dirs := {[ py "/data"; py "/tmp" ]} |}.

Definition no_fault : io_op -> option pystr := fun _ => None.

(** The host of the two-layer scenario; this QGIS has no
    [QgsLayerDefinition.writeLayer]. *)
Definition two_layer_host : Host :=
  {| project_file := py "/home/user/town.qgz";
     map_layers := [roads; rivers];
     has_writeLayer := false;
     gettempdir := py "/tmp";
     temp_seed := [0; 1; 2; 26; 27; 28]%N;
     now_isoformat := py "2024-05-01T10:00:00";
     QGIS_VERSION := py "3.34.0";
     fault := no_fault;
     initial_fs := data_disk |}.

(** The same project on a host whose [writeLayer] always raises. *)
Definition failing_definition_host : Host :=
  {| project_file := py "/home/user/town.qgz";
     map_layers := [roads; rivers];
     has_writeLayer := true;
     gettempdir := py "/tmp";
     temp_seed := [0; 1; 2; 26; 27; 28]%N;
     now_isoformat := py "2024-05-01T10:00:00";
     QGIS_VERSION := py "3.34.0";
     fault := fun op => if is_write_layer op then Some (py "not supported") else None;
     initial_fs := data_disk |}.

Definition with_layers (ls : list Layer) (pf : pystr) : Host :=
  {| project_file := pf;
     map_layers := ls;
     has_writeLayer := false;
     gettempdir := py "/tmp";
     temp_seed := [0; 1; 2; 26; 27; 28]%N;
     now_isoformat := py "2024-05-01T10:00:00";
     QGIS_VERSION := py "3.34.0";
     fault := no_fault;
     initial_fs := data_disk |}.

(** No project loaded; a project with one annotation layer; a project
    without layers. *)
Definition no_project_host : Host := with_layers [] (py "").
Definition notes_host : Host := with_layers [notes] (py "/home/user/town.qgz").
Definition empty_host : Host := with_layers [] (py "/home/user/town.qgz").

(** A layer whose name sanitizes to the same string as that of
    [rivers]; none of the three layers of [twin_host] has a file behind
    it. *)
Definition rivers_twin : Layer :=
  {| layer_id := 4; layer_name := py "Rivers _ Lakes";
     layer_source := py "/data/gone/lakes.tif"; kind := Raster |}.

Definition twin_host : Host :=
  with_layers [rivers; notes; rivers_twin] (py "/home/user/town.qgz").

(** A project whose one layer names its data file without a directory;
    the file exists. *)
Definition local_roads : Layer :=
  {| layer_id := 5; layer_name := py "Roads";
     layer_source := py "roads.shp"; kind := Vector |}.

Definition local_disk : FS :=
  {| files := list_to_map [(py "roads.shp", Blob 1)];
     dirs := {[ py "/tmp" ]} |}.

Definition local_host : Host :=
  {| project_file := py "/home/user/town.qgz";
     map_layers := [local_roads];
     has_writeLayer := false;
     gettempdir := py "/tmp";
     temp_seed := [0; 1; 2; 26; 27; 28]%N;
     now_isoformat := py "2024-05-01T10:00:00";
     QGIS_VERSION := py "3.34.0";
     fault := no_fault;
     initial_fs := local_disk |}.

(** The two-layer project on a host where the working area cannot be
    removed: [shutil.rmtree] raises. *)
Definition stuck_host : Host :=
  {| project_file := py "/home/user/town.qgz";
     map_layers := [roads; rivers];
     has_writeLayer := false;
     gettempdir := py "/tmp";
     temp_seed := [0; 1; 2; 26; 27; 28]%N;
     now_isoformat := py "2024-05-01T10:00:00";
     QGIS_VERSION := py "3.34.0";
     fault := fun op => match op with
                        | OpRmtree _ => Some (py "Permission denied")
                        | _ => None
                        end;
     initial_fs := data_disk |}.

Definition with_data : CloneThread :=
  {| output_path := py "/out/clone.zip"; include_data := true |}.

Definition without_data : CloneThread :=
  {| output_path := py "/out/clone.zip"; include_data := false |}.

(** A platform that lowers ASCII only, and knows one home directory. *)
Definition posix_desk : Platform :=
  {| unicode_lower := fun _ c _ => [c];
     strftime_now := py "20240501_100000";
     homes := fun user => if is_empty user then Some (py "/home/user") else None |}.

(** A plugin whose dialog holds the output path and the option of
    [with_data]. *)
Definition ready_plugin : ProjectCloner :=
  {| dialog := {| output_path_edit := py "/out/clone.zip";
                  include_data_check := true;
                  clone_button_enabled := true;
                  progress_bar := 0;
                  status_label := py "Ready to clone project" |};
     clone_thread := None;
     boxes := [] |}.

(** ** [sanitize_filename] and [CloneThread] *)

Section Worker.

(** [str.isalnum] beyond ASCII is the Unicode database's business. *)
Variable unicode_isalnum : char -> bool.

Definition isalnum (c : char) : bool :=
  if N.ltb c 128 then ascii_isalnum c else unicode_isalnum c.

(** [c.isalnum() or c in (' ', '_', '-')] *)
Definition keeps (c : char) : bool :=
  (isalnum c || existsb (N.eqb c) [ch " "; ch "_"; ch "-"])%bool.

Definition sanitize_filename (name : pystr) : pystr :=
  List.map (fun c => if keeps c then c else ch "_") name.

Variable host : Host.
Variable self : CloneThread.

(** An I/O call: it is recorded, then it raises if the host says so and
    otherwise has its effect on the file system. *)
Definition perform (op : io_op) (effect : FS -> FS) : M unit :=
  fun s =>
    let s1 := record (io_call op) s in
    match fault host op with
    | Some e => (Raise e, s1)
    | None => (Ret tt, set_fs effect s1)
    end.

(** [tempfile.mkdtemp()]: a new directory [<tempdir>/tmp<random>]. *)
Definition mkdtemp_path : pystr :=
  join (gettempdir host) (py "tmp" ++ List.map temp_char (temp_seed host)).

Definition mkdtemp : M pystr :=
  perform (OpMkdtemp mkdtemp_path) (make_dir mkdtemp_path);;
  ret mkdtemp_path.

(** [project.write(path)] *)
Definition project_write (p : pystr) : M unit :=
  perform (OpProjectWrite p) (write_file p (ProjectDoc (project_file host))).

(** [shutil.copy2(src, dst)]: into [dst] when it is a directory. *)
Definition copy2 (src dst : pystr) : M unit :=
  fun s =>
    let target := if isdir (fs s) dst then join dst (basename src) else dst in
    match files (fs s) !! src with
    | Some c => perform (OpCopy2 src dst) (write_file target c) s
    | None => (Raise (py "No such file or directory"), record (io_call (OpCopy2 src dst)) s)
    end.

(** [os.listdir(d)]; the empty path is refused. *)
Definition listdir (d : pystr) : M (list pystr) :=
  fun s =>
    if is_empty d
    then (Raise (py "No such file or directory"), record (io_call (OpListdir d)) s)
    else (perform (OpListdir d) id;; ret (dir_entries (fs s) d)) s.

(** [layer.saveNamedStyle(path)] *)
Definition saveNamedStyle (l : Layer) (p : pystr) : M unit :=
  perform (OpSaveNamedStyle (layer_id l) p) (write_file p (StyleDoc (layer_id l))).

(** [QgsLayerDefinition.writeLayer(layer, path)] *)
Definition writeLayer (l : Layer) (p : pystr) : M unit :=
  perform (OpWriteLayer (layer_id l) p) (write_file p (LayerDefDoc (layer_id l))).

(** The loop of [_copy_associated_files] over the directory listing:
    its body, then the loop. *)
Definition copy_if_matching (base_name base_dir dest_dir f : pystr) : M unit :=
  if startswith f base_name then
    let full_path := join base_dir f in
    now <- get_fs;;
    if isfile now full_path then copy2 full_path dest_dir else ret tt
  else ret tt.

Fixpoint copy_matching (base_name base_dir dest_dir : pystr) (names : list pystr) : M unit :=
  match names with
  | [] => ret tt
  | f :: rest =>
      copy_if_matching base_name base_dir dest_dir f;;
      copy_matching base_name base_dir dest_dir rest
  end.

Definition _copy_associated_files (source_file dest_dir : pystr) : M unit :=
  let base_name := fst (splitext (basename source_file)) in
  let base_dir := dirname source_file in
  names <- listdir base_dir;;
  copy_matching base_name base_dir dest_dir names.

(** [10 + (i / total_layers) * 80], then [int(progress)]. *)
Definition progress_of (i total : Z) : M Z :=
  if Z.eqb total 0 then raise (py "division by zero")
  else ret (interpolate i total).

(** The three files one layer may add to [layer_files]. *)
Definition data_file (t : pystr) (l : Layer) : pystr :=
  join t (sanitize_filename (layer_name l) ++ snd (splitext (layer_source l))).
Definition style_file (t : pystr) (l : Layer) : pystr :=
  join t (sanitize_filename (layer_name l) ++ py ".qml").
Definition layer_def_file (t : pystr) (l : Layer) : pystr :=
  join t (sanitize_filename (layer_name l) ++ py ".qlr").

(** The body of the loop over the layers, block by block; [t] is
    [self.temp_dir].

    Lines 68-73, "Copy data files if exists". *)
Definition copy_data_files (t : pystr) (layer : Layer)
    (layer_files : list pystr) : M (list pystr) :=
  let source := layer_source layer in
  now <- get_fs;;
  if (include_data self && isfile now source)%bool then
    let dest_file := data_file t layer in
    copy2 source dest_file;;
    let layer_files := layer_files ++ [dest_file] in
    _copy_associated_files source t;;
    ret layer_files
  else ret layer_files.

(** Lines 75-78, "Save layer style (.qml) for all layers". *)
Definition save_layer_style (t : pystr) (layer : Layer)
    (layer_files : list pystr) : M (list pystr) :=
  saveNamedStyle layer (style_file t layer);;
  ret (layer_files ++ [style_file t layer]).

(** Lines 80-89, "Save layer definition (.qlr) for vector layers if
    possible". *)
Definition save_layer_definition (t : pystr) (layer : Layer)
    (layer_files : list pystr) : M (list pystr) :=
  if is_vector layer then
    try_except
      (if has_writeLayer host then
         writeLayer layer (layer_def_file t layer);;
         ret (layer_files ++ [layer_def_file t layer])
       else ret layer_files)
      (fun _ => ret layer_files)
  else ret layer_files.

(** Lines 58-89: one iteration. *)
Definition export_layer (t : pystr) (total i : Z) (layer : Layer)
    (layer_files : list pystr) : M (list pystr) :=
  progress <- progress_of i total;;
  emit (progress_updated progress);;
  if is_vector_or_raster layer then
    let layer_name := sanitize_filename (layer_name layer) in
    emit (status_updated (py "Processing layer: " ++ layer_name));;
    layer_files <- copy_data_files t layer layer_files;;
    layer_files <- save_layer_style t layer layer_files;;
    save_layer_definition t layer layer_files
  else ret layer_files.

(** [for i, layer in enumerate(layers.values(), start=1)] *)
Fixpoint export_layers (t : pystr) (total i : Z) (layers : list Layer)
    (layer_files : list pystr) : M (list pystr) :=
  match layers with
  | [] => ret layer_files
  | layer :: rest =>
      layer_files <- export_layer t total i layer layer_files;;
      export_layers t total (i + 1) rest layer_files
  end.

(** *** The archive *)

(** [ZipFile(path, 'w', ZIP_DEFLATED)] creates the file. *)
Definition zip_open (p : pystr) : M unit :=
  perform (OpZipOpen p) (write_file p (ZipArchive []));;
  fun s => (Ret tt, set_zipf [] s).

(** A directory is stored under its normalised name with a trailing
    separator; [arcname] here is always a base name. *)
Definition dir_arcname (arcname : pystr) : pystr :=
  (if (is_empty arcname || bool_decide (arcname = [dot]))%bool then [dot] else arcname)
    ++ [sep].

(** [zipf.write(path, arcname)] *)
Definition zip_write (p arcname : pystr) : M unit :=
  fun s =>
    let entry :=
      match files (fs s) !! p with
      | Some c => Some (arcname, c)
      | None => if isdir (fs s) p then Some (dir_arcname arcname, DirMember) else None
      end in
    match entry with
    | Some m =>
        (perform (OpZipWrite p arcname) id;;
         fun s' => (Ret tt, set_zipf (zipf s' ++ [m]) s')) s
    | None => (Raise (py "No such file or directory"),
               record (io_call (OpZipWrite p arcname)) s)
    end.

(** Leaving the [with] block closes the archive: the members written so
    far reach the disk. *)
Definition zip_close (p : pystr) : M unit :=
  fun s => perform (OpZipClose p) (write_file p (ZipArchive (zipf s))) s.

Definition with_zipfile {A} (p : pystr) (body : M A) : M A :=
  zip_open p;;
  fun s => match body s with
           | (r, s') =>
               match zip_close p s' with
               | (Ret _, s'') => (r, s'')
               | (Raise e, s'') => (Raise e, s'')
               end
           end.

Fixpoint zip_write_all (paths : list pystr) : M unit :=
  match paths with
  | [] => ret tt
  | file_path :: rest =>
      zip_write file_path (basename file_path);; zip_write_all rest
  end.

Definition metadata (total_layers : nat) : Manifest :=
  {| created := now_isoformat host;
     qgis_version := QGIS_VERSION host;
     layer_count := total_layers;
     include_data_flag := include_data self |}.

(** [with open(metadata_file, 'w') as f: json.dump(metadata, f, indent=2)] *)
Definition dump_metadata (p : pystr) (m : Manifest) : M unit :=
  perform (OpDumpMetadata p) (write_file p (ManifestDoc m)).

(** Lines 93-108, the [with zipfile.ZipFile(...) as zipf] block. *)
Definition write_archive (t : pystr) (layer_files : list pystr)
    (total_layers : nat) : M unit :=
  let project_backup := join t (py "project.qgz") in
  with_zipfile (output_path self)
    (zip_write project_backup (py "project.qgz");;
     zip_write_all layer_files;;
     let metadata_file := join t (py "metadata.json") in
     dump_metadata metadata_file (metadata total_layers);;
     zip_write metadata_file (py "metadata.json")).

(** *** [CloneThread.run] *)

Definition run_try : M unit :=
  emit (status_updated (py "Starting project clone..."));;
  t <- mkdtemp;;
  set_temp_dir t;;
  let project_file := project_file host in
  if is_empty project_file then
    emit (finished_signal false (py "No project file is currently open."))
  else
    emit (status_updated (py "Backing up project file..."));;
    let project_backup := join t (py "project.qgz") in
    project_write project_backup;;
    emit (progress_updated 10);;
    let layers := map_layers host in
    let total_layers := length layers in
    layer_files <- export_layers t (Z.of_nat total_layers) 1 layers [];;
    emit (status_updated (py "Creating ZIP package..."));;
    write_archive t layer_files total_layers;;
    emit (progress_updated 100);;
    emit (status_updated (py "Clone completed successfully!"));;
    emit (finished_signal true
            (py "Project cloned successfully to: " ++ output_path self)).

Definition run_except (e : pystr) : M unit :=
  emit (log_message e);;
  emit (finished_signal false (py "Error during cloning: " ++ e)).

(** [shutil.rmtree] *)
Definition rmtree (t : pystr) : M unit :=
  perform (OpRmtree t) (remove_tree t).

Definition run_finally : M unit :=
  fun s =>
    match temp_dir s with
    | Some t =>
        if (negb (is_empty t) && path_exists (fs s) t)%bool then rmtree t s
        else (Ret tt, s)
    | None => (Ret tt, s)
    end.

Definition run : M unit :=
  try_finally (try_except run_try run_except) run_finally.

(** The run from the initial state of the host. *)
Definition execute : res unit * State := run (init_state (initial_fs host)).


(** ** Observations on a trace *)

Definition progress_values (tr : list event) : list Z :=
  omap (fun e => match e with progress_updated v => Some v | _ => None end) tr.

Definition outcomes (tr : list event) : list (bool * pystr) :=
  omap (fun e => match e with finished_signal ok m => Some (ok, m) | _ => None end) tr.

Definition logged (tr : list event) : list pystr :=
  omap (fun e => match e with log_message m => Some m | _ => None end) tr.

Definition io_calls (tr : list event) : list io_op :=
  omap (fun e => match e with io_call op => Some op | _ => None end) tr.

Definition style_writes (tr : list event) : list (N * pystr) :=
  omap (fun op => match op with OpSaveNamedStyle l p => Some (l, p) | _ => None end)
       (io_calls tr).

Definition zip_writes (tr : list event) : list (pystr * pystr) :=
  omap (fun op => match op with OpZipWrite p a => Some (p, a) | _ => None end)
       (io_calls tr).

(** The run ended with the success outcome. *)
Definition succeeded (s : State) : Prop :=
  exists msg, outcomes (trace s) = [(true, msg)].

(** No I/O call is made before the first outcome is emitted. *)
Fixpoint io_free_until_outcome (tr : list event) : bool :=
  match tr with
  | [] => true
  | finished_signal _ _ :: _ => true
  | io_call _ :: _ => false
  | _ :: rest => io_free_until_outcome rest
  end.

(** What one layer adds to [layer_files]: the copied data file when
    there is one, the style file, and the definition file when
    [writeLayer] exists and does not raise. *)
Definition def_written (t : pystr) (l : Layer) : bool :=
  (is_vector l && has_writeLayer host
   && bool_decide (fault host (OpWriteLayer (layer_id l) (layer_def_file t l)) = None))%bool.

Definition layer_outputs (t : pystr) (l : Layer) (copied : bool) : list pystr :=
  if is_vector_or_raster l then
    (if copied then [data_file t l] else [])
      ++ [style_file t l]
      ++ (if def_written t l then [layer_def_file t l] else [])
  else [].

(** The characters a sanitized name is made of. *)
Definition allowed (c : char) : Prop :=
  isalnum c = true \/ c = ch " " \/ c = ch "_" \/ c = ch "-".

(** ** Vocabulary of the proofs *)

(** [frame s s']: the step from [s] to [s'] kept [self.temp_dir] and the
    directories, and removed no file. *)
Definition frame (s s' : State) : Prop :=
  temp_dir s' = temp_dir s
  /\ dirs (fs s') = dirs (fs s)
  /\ forall p, isfile (fs s) p = true -> isfile (fs s') p = true.

(** The events of the layer loop: progress, status, and the calls that
    copy, list, write a style or write a definition. *)
Definition copy_event (e : event) : Prop :=
  match e with
  | io_call (OpCopy2 _ _) | io_call (OpListdir _) => True
  | _ => False
  end.

Definition layer_event (e : event) : Prop :=
  match e with
  | status_updated _ => True
  | io_call (OpCopy2 _ _) | io_call (OpListdir _)
  | io_call (OpSaveNamedStyle _ _) | io_call (OpWriteLayer _ _) => True
  | _ => False
  end.

(** The causes of a failure of the layer loop: a call other than
    [writeLayer] that the host lets raise, or listing the directory of
    a source that has none. *)
Definition blamed (e : pystr) : Prop :=
  exists op, is_write_layer op = false /\ fault host op = Some e.

Definition no_directory (l : Layer) : Prop :=
  include_data self = true /\ dirname (layer_source l) = [].

(** The files the whole loop adds to [layer_files], given for each layer
    whether its data file was copied. *)
Definition layers_outputs (t : pystr) (ls : list Layer) (copied : list bool) : list pystr :=
  concat (zip_with (layer_outputs t) ls copied).

(** The progress values of the loop from its [i]-th iteration on. *)
Definition loop_progress (total i : Z) (k : nat) : list Z :=
  List.map (fun j => interpolate (i + Z.of_nat j) total) (seq 0 k).

(** The events of the packaging block. *)
Definition zip_event (e : event) : Prop :=
  match e with
  | io_call (OpZipOpen _) | io_call (OpZipWrite _ _)
  | io_call (OpDumpMetadata _) | io_call (OpZipClose _) => True
  | _ => False
  end.

(** [zipf.write(path, os.path.basename(path))] as a call. *)
Definition zip_call (p : pystr) : pystr * pystr := (p, basename p).

(** The trace every run starts with, and the texts of the outcomes. *)
Definition opening : list event :=
  [status_updated (py "Starting project clone..."); io_call (OpMkdtemp mkdtemp_path)].

Definition no_project_message : pystr := py "No project file is currently open.".

Definition success_message : pystr :=
  py "Project cloned successfully to: " ++ output_path self.

Definition error_message (e : pystr) : pystr := py "Error during cloning: " ++ e.

Definition project_backup_path : pystr := join mkdtemp_path (py "project.qgz").
Definition metadata_path : pystr := join mkdtemp_path (py "metadata.json").

(** The calls [zipf.write] of a run that copied the data files of the
    layers flagged in [copied]. *)
Definition archive_calls (copied : list bool) : list (pystr * pystr) :=
  (project_backup_path, py "project.qgz")
  :: List.map zip_call (layers_outputs mkdtemp_path (map_layers host) copied)
  ++ [(metadata_path, py "metadata.json")].

(** The progress values of a run that reaches the end. *)
Definition full_progress : list Z :=
  10 :: loop_progress (Z.of_nat (length (map_layers host))) 1 (length (map_layers host))
     ++ [100].

(** What removing the working area returns and what it leaves of the
    file system, and with it what [run] returns: the removal is the one
    call outside the [try] block. *)
Definition removal_result : res unit :=
  match fault host (OpRmtree mkdtemp_path) with
  | Some e => Raise e
  | None => Ret tt
  end.

Definition removal (f : FS) : FS :=
  match fault host (OpRmtree mkdtemp_path) with
  | Some _ => f
  | None => remove_tree mkdtemp_path f
  end.

Definition run_result : res unit :=
  match fault host (OpMkdtemp mkdtemp_path) with
  | Some _ => Ret tt
  | None => removal_result
  end.

(** What the [try] block leaves behind when the project is loaded and
    the working area exists: either it raised, before the outcome and
    before progress 100, or it went through. *)
Definition try_loaded (r : res unit) (s : State) (evs : list event) : Prop :=
  match r with
  | Raise e =>
      outcomes evs = []
      /\ (progress_values evs = []
          \/ exists k : nat,
               (k <= length (map_layers host))%nat
               /\ progress_values evs
                  = 10 :: loop_progress (Z.of_nat (length (map_layers host))) 1 k)
      /\ (blamed e \/ exists l, l ∈ map_layers host /\ no_directory l)
  | Ret _ =>
      outcomes evs = [(true, success_message)]
      /\ progress_values evs = full_progress
      /\ style_writes evs
         = List.map (fun l => (layer_id l, style_file mkdtemp_path l))
             (List.filter is_vector_or_raster (map_layers host))
      /\ exists copied : list bool,
           length copied = length (map_layers host)
           /\ (include_data self = false -> Forall (eq false) copied)
           /\ zip_writes evs = archive_calls copied
           /\ (exists c mid,
                 zipf s = (py "project.qgz", c) :: mid
                          ++ [(py "metadata.json",
                               ManifestDoc (metadata (length (map_layers host))))]
                 /\ length mid
                    = length (layers_outputs mkdtemp_path (map_layers host) copied))
           /\ files (fs s) !! output_path self = Some (ZipArchive (zipf s))
  end.

(** What the [except] clause adds to the trace. *)
Definition handler_events (r : res unit) : list event :=
  match r with
  | Raise e => [log_message e; finished_signal false (error_message e)]
  | Ret _ => []
  end.

(** What a run that fails has emitted as progress. *)
Definition partial_progress (vals : list Z) : Prop :=
  vals = []
  \/ exists k : nat,
       (k <= length (map_layers host))%nat
       /\ vals = 10 :: loop_progress (Z.of_nat (length (map_layers host))) 1 k.

(** The stages of [run]: the state once the snapshot is written and
    progress 10 is emitted, and what the [try] block, the [except]
    clause and the [finally] clause add to a state. *)
Definition snapshot_state : State :=
  {| fs := write_file project_backup_path (ProjectDoc (project_file host))
             (make_dir mkdtemp_path (initial_fs host));
     temp_dir := Some mkdtemp_path;
     zipf := [];
     trace := opening ++ [status_updated (py "Backing up project file...");
                          io_call (OpProjectWrite project_backup_path);
                          progress_updated 10] |}.

Definition packaging_state (s : State) : State :=
  record (status_updated (py "Creating ZIP package...")) s.

Definition finish_success (s : State) : State :=
  record (finished_signal true success_message)
    (record (status_updated (py "Clone completed successfully!"))
       (record (progress_updated 100) s)).

Definition handle_error (e : pystr) (s : State) : State :=
  record (finished_signal false (error_message e)) (record (log_message e) s).

Definition clean_up (s : State) : State :=
  set_fs removal (record (io_call (OpRmtree mkdtemp_path)) s).

(** The ways a run can go, by the stage that ends it. *)
Inductive run_path (s : State) : Prop :=
| path_no_working_area e :
    fault host (OpMkdtemp mkdtemp_path) = Some e ->
    s = handle_error e
          (record (io_call (OpMkdtemp mkdtemp_path))
             (record (status_updated (py "Starting project clone..."))
                (init_state (initial_fs host)))) ->
    run_path s
| path_no_project :
    fault host (OpMkdtemp mkdtemp_path) = None ->
    project_file host = [] ->
    s = clean_up
          {| fs := make_dir mkdtemp_path (initial_fs host);
             temp_dir := Some mkdtemp_path;
             zipf := [];
             trace := opening ++ [finished_signal false no_project_message] |} ->
    run_path s
| path_snapshot_failed e :
    fault host (OpMkdtemp mkdtemp_path) = None ->
    project_file host <> [] ->
    fault host (OpProjectWrite project_backup_path) = Some e ->
    s = clean_up
          (handle_error e
             {| fs := make_dir mkdtemp_path (initial_fs host);
                temp_dir := Some mkdtemp_path;
                zipf := [];
                trace := opening ++ [status_updated (py "Backing up project file...");
                                     io_call (OpProjectWrite project_backup_path)] |}) ->
    run_path s
| path_export_failed e sG :
    fault host (OpMkdtemp mkdtemp_path) = None ->
    project_file host <> [] ->
    fault host (OpProjectWrite project_backup_path) = None ->
    export_layers mkdtemp_path (Z.of_nat (length (map_layers host))) 1
      (map_layers host) [] snapshot_state = (Raise e, sG) ->
    s = clean_up (handle_error e sG) ->
    run_path s
| path_packaging_failed e lf sG sI :
    fault host (OpMkdtemp mkdtemp_path) = None ->
    project_file host <> [] ->
    fault host (OpProjectWrite project_backup_path) = None ->
    export_layers mkdtemp_path (Z.of_nat (length (map_layers host))) 1
      (map_layers host) [] snapshot_state = (Ret lf, sG) ->
    write_archive mkdtemp_path lf (length (map_layers host)) (packaging_state sG)
    = (Raise e, sI) ->
    s = clean_up (handle_error e sI) ->
    run_path s
| path_success lf sG sI :
    fault host (OpMkdtemp mkdtemp_path) = None ->
    project_file host <> [] ->
    fault host (OpProjectWrite project_backup_path) = None ->
    export_layers mkdtemp_path (Z.of_nat (length (map_layers host))) 1
      (map_layers host) [] snapshot_state = (Ret lf, sG) ->
    write_archive mkdtemp_path lf (length (map_layers host)) (packaging_state sG)
    = (Ret tt, sI) ->
    s = clean_up (finish_success sI) ->
    run_path s.

(** The paths the worker may write: the working area with what is below
    it, and the output path.  [confined_to W f f']: from [f] to [f'] only
    paths in [W] changed, and no directory was made or removed. *)
Definition in_working_area (p : pystr) : Prop := inside mkdtemp_path p = true.

Definition writable (p : pystr) : Prop :=
  in_working_area p \/ p = output_path self.

Definition confined_to (W : pystr -> Prop) (f f' : FS) : Prop :=
  dirs f' = dirs f
  /\ forall p, ~ W p -> files f' !! p = files f !! p.

Definition confined : FS -> FS -> Prop := confined_to writable.

(** The status texts of a trace, and the texts of a run that reaches the
    end: a layer that is neither vector nor raster is never named. *)
Definition statuses (tr : list event) : list pystr :=
  omap (fun e => match e with status_updated m => Some m | _ => None end) tr.

Definition processing (l : Layer) : pystr :=
  py "Processing layer: " ++ sanitize_filename (layer_name l).

Definition full_statuses : list pystr :=
  [py "Starting project clone..."; py "Backing up project file..."]
  ++ List.map processing (List.filter is_vector_or_raster (map_layers host))
  ++ [py "Creating ZIP package..."; py "Clone completed successfully!"].

(** The calls that read the data sources; the calls the layer loop may
    make, with the copies and the listings only when data files are
    included; the calls of the packaging block. *)
Definition copy_op (op : io_op) : bool :=
  match op with OpCopy2 _ _ | OpListdir _ => true | _ => false end.

Definition loop_op (op : io_op) : bool :=
  match op with
  | OpCopy2 _ _ | OpListdir _ => include_data self
  | OpSaveNamedStyle _ _ | OpWriteLayer _ _ => true
  | _ => false
  end.

Definition zip_op (op : io_op) : bool :=
  match op with
  | OpZipOpen _ | OpZipWrite _ _ | OpDumpMetadata _ | OpZipClose _ => true
  | _ => false
  end.

Definition loop_event (e : event) : Prop :=
  match e with
  | progress_updated _ | status_updated _ => True
  | io_call op => loop_op op = true
  | _ => False
  end.

(** [calls P s s']: from [s] to [s'] the trace grew by I/O calls in [P]
    and by nothing else. *)
Definition calls (P : io_op -> bool) (s s' : State) : Prop :=
  exists ops, trace s' = trace s ++ List.map io_call ops
              /\ Forall (fun op => P op = true) ops.

(** ** The slots of the plugin and of the dialog *)

Definition setText_edit (t : pystr) (d : Dialog) : Dialog :=
  {| output_path_edit := t;
     include_data_check := include_data_check d;
     clone_button_enabled := clone_button_enabled d;
     progress_bar := progress_bar d;
     status_label := status_label d |}.

Definition setEnabled (b : bool) (d : Dialog) : Dialog :=
  {| output_path_edit := output_path_edit d;
     include_data_check := include_data_check d;
     clone_button_enabled := b;
     progress_bar := progress_bar d;
     status_label := status_label d |}.

(** [QProgressBar.setValue] with the range 0..100 the bar is created
    with: a value outside the range is ignored. *)
Definition setValue (v : Z) (d : Dialog) : Dialog :=
  if ((0 <=? v) && (v <=? 100))%bool then
    {| output_path_edit := output_path_edit d;
       include_data_check := include_data_check d;
       clone_button_enabled := clone_button_enabled d;
       progress_bar := v;
       status_label := status_label d |}
  else d.

Definition setText (t : pystr) (d : Dialog) : Dialog :=
  {| output_path_edit := output_path_edit d;
     include_data_check := include_data_check d;
     clone_button_enabled := clone_button_enabled d;
     progress_bar := progress_bar d;
     status_label := t |}.

Definition show_box (b : message_box) (p : ProjectCloner) : ProjectCloner :=
  {| dialog := dialog p; clone_thread := clone_thread p; boxes := boxes p ++ [b] |}.

Definition with_dialog (f : Dialog -> Dialog) (p : ProjectCloner) : ProjectCloner :=
  {| dialog := f (dialog p); clone_thread := clone_thread p; boxes := boxes p |}.

(** [ProjectCloner.start_clone]; the thread it makes is started, and runs
    [CloneThread.run]. *)
Definition start_clone (p : ProjectCloner) : ProjectCloner :=
  let output_path' := output_path_edit (dialog p) in
  let include_data' := include_data_check (dialog p) in
  if is_empty output_path' then
    show_box (BoxWarning, py "Warning", py "Please select output path.") p
  else
    {| dialog := setText (py "Starting...") (setValue 0 (setEnabled false (dialog p)));
       clone_thread := Some {| output_path := output_path';
                               include_data := include_data' |};
       boxes := boxes p |}.

(** [ProjectCloner.clone_finished] *)
Definition clone_finished (success : bool) (message : pystr)
    (p : ProjectCloner) : ProjectCloner :=
  let d := setEnabled true (dialog p) in
  if success then
    {| dialog := setValue 100 d; clone_thread := None;
       boxes := boxes p ++ [(BoxInformation, py "Success", message)] |}
  else
    {| dialog := setValue 0 d; clone_thread := None;
       boxes := boxes p ++ [(BoxCritical, py "Error", message)] |}.

(** The connections [start_clone] makes: [progress_updated] to
    [progress_bar.setValue], [status_updated] to [status_label.setText],
    [finished_signal] to [clone_finished].  The signals reach the slots
    in the order of emission; the message log and the I/O calls are not
    seen by the plugin. *)
Definition deliver (e : event) (p : ProjectCloner) : ProjectCloner :=
  match e with
  | progress_updated v => with_dialog (setValue v) p
  | status_updated m => with_dialog (setText m) p
  | finished_signal ok m => clone_finished ok m p
  | log_message _ | io_call _ => p
  end.

Definition deliver_all (tr : list event) (p : ProjectCloner) : ProjectCloner :=
  fold_left (fun p e => deliver e p) tr p.

(** [str.lower] *)
Definition ascii_lower (c : char) : char :=
  if in_range (ch "A") (ch "Z") c then (c + 32)%N else c.

Fixpoint lower_from (os : Platform) (before s : pystr) : pystr :=
  match s with
  | [] => []
  | c :: rest =>
      (if N.ltb c 128 then [ascii_lower c] else unicode_lower os before c rest)
        ++ lower_from os (before ++ [c]) rest
  end.

Definition lower (os : Platform) (s : pystr) : pystr := lower_from os [] s.

(** [ProjectClonerDialog.browse_output_path]; [file_path] is what
    [QFileDialog.getSaveFileName] returns, empty when it is cancelled. *)
Definition browse_output_path (os : Platform) (file_path : pystr)
    (d : Dialog) : Dialog :=
  if is_empty file_path then d
  else
    let file_path :=
      if endswith (lower os file_path) (py ".zip") then file_path
      else file_path ++ py ".zip" in
    setText_edit file_path d.

(** [path[1:i]] and [path[i:]], for [i = path.find('/', 1)]. *)
Fixpoint until_sep (s : pystr) : pystr * pystr :=
  match s with
  | [] => ([], [])
  | c :: rest =>
      if N.eqb c sep then ([], s)
      else let (a, b) := until_sep rest in (c :: a, b)
  end.

(** [os.path.expanduser] *)
Definition expanduser (os : Platform) (path : pystr) : pystr :=
  match path with
  | c :: rest =>
      if N.eqb c (ch "~") then
        let (user, tail) := until_sep rest in
        match homes os user with
        | Some userhome =>
            let r := rstrip_sep userhome ++ tail in
            if is_empty r then [sep] else r
        | None => path
        end
      else path
  | [] => path
  end.

(** [ProjectClonerDialog.set_default_output_path] *)
Definition default_name (os : Platform) : pystr :=
  (splitext (basename (project_file host))).1
    ++ py "_clone_" ++ strftime_now os ++ py ".zip".

Definition set_default_output_path (os : Platform) (d : Dialog) : Dialog :=
  let project_file := project_file host in
  if is_empty project_file then d
  else
    let name := default_name os in
    let desktop := expanduser os (py "~/Desktop") in
    let default :=
      if path_exists (initial_fs host) desktop then join desktop name
      else expanduser os (py "~/" ++ name) in
    setText_edit default d.

(** The widgets as [init_ui] leaves them. *)
Definition init_ui (os : Platform) : Dialog :=
  set_default_output_path os
    {| output_path_edit := [];
       include_data_check := true;
       clone_button_enabled := true;
       progress_bar := 0;
       status_label := py "Ready to clone project" |}.

(** The events of one layer after its progress value: none for a layer
    that is neither vector nor raster, else the status text naming the
    layer and then calls of the loop. *)
Definition layer_block (l : Layer) (b : list event) : Prop :=
  if is_vector_or_raster l
  then exists ops, b = status_updated (processing l) :: List.map io_call ops
                   /\ Forall (fun op => loop_op op = true) ops
  else b = [].

(** The events of the layer loop as the run emits them: for each layer
    in turn, from the [i]-th on, its progress value and then the events
    of its block. *)
Fixpoint loop_trace (total i : Z) (blocks : list (list event)) : list event :=
  match blocks with
  | [] => []
  | b :: rest =>
      progress_updated (interpolate i total) :: b ++ loop_trace total (i + 1) rest
  end.

(** Strictly below the working area: the paths the layer loop writes. *)
Definition below_working_area (p : pystr) : Prop :=
  startswith p (join mkdtemp_path []) = true.

(** ** Strings and paths *)

Lemma rfind_from_absent c s i acc :
  c ∉ s -> rfind_from c s i acc = acc.
Proof.
  revert i acc. induction s as [|x s IH]; intros i acc Hc; simpl; [done|].
  apply not_elem_of_cons in Hc as [Hx Hs].
  destruct (N.eqb_spec x c) as [->|_]; [done|]. by apply IH.
Qed.

Lemma rfind_from_last c a b i acc :
  c ∉ b -> rfind_from c (a ++ c :: b) i acc = i + Z.of_nat (length a).
Proof.
  revert i acc. induction a as [|x a IH]; intros i acc Hc; simpl.
  - rewrite N.eqb_refl, rfind_from_absent by done. lia.
  - rewrite IH by done. lia.
Qed.

Lemma rfind_absent s c : c ∉ s -> rfind s c = -1.
Proof. apply rfind_from_absent. Qed.

Lemma rfind_last a b c : c ∉ b -> rfind (a ++ c :: b) c = Z.of_nat (length a).
Proof. intros. unfold rfind. by rewrite rfind_from_last. Qed.

(** The last occurrence of a character splits the string. *)
Lemma last_occurrence (c : char) (s : pystr) :
  c ∈ s -> exists a b, s = a ++ c :: b /\ c ∉ b.
Proof.
  induction s as [|x s IH]; intros Hin; [by apply elem_of_nil in Hin|].
  destruct (decide (c ∈ s)) as [Hs|Hs].
  - destruct (IH Hs) as (a & b & -> & Hb). by exists (x :: a), b.
  - apply elem_of_cons in Hin as [->|]; [|done]. by exists [], s.
Qed.

Lemma basename_no_sep x : sep ∉ x -> basename x = x.
Proof. intros H. unfold basename, slice_from. by rewrite rfind_absent. Qed.

Lemma basename_after_sep a x : sep ∉ x -> basename (a ++ sep :: x) = x.
Proof.
  intros H. unfold basename, slice_from. rewrite rfind_last by done.
  replace (Z.to_nat (Z.of_nat (length a) + 1)) with (length a + 1)%nat by lia.
  rewrite <- drop_drop, drop_app_length. done.
Qed.

Lemma startswith_cons_inv s c : startswith s [c] = true -> exists s', s = c :: s'.
Proof.
  destruct s as [|y s]; simpl; [done|].
  rewrite andb_true_r. intros ->%N.eqb_eq. by exists s.
Qed.

Lemma endswith_inv s c : endswith s [c] = true -> exists s', s = s' ++ [c].
Proof.
  unfold endswith. simpl. intros [r Hr]%startswith_cons_inv.
  exists (rev r). by rewrite <- (rev_involutive s), Hr.
Qed.

(** A base name put below a directory is found again by [basename]. *)
Lemma basename_join t x : sep ∉ x -> basename (join t x) = x.
Proof.
  intros H. unfold join.
  destruct (startswith x [sep]) eqn:Hx.
  { apply startswith_cons_inv in Hx as [x' ->]. destruct H.
    apply elem_of_cons. by left. }
  destruct (is_empty t) eqn:Ht; simpl.
  { destruct t; [|done]. by apply basename_no_sep. }
  destruct (endswith t [sep]) eqn:He.
  - apply endswith_inv in He as [t' ->].
    rewrite <- app_assoc. by apply basename_after_sep.
  - by apply basename_after_sep.
Qed.

(** The extension [splitext] returns never contains a separator. *)
Lemma splitext_ext_no_sep p : sep ∉ (splitext p).2.
Proof.
  unfold splitext.
  destruct (rfind p dot >? rfind p sep) eqn:Hgt; simpl; [|apply not_elem_of_nil].
  destruct (existsb _ _); simpl; [|apply not_elem_of_nil].
  apply Z.gtb_lt in Hgt.
  destruct (decide (dot ∈ p)) as [Hd|Hd].
  2:{ rewrite (rfind_absent p dot) in Hgt by done.
      destruct (decide (sep ∈ p)) as [Hs|Hs].
      - destruct (last_occurrence _ _ Hs) as (a & b & -> & Hb).
        rewrite rfind_last in Hgt by done. lia.
      - rewrite rfind_absent in Hgt by done. lia. }
  destruct (last_occurrence _ _ Hd) as (a & b & -> & Hb).
  rewrite rfind_last in Hgt |- * by done.
  unfold slice_from. rewrite Nat2Z.id, drop_app_length.
  intros Hin. apply elem_of_cons in Hin as [Hin|Hin]; [done|].
  assert (Hs : sep ∈ a ++ dot :: b).
  { apply elem_of_app. right. apply elem_of_cons. by right. }
  destruct (last_occurrence _ _ Hs) as (a' & b' & Heq & Hb').
  rewrite Heq, rfind_last in Hgt by done.
  assert (Hlen : (length a' < length a)%nat) by lia.
  apply (f_equal (drop (S (length a')))) in Heq.
  rewrite (drop_app_le a) in Heq by lia.
  replace (S (length a')) with (length a' + 1)%nat in Heq at 2 by lia.
  rewrite <- drop_drop, drop_app_length in Heq. simpl in Heq.
  rewrite drop_0 in Heq.
  apply Hb'. rewrite <- Heq. apply elem_of_app. right. apply elem_of_cons. by right.
Qed.


(** ** [sanitize_filename] *)

Lemma keeps_allowed c : keeps c = true <-> allowed c.
Proof.
  unfold keeps, allowed. cbn [existsb].
  rewrite orb_false_r, !orb_true_iff, !N.eqb_eq. tauto.
Qed.

Lemma keeps_underscore : keeps (ch "_") = true.
Proof. apply keeps_allowed. unfold allowed. tauto. Qed.

Lemma keeps_not_sep c : keeps c = true -> c <> sep /\ c <> dot.
Proof.
  intros H. split; intros ->; revert H; unfold keeps, isalnum; by vm_compute.
Qed.

Lemma sanitize_char_keeps c : keeps (if keeps c then c else ch "_") = true.
Proof. destruct (keeps c) eqn:H; [done|apply keeps_underscore]. Qed.

Lemma sanitize_filename_allowed name : Forall allowed (sanitize_filename name).
Proof.
  unfold sanitize_filename. apply Forall_forall. intros c Hc.
  apply list_elem_of_In, in_map_iff in Hc as (c0 & <- & _).
  apply keeps_allowed, sanitize_char_keeps.
Qed.

Lemma sanitize_filename_no_sep name :
  (sep ∉ sanitize_filename name) /\ (dot ∉ sanitize_filename name).
Proof.
  pose proof (sanitize_filename_allowed name) as H.
  rewrite Forall_forall in H.
  split; intros Hin; apply H, keeps_allowed, keeps_not_sep in Hin; tauto.
Qed.

Lemma basename_style_file t l :
  basename (style_file t l) = sanitize_filename (layer_name l) ++ py ".qml".
Proof.
  apply basename_join. rewrite elem_of_app.
  intros [H|H]; [by apply sanitize_filename_no_sep in H|].
  exact (bool_decide_unpack (sep ∉ py ".qml") I H).
Qed.

Lemma basename_layer_def_file t l :
  basename (layer_def_file t l) = sanitize_filename (layer_name l) ++ py ".qlr".
Proof.
  apply basename_join. rewrite elem_of_app.
  intros [H|H]; [by apply sanitize_filename_no_sep in H|].
  exact (bool_decide_unpack (sep ∉ py ".qlr") I H).
Qed.



(** C9: sanitizing is idempotent and keeps the number of characters. *)
Theorem sanitize_filename_idempotent_length (s : pystr) :
  sanitize_filename (sanitize_filename s) = sanitize_filename s
  /\ length (sanitize_filename s) = length s.
Proof.
  unfold sanitize_filename. split; [|apply length_map].
  rewrite map_map. apply map_ext. intros c.
  by rewrite sanitize_char_keeps.
Qed.


(** ** The file system under the worker's operations *)

Lemma isfile_write_file p c f q :
  isfile (write_file p c f) q = (bool_decide (p = q) || isfile f q)%bool.
Proof.
  unfold isfile, write_file. simpl. rewrite lookup_insert.
  destruct (decide (p = q)) as [->|Hne].
  - by rewrite bool_decide_eq_true_2.
  - by rewrite bool_decide_eq_false_2.
Qed.

Lemma isfile_write_file_same p c f : isfile (write_file p c f) p = true.
Proof. rewrite isfile_write_file. by rewrite bool_decide_eq_true_2. Qed.

Lemma isfile_write_file_mono p c f q :
  isfile f q = true -> isfile (write_file p c f) q = true.
Proof. rewrite isfile_write_file. intros ->. apply orb_true_r. Qed.

Lemma isfile_lookup f p : isfile f p = true -> exists c, files f !! p = Some c.
Proof. unfold isfile. destruct (files f !! p); [eauto|done]. Qed.

Lemma frame_refl s : frame s s.
Proof. by repeat split. Qed.

Lemma frame_trans s1 s2 s3 : frame s1 s2 -> frame s2 s3 -> frame s1 s3.
Proof.
  intros (Ht1 & Hd1 & Hf1) (Ht2 & Hd2 & Hf2). repeat split.
  - congruence.
  - congruence.
  - auto.
Qed.

Lemma frame_record e s : frame s (record e s).
Proof. by repeat split. Qed.

Lemma frame_write p c s : frame s (set_fs (write_file p c) s).
Proof. repeat split; try done. intros q. apply isfile_write_file_mono. Qed.

Lemma frame_record_write e p c s : frame s (set_fs (write_file p c) (record e s)).
Proof. repeat split; try done. intros q. apply isfile_write_file_mono. Qed.

Lemma frame_set_zipf z s : frame s (set_zipf z s).
Proof. by repeat split. Qed.

Lemma frame_isdir s s' p : frame s s' -> isdir (fs s') p = isdir (fs s) p.
Proof. intros (_ & Hd & _). unfold isdir. by rewrite Hd. Qed.

Lemma frame_path_exists s s' p :
  frame s s' -> path_exists (fs s) p = true -> path_exists (fs s') p = true.
Proof.
  intros Hf. unfold path_exists. rewrite (frame_isdir _ _ _ Hf).
  destruct Hf as (_ & _ & Hf). rewrite !orb_true_iff. intros [H|H]; auto.
Qed.

(** ** Observations distribute over concatenation *)

Lemma progress_values_app a b :
  progress_values (a ++ b) = progress_values a ++ progress_values b.
Proof. apply omap_app. Qed.

Lemma outcomes_app a b : outcomes (a ++ b) = outcomes a ++ outcomes b.
Proof. apply omap_app. Qed.

Lemma logged_app a b : logged (a ++ b) = logged a ++ logged b.
Proof. apply omap_app. Qed.

Lemma io_calls_app a b : io_calls (a ++ b) = io_calls a ++ io_calls b.
Proof. apply omap_app. Qed.

Lemma style_writes_app a b : style_writes (a ++ b) = style_writes a ++ style_writes b.
Proof. unfold style_writes. by rewrite io_calls_app, omap_app. Qed.

Lemma zip_writes_app a b : zip_writes (a ++ b) = zip_writes a ++ zip_writes b.
Proof. unfold zip_writes. by rewrite io_calls_app, omap_app. Qed.

Lemma copy_layer_event e : copy_event e -> layer_event e.
Proof. by destruct e as [| | | |[]]. Qed.

Lemma copy_events_no_style evs : Forall copy_event evs -> style_writes evs = [].
Proof.
  induction 1 as [|e evs He _ IH]; [done|].
  change (e :: evs) with ([e] ++ evs). rewrite style_writes_app, IH.
  by destruct e as [| | | |[]].
Qed.

Lemma layer_events_silent evs :
  Forall layer_event evs ->
  progress_values evs = [] /\ outcomes evs = [] /\ logged evs = []
  /\ zip_writes evs = [].
Proof.
  induction 1 as [|e evs He _ (IH1 & IH2 & IH3 & IH4)]; [done|].
  change (e :: evs) with ([e] ++ evs).
  rewrite progress_values_app, outcomes_app, logged_app, zip_writes_app.
  rewrite IH1, IH2, IH3, IH4.
  by destruct e as [| | | |[]].
Qed.



(** ** The layer loop *)

Lemma perform_spec op effect s :
  (fault host op = None /\
   perform op effect s = (Ret tt, set_fs effect (record (io_call op) s)))
  \/ (exists e, fault host op = Some e /\
      perform op effect s = (Raise e, record (io_call op) s)).
Proof.
  unfold perform. destruct (fault host op) as [e|]; [right|left]; eauto.
Qed.

Lemma copy2_spec src dst s :
  isfile (fs s) src = true ->
  match copy2 src dst s with
  | (r, s') =>
      frame s s' /\ zipf s' = zipf s
      /\ trace s' = trace s ++ [io_call (OpCopy2 src dst)]
      /\ match r with
         | Ret _ => path_exists (fs s') dst = true
         | Raise e => blamed e
         end
  end.
Proof.
  intros [c Hc]%isfile_lookup. unfold copy2. rewrite Hc.
  destruct (perform_spec (OpCopy2 src dst)
              (write_file (if isdir (fs s) dst then join dst (basename src) else dst) c) s)
    as [[Hf ->]|(e & Hf & ->)].
  - repeat split; try done.
    + intros p. apply isfile_write_file_mono.
    + unfold path_exists. simpl.
      destruct (isdir (fs s) dst) eqn:Hd.
      * unfold isdir in *. simpl. rewrite Hd. apply orb_true_r.
      * by rewrite isfile_write_file_same.
  - repeat split; try done. by exists (OpCopy2 src dst).
Qed.

Lemma copy_matching_spec base_name base_dir dest_dir names s :
  match copy_matching base_name base_dir dest_dir names s with
  | (r, s') =>
      frame s s' /\ zipf s' = zipf s
      /\ exists evs, trace s' = trace s ++ evs /\ Forall copy_event evs
         /\ match r with Ret _ => True | Raise e => blamed e end
  end.
Proof.
  revert s. induction names as [|f rest IH]; intros s; simpl.
  { split; [apply frame_refl|]. split; [done|].
    exists []. by rewrite app_nil_r. }
  unfold bind at 1.
  assert (Hstep :
    match copy_if_matching base_name base_dir dest_dir f s with
    | (r, s') =>
        frame s s' /\ zipf s' = zipf s
        /\ exists evs, trace s' = trace s ++ evs /\ Forall copy_event evs
           /\ match r with Ret _ => True | Raise e => blamed e end
    end).
  { unfold copy_if_matching. destruct (startswith f base_name).
    - unfold bind, get_fs.
      destruct (isfile (fs s) (join base_dir f)) eqn:Hf.
      + pose proof (copy2_spec (join base_dir f) dest_dir s Hf) as H.
        destruct (copy2 (join base_dir f) dest_dir s) as [r s'].
        destruct H as (H1 & H2 & H3 & H4). repeat split; try apply H1; try done.
        eexists. split; [exact H3|]. split; [by repeat constructor|].
        by destruct r.
      + split; [apply frame_refl|]. split; [done|].
        exists []. by rewrite app_nil_r.
    - split; [apply frame_refl|]. split; [done|].
      exists []. by rewrite app_nil_r. }
  destruct (copy_if_matching base_name base_dir dest_dir f s) as [[[]|e] s1].
  - destruct Hstep as (Hf1 & Hz1 & evs1 & Ht1 & He1 & _).
    specialize (IH s1).
    destruct (copy_matching base_name base_dir dest_dir rest s1) as [r s2].
    destruct IH as (Hf2 & Hz2 & evs2 & Ht2 & He2 & Hr).
    split; [by eapply frame_trans|]. split; [congruence|].
    exists (evs1 ++ evs2). rewrite Ht2, Ht1, app_assoc.
    split; [done|]. split; [by apply Forall_app|]. done.
  - done.
Qed.

Lemma copy_associated_files_spec source dest_dir s :
  match _copy_associated_files source dest_dir s with
  | (r, s') =>
      frame s s' /\ zipf s' = zipf s
      /\ exists evs, trace s' = trace s ++ evs /\ Forall copy_event evs
         /\ match r with
            | Ret _ => True
            | Raise e => blamed e \/ dirname source = []
            end
  end.
Proof.
  unfold _copy_associated_files, bind, listdir. cbv beta.
  destruct (is_empty (dirname source)) eqn:Hd.
  { split; [apply frame_record|]. split; [done|].
    eexists. split; [reflexivity|]. split; [by repeat constructor|].
    right. by destruct (dirname source). }
  unfold bind.
  destruct (perform_spec (OpListdir (dirname source)) id s)
    as [[Hf ->]|(e & Hf & ->)]; unfold ret.
  - pose proof (copy_matching_spec (splitext (basename source)).1 (dirname source)
                  dest_dir (dir_entries (fs s) (dirname source))
                  (set_fs id (record (io_call (OpListdir (dirname source))) s))) as H.
    destruct (copy_matching _ _ _ _ _) as [r s'].
    destruct H as (H1 & H2 & evs & H3 & H4 & H5).
    split. { eapply frame_trans; [|exact H1]. by repeat split. }
    split; [by rewrite H2|].
    exists (io_call (OpListdir (dirname source)) :: evs).
    split. { rewrite H3. simpl. by rewrite <- app_assoc. }
    split; [by constructor|]. destruct r; [done|by left].
  - split; [apply frame_record|]. split; [done|].
    eexists. split; [reflexivity|]. split; [by repeat constructor|].
    left. by exists (OpListdir (dirname source)).
Qed.


Lemma copy_data_files_spec t l lf s :
  match copy_data_files t l lf s with
  | (r, s') =>
      frame s s' /\ zipf s' = zipf s
      /\ exists evs, trace s' = trace s ++ evs /\ Forall copy_event evs
         /\ match r with
            | Ret lf' =>
                exists copied : bool,
                  lf' = lf ++ (if copied then [data_file t l] else [])
                  /\ (copied = true -> include_data self = true)
                  /\ (copied = true -> path_exists (fs s') (data_file t l) = true)
            | Raise e => blamed e \/ no_directory l
            end
  end.
Proof.
  unfold copy_data_files, bind, get_fs. cbv beta.
  destruct (include_data self && isfile (fs s) (layer_source l))%bool eqn:Hc.
  2:{ split; [apply frame_refl|]. split; [done|].
      exists []. rewrite !app_nil_r. repeat split; try done.
      exists false. by rewrite app_nil_r. }
  apply andb_true_iff in Hc as [Hinc Hsrc].
  pose proof (copy2_spec (layer_source l) (data_file t l) s Hsrc) as H.
  destruct (copy2 (layer_source l) (data_file t l) s) as [[[]|e] s1];
    destruct H as (Hf1 & Hz1 & Ht1 & Hr1).
  2:{ repeat split; try apply Hf1; try done.
      eexists. split; [exact Ht1|]. split; [by repeat constructor|]. by left. }
  pose proof (copy_associated_files_spec (layer_source l) t s1) as H.
  destruct (_copy_associated_files (layer_source l) t s1) as [[[]|e] s2];
    destruct H as (Hf2 & Hz2 & evs & Ht2 & He2 & Hr2).
  - split; [by eapply frame_trans|]. split; [congruence|].
    exists (io_call (OpCopy2 (layer_source l) (data_file t l)) :: evs).
    split. { rewrite Ht2, Ht1. by rewrite <- app_assoc. }
    split; [by constructor|].
    exists true. repeat split; try done.
    intros _. by eapply frame_path_exists.
  - split; [by eapply frame_trans|]. split; [congruence|].
    exists (io_call (OpCopy2 (layer_source l) (data_file t l)) :: evs).
    split. { rewrite Ht2, Ht1. by rewrite <- app_assoc. }
    split; [by constructor|].
    destruct Hr2 as [Hb|Hd]; [by left|by right].
Qed.

Lemma save_layer_style_spec t l lf s :
  match save_layer_style t l lf s with
  | (r, s') =>
      frame s s' /\ zipf s' = zipf s
      /\ trace s' = trace s ++ [io_call (OpSaveNamedStyle (layer_id l) (style_file t l))]
      /\ match r with
         | Ret lf' => lf' = lf ++ [style_file t l]
                      /\ isfile (fs s') (style_file t l) = true
         | Raise e => blamed e
         end
  end.
Proof.
  unfold save_layer_style, saveNamedStyle, bind.
  destruct (perform_spec (OpSaveNamedStyle (layer_id l) (style_file t l))
              (write_file (style_file t l) (StyleDoc (layer_id l))) s)
    as [[Hf ->]|(e & Hf & ->)]; unfold ret.
  - split; [apply frame_record_write|].
    repeat split; try done. simpl. apply isfile_write_file_same.
  - split; [apply frame_record|]. repeat split; try done.
    by exists (OpSaveNamedStyle (layer_id l) (style_file t l)).
Qed.

(** The definition block never raises: it adds the definition file when
    [writeLayer] exists and returns, and nothing otherwise. *)
Lemma save_layer_definition_spec t l lf s :
  exists s',
    save_layer_definition t l lf s
    = (Ret (lf ++ (if def_written t l then [layer_def_file t l] else [])), s')
    /\ frame s s' /\ zipf s' = zipf s
    /\ (exists evs, trace s' = trace s ++ evs /\ Forall layer_event evs
                    /\ style_writes evs = [])
    /\ (def_written t l = true -> isfile (fs s') (layer_def_file t l) = true).
Proof.
  unfold save_layer_definition, def_written.
  destruct (is_vector l); simpl.
  2:{ exists s. rewrite app_nil_r. split; [done|]. split; [apply frame_refl|].
      split; [done|]. split; [|done]. exists []. by rewrite app_nil_r. }
  destruct (has_writeLayer host); simpl.
  2:{ exists s. rewrite app_nil_r. split; [done|]. split; [apply frame_refl|].
      split; [done|]. split; [|done]. exists []. by rewrite app_nil_r. }
  unfold try_except, bind, writeLayer.
  destruct (perform_spec (OpWriteLayer (layer_id l) (layer_def_file t l))
              (write_file (layer_def_file t l) (LayerDefDoc (layer_id l))) s)
    as [[Hf ->]|(e & Hf & ->)]; unfold ret; rewrite Hf.
  - rewrite bool_decide_eq_true_2 by done.
    eexists. split; [reflexivity|].
    split; [apply frame_record_write|].
    split; [done|]. split.
    + eexists. split; [reflexivity|]. split; [by repeat constructor|done].
    + intros _. simpl. apply isfile_write_file_same.
  - rewrite bool_decide_eq_false_2 by done. rewrite app_nil_r.
    eexists. split; [reflexivity|]. split; [apply frame_record|].
    split; [done|]. split; [|done].
    eexists. split; [reflexivity|]. split; [by repeat constructor|done].
Qed.


Lemma export_layer_spec t total i l lf s :
  total <> 0 ->
  match export_layer t total i l lf s with
  | (r, s') =>
      frame s s' /\ zipf s' = zipf s
      /\ exists evs,
           trace s' = trace s ++ progress_updated (interpolate i total) :: evs
           /\ Forall layer_event evs
           /\ match r with
              | Ret lf' =>
                  style_writes evs
                  = (if is_vector_or_raster l
                     then [(layer_id l, style_file t l)] else [])
                  /\ exists copied : bool,
                       lf' = lf ++ layer_outputs t l copied
                       /\ (copied = true -> include_data self = true)
                       /\ Forall (fun p => path_exists (fs s') p = true)
                                 (layer_outputs t l copied)
              | Raise e => blamed e \/ no_directory l
              end
  end.
Proof.
  intros Htotal. unfold export_layer, progress_of.
  destruct (Z.eqb_spec total 0) as [|_]; [done|].
  unfold bind at 1 2, ret at 1, emit at 1. cbv beta.
  unfold layer_outputs.
  destruct (is_vector_or_raster l) eqn:Hk.
  2:{ unfold ret. split; [apply frame_record|]. split; [done|].
      exists []. split; [done|]. split; [done|]. split; [done|].
      exists false. rewrite app_nil_r. by repeat split. }
  unfold bind at 1, emit at 1.
  set (s1 := record (status_updated _) (record (progress_updated _) s)).
  assert (Hf01 : frame s s1) by done.
  unfold bind at 1.
  pose proof (copy_data_files_spec t l lf s1) as H.
  destruct (copy_data_files t l lf s1) as [[lf1|e] s2];
    destruct H as (Hf12 & Hz12 & evs1 & Ht12 & He1 & Hr1).
  2:{ split; [by eapply frame_trans|]. split; [by rewrite Hz12|].
      exists (status_updated
                (py "Processing layer: " ++ sanitize_filename (layer_name l)) :: evs1).
      split. { rewrite Ht12. subst s1. simpl. by rewrite <- !app_assoc. }
      split; [|done]. constructor; [done|].
      eapply Forall_impl; [exact He1|apply copy_layer_event]. }
  destruct Hr1 as (copied & -> & Hinc & Hex1).
  unfold bind.
  pose proof (save_layer_style_spec t l (lf ++ (if copied then [data_file t l] else [])) s2)
    as H.
  destruct (save_layer_style t l _ s2) as [[lf2|e] s3];
    destruct H as (Hf23 & Hz23 & Ht23 & Hr2).
  2:{ split; [eapply frame_trans; [|exact Hf23]; by eapply frame_trans|].
      split; [by rewrite Hz23, Hz12|].
      eexists (status_updated _ :: evs1 ++ [_]).
      split. { rewrite Ht23, Ht12. subst s1. simpl. by rewrite <- !app_assoc. }
      split; [|by left]. constructor; [done|]. apply Forall_app. split.
      - eapply Forall_impl; [exact He1|apply copy_layer_event].
      - by repeat constructor. }
  destruct Hr2 as [-> Hsty].
  destruct (save_layer_definition_spec t l
              ((lf ++ (if copied then [data_file t l] else [])) ++ [style_file t l]) s3)
    as (s4 & -> & Hf34 & Hz34 & (evs3 & Ht34 & He3 & Hs3) & Hdef).
  assert (Hf14 : frame s1 s4).
  { eapply frame_trans; [|exact Hf34]. by eapply frame_trans. }
  split; [by eapply frame_trans|]. split; [by rewrite Hz34, Hz23, Hz12|].
  exists (status_updated
            (py "Processing layer: " ++ sanitize_filename (layer_name l))
          :: evs1
          ++ [io_call (OpSaveNamedStyle (layer_id l) (style_file t l))] ++ evs3).
  split. { rewrite Ht34, Ht23, Ht12. subst s1. simpl. by rewrite <- !app_assoc. }
  split.
  { constructor; [done|]. apply Forall_app. split.
    - eapply Forall_impl; [exact He1|apply copy_layer_event].
    - apply Forall_app. split; [by repeat constructor|done]. }
  split.
  { change (status_updated ?m :: ?r) with ([status_updated m] ++ r).
    rewrite !style_writes_app, Hs3, (copy_events_no_style evs1) by done. done. }
  exists copied. split; [by rewrite <- !app_assoc|]. split; [done|].
  apply Forall_app. split.
  { destruct copied; [|done]. repeat constructor.
    eapply frame_path_exists; [|by apply Hex1].
    by eapply frame_trans. }
  apply Forall_app. split.
  { repeat constructor. eapply frame_path_exists; [exact Hf34|].
    unfold path_exists. by rewrite Hsty. }
  destruct (def_written t l) eqn:Hw; [|done].
  repeat constructor. unfold path_exists. by rewrite Hdef.
Qed.


Lemma loop_progress_S total i k :
  loop_progress total i (S k) = interpolate i total :: loop_progress total (i + 1) k.
Proof.
  unfold loop_progress. simpl. rewrite Z.add_0_r. f_equal.
  rewrite <- seq_shift, map_map. apply map_ext. intros j. f_equal. lia.
Qed.

Lemma export_layers_spec t total ls : forall i lf s,
  (ls <> [] -> total <> 0) ->
  match export_layers t total i ls lf s with
  | (r, s') =>
      frame s s' /\ zipf s' = zipf s
      /\ exists evs (k : nat),
           trace s' = trace s ++ evs
           /\ (k <= length ls)%nat
           /\ progress_values evs = loop_progress total i k
           /\ outcomes evs = [] /\ logged evs = [] /\ zip_writes evs = []
           /\ match r with
              | Ret lf' =>
                  k = length ls
                  /\ style_writes evs
                     = List.map (fun l => (layer_id l, style_file t l))
                         (List.filter is_vector_or_raster ls)
                  /\ exists copied : list bool,
                       length copied = length ls
                       /\ lf' = lf ++ layers_outputs t ls copied
                       /\ (include_data self = false -> Forall (eq false) copied)
                       /\ Forall (fun p => path_exists (fs s') p = true)
                                 (layers_outputs t ls copied)
              | Raise e => blamed e \/ exists l, l ∈ ls /\ no_directory l
              end
  end.
Proof.
  induction ls as [|l rest IH]; intros i lf s Htotal; simpl.
  { split; [apply frame_refl|]. split; [done|].
    exists [], 0%nat. rewrite app_nil_r. repeat split; try done.
    exists []. rewrite app_nil_r. by repeat split. }
  assert (Ht : total <> 0) by (by apply Htotal).
  unfold bind.
  pose proof (export_layer_spec t total i l lf s Ht) as H.
  destruct (export_layer t total i l lf s) as [[lf1|e] s1];
    destruct H as (Hf1 & Hz1 & evs1 & Ht1 & He1 & Hr1);
    destruct (layer_events_silent _ He1) as (Hp1 & Ho1 & Hl1 & Hzw1).
  2:{ split; [done|]. split; [done|].
      exists (progress_updated (interpolate i total) :: evs1), 1%nat.
      split; [done|]. split; [lia|].
      change (?e :: evs1) with ([e] ++ evs1).
      rewrite progress_values_app, outcomes_app, logged_app, zip_writes_app.
      rewrite Hp1, Ho1, Hl1, Hzw1, loop_progress_S. repeat split; try done.
      destruct Hr1 as [Hb|Hd]; [by left|right]. exists l. split; [|done].
      apply elem_of_cons. by left. }
  destruct Hr1 as (Hsw1 & c1 & -> & Hinc1 & Hex1).
  specialize (IH (i + 1) (lf ++ layer_outputs t l c1) s1 (fun _ => Ht)).
  destruct (export_layers t total (i + 1) rest _ s1) as [r s2].
  destruct IH as (Hf2 & Hz2 & evs2 & k & Ht2 & Hk & Hp2 & Ho2 & Hl2 & Hzw2 & Hr2).
  split; [by eapply frame_trans|]. split; [congruence|].
  exists ((progress_updated (interpolate i total) :: evs1) ++ evs2), (S k).
  split. { rewrite Ht2, Ht1. by rewrite <- !app_assoc. }
  split; [lia|].
  change (?e :: evs1) with ([e] ++ evs1).
  rewrite !progress_values_app, !outcomes_app, !logged_app, !zip_writes_app.
  rewrite Hp1, Ho1, Hl1, Hzw1, Hp2, Ho2, Hl2, Hzw2, loop_progress_S.
  repeat split; try done.
  destruct r as [lf2|e].
  - destruct Hr2 as (-> & Hsw2 & cs & Hlen & -> & Hinc2 & Hex2).
    split; [done|]. split.
    { rewrite !style_writes_app, Hsw1, Hsw2. simpl.
      by destruct (is_vector_or_raster l). }
    exists (c1 :: cs). split; [simpl; lia|].
    split. { unfold layers_outputs. simpl. by rewrite <- app_assoc. }
    split.
    { intros Hno. constructor; [|by apply Hinc2].
      destruct c1; [|done]. rewrite Hinc1 in Hno; done. }
    unfold layers_outputs. simpl. apply Forall_app. split; [|done].
    eapply Forall_impl; [exact Hex1|]. intros p. by apply frame_path_exists.
  - destruct Hr2 as [Hb|(l' & Hin & Hd)]; [by left|right].
    exists l'. split; [|done]. apply elem_of_cons. by right.
Qed.


(** ** The packaging block *)

Lemma zip_events_silent evs :
  Forall zip_event evs ->
  progress_values evs = [] /\ outcomes evs = [] /\ logged evs = []
  /\ style_writes evs = [].
Proof.
  induction 1 as [|e evs He _ (IH1 & IH2 & IH3 & IH4)]; [done|].
  change (e :: evs) with ([e] ++ evs).
  rewrite progress_values_app, outcomes_app, logged_app, style_writes_app.
  rewrite IH1, IH2, IH3, IH4.
  by destruct e as [| | | |[]].
Qed.

Lemma zip_write_spec p arcname s :
  path_exists (fs s) p = true ->
  match zip_write p arcname s with
  | (r, s') =>
      fs s' = fs s /\ temp_dir s' = temp_dir s
      /\ trace s' = trace s ++ [io_call (OpZipWrite p arcname)]
      /\ match r with
         | Ret _ =>
             exists m, zipf s' = zipf s ++ [m]
                       /\ forall c, files (fs s) !! p = Some c -> m = (arcname, c)
         | Raise e => zipf s' = zipf s /\ blamed e
         end
  end.
Proof.
  intros Hex. unfold zip_write, path_exists, isfile in *.
  set (entry := match files (fs s) !! p with
                | Some c => Some (arcname, c)
                | None => if isdir (fs s) p
                          then Some (dir_arcname arcname, DirMember) else None
                end).
  assert (Hentry : exists m, entry = Some m
            /\ forall c, files (fs s) !! p = Some c -> m = (arcname, c)).
  { subst entry. destruct (files (fs s) !! p) as [c|].
    - eexists. split; [done|]. by intros ? [= ->].
    - simpl in Hex. rewrite Hex. eexists. split; [done|]. done. }
  destruct Hentry as (m & -> & Hm). unfold bind.
  destruct (perform_spec (OpZipWrite p arcname) id s) as [[Hf ->]|(e & Hf & ->)].
  - repeat split; try done. by exists m.
  - repeat split; try done. by exists (OpZipWrite p arcname).
Qed.

Lemma zip_write_all_spec paths : forall s,
  Forall (fun p => path_exists (fs s) p = true) paths ->
  match zip_write_all paths s with
  | (r, s') =>
      fs s' = fs s /\ temp_dir s' = temp_dir s
      /\ exists evs, trace s' = trace s ++ evs /\ Forall zip_event evs
         /\ match r with
            | Ret _ =>
                zip_writes evs = List.map zip_call paths
                /\ exists ms, zipf s' = zipf s ++ ms /\ length ms = length paths
            | Raise e => blamed e
            end
  end.
Proof.
  induction paths as [|p rest IH]; intros s Hex; simpl.
  { repeat split; try done. exists []. rewrite app_nil_r. repeat split; try done.
    exists []. by rewrite app_nil_r. }
  apply Forall_cons in Hex as [Hp Hrest]. unfold bind.
  pose proof (zip_write_spec p (basename p) s Hp) as H.
  destruct (zip_write p (basename p) s) as [[[]|e] s1];
    destruct H as (Hfs1 & Htd1 & Ht1 & Hr1).
  2:{ repeat split; try done. eexists. split; [exact Ht1|].
      split; [by repeat constructor|]. apply Hr1. }
  destruct Hr1 as (m & Hz1 & _).
  specialize (IH s1). rewrite Hfs1 in IH. specialize (IH Hrest).
  destruct (zip_write_all rest s1) as [r s2].
  destruct IH as (Hfs2 & Htd2 & evs & Ht2 & He2 & Hr2).
  split; [congruence|]. split; [congruence|].
  exists (io_call (OpZipWrite p (basename p)) :: evs).
  split. { rewrite Ht2, Ht1. by rewrite <- app_assoc. }
  split; [by constructor|].
  destruct r as [[]|e]; [|done].
  destruct Hr2 as (Hzw & ms & Hz2 & Hlen). split.
  - change (?e :: evs) with ([e] ++ evs). rewrite zip_writes_app, Hzw. done.
  - exists (m :: ms). rewrite Hz2, Hz1, <- app_assoc. split; [done|]. simpl. lia.
Qed.


Lemma frame_same_fs s s' :
  fs s' = fs s -> temp_dir s' = temp_dir s -> frame s s'.
Proof. intros Hfs Ht. unfold frame. rewrite Hfs. by repeat split. Qed.

Lemma archive_body_spec t lf n s :
  isfile (fs s) (join t (py "project.qgz")) = true ->
  Forall (fun p => path_exists (fs s) p = true) lf ->
  match (zip_write (join t (py "project.qgz")) (py "project.qgz");;
         zip_write_all lf;;
         dump_metadata (join t (py "metadata.json")) (metadata n);;
         zip_write (join t (py "metadata.json")) (py "metadata.json")) s with
  | (r, s') =>
      frame s s'
      /\ exists evs, trace s' = trace s ++ evs /\ Forall zip_event evs
         /\ match r with
            | Ret _ =>
                zip_writes evs
                = (join t (py "project.qgz"), py "project.qgz")
                  :: List.map zip_call lf
                  ++ [(join t (py "metadata.json"), py "metadata.json")]
                /\ exists c mid,
                     zipf s' = zipf s ++ (py "project.qgz", c) :: mid
                               ++ [(py "metadata.json", ManifestDoc (metadata n))]
                     /\ length mid = length lf
            | Raise e => blamed e
            end
  end.
Proof.
  intros Hbk Hlf. unfold bind.
  assert (Hbk' : path_exists (fs s) (join t (py "project.qgz")) = true).
  { unfold path_exists. by rewrite Hbk. }
  pose proof (zip_write_spec _ (py "project.qgz") s Hbk') as H.
  destruct (zip_write (join t (py "project.qgz")) (py "project.qgz") s)
    as [[[]|e] s1]; destruct H as (Hfs1 & Htd1 & Ht1 & Hr1).
  2:{ split; [by apply frame_same_fs|]. eexists. split; [exact Ht1|].
      split; [by repeat constructor|]. apply Hr1. }
  destruct Hr1 as (m1 & Hz1 & Hm1).
  destruct (isfile_lookup _ _ Hbk) as [c Hc]. rewrite (Hm1 c Hc) in Hz1.
  pose proof (zip_write_all_spec lf s1) as H. rewrite Hfs1 in H. specialize (H Hlf).
  destruct (zip_write_all lf s1) as [[[]|e] s2];
    destruct H as (Hfs2 & Htd2 & evs2 & Ht2 & He2 & Hr2).
  2:{ split; [apply frame_same_fs; congruence|].
      exists (io_call (OpZipWrite (join t (py "project.qgz")) (py "project.qgz")) :: evs2).
      split. { rewrite Ht2, Ht1. by rewrite <- app_assoc. }
      split; [by constructor|done]. }
  destruct Hr2 as (Hzw2 & mid & Hz2 & Hlen).
  assert (Hf02 : frame s s2) by (apply frame_same_fs; congruence).
  unfold dump_metadata.
  destruct (perform_spec (OpDumpMetadata (join t (py "metadata.json")))
              (write_file (join t (py "metadata.json")) (ManifestDoc (metadata n))) s2)
    as [[Hf ->]|(e & Hf & ->)].
  2:{ split; [eapply frame_trans; [exact Hf02|apply frame_record]|].
      exists (io_call (OpZipWrite (join t (py "project.qgz")) (py "project.qgz"))
              :: evs2 ++ [io_call (OpDumpMetadata (join t (py "metadata.json")))]).
      split. { simpl. rewrite Ht2, Ht1. by rewrite <- !app_assoc. }
      split. { constructor; [done|]. apply Forall_app. by repeat constructor. }
      by exists (OpDumpMetadata (join t (py "metadata.json"))). }
  set (s3 := set_fs _ (record _ s2)).
  assert (Hf23 : frame s2 s3) by apply frame_record_write.
  assert (Hmeta : files (fs s3) !! join t (py "metadata.json")
                  = Some (ManifestDoc (metadata n))).
  { subst s3. simpl. apply lookup_insert_eq. }
  assert (Hex3 : path_exists (fs s3) (join t (py "metadata.json")) = true).
  { unfold path_exists, isfile. by rewrite Hmeta. }
  pose proof (zip_write_spec _ (py "metadata.json") s3 Hex3) as H.
  destruct (zip_write (join t (py "metadata.json")) (py "metadata.json") s3)
    as [[[]|e] s4]; destruct H as (Hfs4 & Htd4 & Ht4 & Hr4).
  - destruct Hr4 as (m4 & Hz4 & Hm4). rewrite (Hm4 _ Hmeta) in Hz4.
    split.
    { eapply frame_trans; [exact Hf02|]. eapply frame_trans; [exact Hf23|].
      by apply frame_same_fs. }
    exists (io_call (OpZipWrite (join t (py "project.qgz")) (py "project.qgz"))
            :: evs2
            ++ [io_call (OpDumpMetadata (join t (py "metadata.json")));
                io_call (OpZipWrite (join t (py "metadata.json")) (py "metadata.json"))]).
    split. { rewrite Ht4. subst s3. simpl. rewrite Ht2, Ht1. by rewrite <- !app_assoc. }
    split. { constructor; [done|]. apply Forall_app. by repeat constructor. }
    split.
    { change (?e :: evs2 ++ ?r) with ([e] ++ evs2 ++ r).
      rewrite !zip_writes_app, Hzw2. done. }
    exists c, mid. split; [|done].
    rewrite Hz4. subst s3. simpl. rewrite Hz2, Hz1. by rewrite <- !app_assoc.
  - split.
    { eapply frame_trans; [exact Hf02|]. eapply frame_trans; [exact Hf23|].
      by apply frame_same_fs. }
    exists (io_call (OpZipWrite (join t (py "project.qgz")) (py "project.qgz"))
            :: evs2
            ++ [io_call (OpDumpMetadata (join t (py "metadata.json")));
                io_call (OpZipWrite (join t (py "metadata.json")) (py "metadata.json"))]).
    split. { rewrite Ht4. subst s3. simpl. rewrite Ht2, Ht1. by rewrite <- !app_assoc. }
    split. { constructor; [done|]. apply Forall_app. by repeat constructor. }
    apply Hr4.
Qed.


Lemma write_archive_spec t lf n s :
  isfile (fs s) (join t (py "project.qgz")) = true ->
  Forall (fun p => path_exists (fs s) p = true) lf ->
  match write_archive t lf n s with
  | (r, s') =>
      frame s s'
      /\ exists evs, trace s' = trace s ++ evs /\ Forall zip_event evs
         /\ match r with
            | Ret _ =>
                zip_writes evs
                = (join t (py "project.qgz"), py "project.qgz")
                  :: List.map zip_call lf
                  ++ [(join t (py "metadata.json"), py "metadata.json")]
                /\ (exists c mid,
                     zipf s' = (py "project.qgz", c) :: mid
                               ++ [(py "metadata.json", ManifestDoc (metadata n))]
                     /\ length mid = length lf)
                /\ files (fs s') !! output_path self = Some (ZipArchive (zipf s'))
            | Raise e => blamed e
            end
  end.
Proof.
  intros Hbk Hlf. unfold write_archive, with_zipfile, zip_open. unfold bind at 1 2.
  destruct (perform_spec (OpZipOpen (output_path self))
              (write_file (output_path self) (ZipArchive [])) s)
    as [[Hf ->]|(e & Hf & ->)].
  2:{ split; [apply frame_record|]. eexists. split; [reflexivity|].
      split; [by repeat constructor|]. by exists (OpZipOpen (output_path self)). }
  set (s1 := set_zipf [] (set_fs _ (record _ s))).
  assert (Hf01 : frame s s1) by apply frame_record_write.
  assert (Ht01 : trace s1 = trace s ++ [io_call (OpZipOpen (output_path self))]) by done.
  assert (Hbk1 : isfile (fs s1) (join t (py "project.qgz")) = true)
    by (by apply Hf01).
  assert (Hlf1 : Forall (fun p => path_exists (fs s1) p = true) lf).
  { eapply Forall_impl; [exact Hlf|]. intros p. by apply frame_path_exists. }
  pose proof (archive_body_spec t lf n s1 Hbk1 Hlf1) as H.
  destruct ((zip_write (join t (py "project.qgz")) (py "project.qgz");; _) s1)
    as [r s2].
  destruct H as (Hf12 & evs & Ht12 & He & Hr).
  unfold zip_close.
  destruct (perform_spec (OpZipClose (output_path self))
              (write_file (output_path self) (ZipArchive (zipf s2))) s2)
    as [[Hfc ->]|(e & Hfc & ->)].
  - split.
    { eapply frame_trans; [exact Hf01|]. eapply frame_trans; [exact Hf12|].
      apply frame_record_write. }
    exists (io_call (OpZipOpen (output_path self)) :: evs
            ++ [io_call (OpZipClose (output_path self))]).
    split. { simpl. rewrite Ht12, Ht01. by rewrite <- !app_assoc. }
    split. { constructor; [done|]. apply Forall_app. by repeat constructor. }
    destruct r as [[]|e]; [|done].
    destruct Hr as (Hzw & c & mid & Hz & Hlen).
    split.
    { change (?e :: evs ++ ?r) with ([e] ++ evs ++ r).
      rewrite !zip_writes_app, Hzw. simpl. by rewrite app_nil_r. }
    split.
    { exists c, mid. simpl. by rewrite Hz. }
    simpl. apply lookup_insert_eq.
  - split.
    { eapply frame_trans; [exact Hf01|]. eapply frame_trans; [exact Hf12|].
      apply frame_record. }
    exists (io_call (OpZipOpen (output_path self)) :: evs
            ++ [io_call (OpZipClose (output_path self))]).
    split. { simpl. rewrite Ht12, Ht01. by rewrite <- !app_assoc. }
    split. { constructor; [done|]. apply Forall_app. by repeat constructor. }
    by exists (OpZipClose (output_path self)).
Qed.


(** ** The [try] block of [run] *)

Lemma run_try_cases r s :
  run_try (init_state (initial_fs host)) = (r, s) ->
  (exists e, fault host (OpMkdtemp mkdtemp_path) = Some e
             /\ r = Raise e /\ trace s = opening
             /\ temp_dir s = None /\ fs s = initial_fs host)
  \/ (fault host (OpMkdtemp mkdtemp_path) = None
      /\ temp_dir s = Some mkdtemp_path
      /\ mkdtemp_path ∈ dirs (fs s)
      /\ ((project_file host = [] /\ r = Ret tt
           /\ trace s = opening ++ [finished_signal false no_project_message]
           /\ fs s = make_dir mkdtemp_path (initial_fs host))
          \/ (project_file host <> []
              /\ exists evs, trace s = opening ++ evs /\ logged evs = []
                             /\ try_loaded r s evs))).
Proof.
  unfold run_try, mkdtemp. unfold bind at 1 2 3, emit at 1. cbv beta.
  destruct (perform_spec (OpMkdtemp mkdtemp_path) (make_dir mkdtemp_path)
              (record (status_updated (py "Starting project clone..."))
                 (init_state (initial_fs host))))
    as [[Hmk ->]|(e & Hmk & ->)].
  2:{ intros [= <- <-]. left. exists e. by repeat split. }
  cbv beta iota. unfold ret at 1, bind at 1, set_temp_dir. cbv beta iota.
  set (sC := {| fs := _; temp_dir := Some mkdtemp_path; zipf := _; trace := _ |}).
  assert (HtC : trace sC = opening) by done.
  assert (HdC : mkdtemp_path ∈ dirs (fs sC)).
  { subst sC. simpl. apply elem_of_union. left. by apply elem_of_singleton. }
  destruct (is_empty (project_file host)) eqn:Hpf.
  { unfold emit. intros [= <- <-]. right. split; [done|].
    split; [done|]. split; [done|]. left.
    destruct (project_file host); [|done]. by repeat split. }
  assert (Hpf' : project_file host <> []) by (by destruct (project_file host)).
  unfold bind at 1, emit at 1, bind at 1, project_write.
  set (sD := record (status_updated (py "Backing up project file...")) sC).
  destruct (perform_spec (OpProjectWrite (join mkdtemp_path (py "project.qgz")))
              (write_file (join mkdtemp_path (py "project.qgz"))
                 (ProjectDoc (project_file host))) sD)
    as [[Hpw ->]|(e & Hpw & ->)].
  2:{ intros [= <- <-]. right. split; [done|].
      split; [done|]. split; [done|]. right. split; [done|].
      eexists [_; _]. split; [done|]. split; [done|]. simpl.
      split; [done|]. split; [by left|]. left.
      by exists (OpProjectWrite (join mkdtemp_path (py "project.qgz"))). }
  unfold bind at 1, emit at 1, bind at 1.
  set (sF := record (progress_updated 10) (set_fs _ (record _ sD))).
  assert (HtF : trace sF
                = opening ++ [status_updated (py "Backing up project file...");
                              io_call (OpProjectWrite project_backup_path);
                              progress_updated 10]) by done.
  assert (HbF : isfile (fs sF) project_backup_path = true).
  { subst sF. simpl. apply isfile_write_file_same. }
  assert (HtdF : temp_dir sF = Some mkdtemp_path) by done.
  assert (HdF : mkdtemp_path ∈ dirs (fs sF)) by done.
  clearbody sF. clear sD sC HtC HdC.
  assert (Hn : map_layers host <> [] -> Z.of_nat (length (map_layers host)) <> 0).
  { destruct (map_layers host); [done|]. simpl. lia. }
  pose proof (export_layers_spec mkdtemp_path (Z.of_nat (length (map_layers host)))
                (map_layers host) 1 [] sF Hn) as H.
  destruct (export_layers mkdtemp_path _ 1 (map_layers host) [] sF) as [[lf|e] sG].
  2:{ destruct H as ((Htd & Hd & Hfl) & Hz & evs & k & Ht & Hk & Hp & Ho & Hl & Hzw & Hr).
      intros [= <- <-]. right. split; [done|].
      split; [congruence|]. split; [by rewrite Hd|]. right. split; [done|].
      eexists ([_; _; _] ++ evs).
      split. { rewrite Ht, HtF. by rewrite <- app_assoc. }
      unfold try_loaded.
      rewrite logged_app, outcomes_app, progress_values_app, Hl, Ho, Hp.
      split; [done|]. split; [done|]. split; [|done].
      right. by exists k. }
  destruct H as (HfFG & Hz & evs & k & Ht & Hk & Hp & Ho & Hl & Hzw
                 & -> & Hsw & copied & Hlen & -> & Hinc & Hex).
  unfold bind at 1, emit at 1, bind at 1.
  set (sH := record (status_updated (py "Creating ZIP package...")) sG).
  assert (HbH : isfile (fs sH) (join mkdtemp_path (py "project.qgz")) = true).
  { subst sH. simpl. by apply HfFG. }
  pose proof (write_archive_spec mkdtemp_path
                ([] ++ layers_outputs mkdtemp_path (map_layers host) copied)
                (length (map_layers host)) sH HbH Hex) as H.
  destruct (write_archive mkdtemp_path _ _ sH) as [[[]|e] sI];
    destruct H as (HfHI & evz & Htz & Hez & Hrz);
    destruct (zip_events_silent _ Hez) as (Hpz & Hoz & Hlz & Hsz);
    destruct HfFG as (Htd1 & Hd1 & _); destruct HfHI as (Htd2 & Hd2 & _).
  2:{ intros [= <- <-]. right. split; [done|].
      split. { rewrite Htd2. subst sH. simpl. congruence. }
      split. { rewrite Hd2. subst sH. simpl. by rewrite Hd1. }
      right. split; [done|].
      eexists (([_; _; _] ++ evs) ++ [_] ++ evz).
      split. { rewrite Htz. subst sH. simpl. rewrite Ht, HtF.
               by rewrite <- !app_assoc. }
      unfold try_loaded.
      rewrite !logged_app, !outcomes_app, !progress_values_app.
      rewrite Hl, Ho, Hp, Hlz, Hoz, Hpz.
      split; [done|]. split; [done|]. split; [|by left].
      right. exists (length (map_layers host)). split; [lia|].
      simpl. by rewrite ?app_nil_r. }
  destruct Hrz as (Hzwz & Hzf & Hout).
  unfold emit, bind. cbv beta iota.
  intros [= <- <-]. right. split; [done|].
  split. { simpl. rewrite Htd2. subst sH. simpl. congruence. }
  split. { simpl. rewrite Hd2. subst sH. simpl. by rewrite Hd1. }
  right. split; [done|].
  eexists (([_; _; _] ++ evs) ++ [_] ++ evz ++ [_; _; _]).
  split. { simpl. rewrite Htz. subst sH. simpl. rewrite Ht, HtF.
           by rewrite <- !app_assoc. }
  unfold try_loaded.
  rewrite !logged_app, !outcomes_app, !progress_values_app, !style_writes_app,
    !zip_writes_app.
  rewrite Hl, Ho, Hp, Hlz, Hoz, Hpz, Hsw, Hsz, Hzw, Hzwz.
  split; [done|]. split; [done|].
  split. { simpl. unfold full_progress. by rewrite ?app_nil_r. }
  split. { simpl. by rewrite ?app_nil_r. }
  exists copied. split; [done|]. split; [done|].
  split. { simpl. by rewrite ?app_nil_r. }
  split; [exact Hzf|exact Hout].
Qed.


(** ** The working area and its removal *)

Lemma temp_char_plain n : temp_char n <> sep /\ temp_char n <> dot.
Proof.
  unfold temp_char.
  assert (H : List.Forall (fun c => c <> sep /\ c <> dot) (ch "_" :: temp_alphabet)).
  { repeat constructor; by vm_compute. }
  rewrite List.Forall_forall in H. apply H.
  destruct (nth_in_or_default (N.to_nat (n mod 37)) temp_alphabet (ch "_")) as [Hin| ->].
  - by right.
  - by left.
Qed.

Lemma mkdtemp_path_last :
  exists x c, mkdtemp_path = x ++ [c] /\ c <> sep /\ c <> dot.
Proof.
  assert (Hname : exists x c,
            py "tmp" ++ List.map temp_char (temp_seed host) = x ++ [c]
            /\ c <> sep /\ c <> dot).
  { destruct (temp_seed host) as [|n seed _] using rev_ind.
    - exists (py "tm"), (ch "p"). by vm_compute.
    - rewrite List.map_app, app_assoc.
      exists (py "tmp" ++ List.map temp_char seed), (temp_char n).
      split; [reflexivity|]. apply temp_char_plain. }
  destruct Hname as (x & c & Hx & Hc).
  unfold mkdtemp_path, join.
  replace (startswith (py "tmp" ++ List.map temp_char (temp_seed host)) [sep])
    with false by done.
  rewrite Hx.
  destruct (is_empty (gettempdir host) || endswith (gettempdir host) [sep])%bool.
  - exists (gettempdir host ++ x), c. by rewrite app_assoc.
  - exists (gettempdir host ++ sep :: x), c. by rewrite <- app_assoc.
Qed.

Lemma mkdtemp_path_nonempty : is_empty mkdtemp_path = false.
Proof.
  destruct mkdtemp_path_last as (x & c & -> & _). by destruct x.
Qed.

Lemma resolve_mkdtemp_path : resolve mkdtemp_path = mkdtemp_path.
Proof.
  destruct mkdtemp_path_last as (x & c & -> & Hs & Hd).
  unfold resolve. rewrite rev_app_distr. simpl.
  apply N.eqb_neq in Hs, Hd. rewrite Hs, Hd.
  change (c :: rev x) with (rev [c] ++ rev x).
  by rewrite <- rev_app_distr, rev_involutive.
Qed.

Lemma inside_mkdtemp_path : inside mkdtemp_path mkdtemp_path = true.
Proof.
  unfold inside. rewrite resolve_mkdtemp_path.
  by rewrite bool_decide_eq_true_2.
Qed.

(** After [rmtree] nothing at or below the directory is left. *)
Lemma remove_tree_gone t f p :
  inside t p = true ->
  files (remove_tree t f) !! p = None /\ p ∉ dirs (remove_tree t f).
Proof.
  intros Hin. unfold remove_tree. simpl. split.
  - apply map_lookup_filter_None. right. intros c _. simpl. congruence.
  - rewrite elem_of_filter. intros [H _]. congruence.
Qed.

Lemma remove_tree_mkdtemp_path f :
  path_exists (remove_tree mkdtemp_path f) mkdtemp_path = false.
Proof.
  destruct (remove_tree_gone mkdtemp_path f mkdtemp_path inside_mkdtemp_path)
    as [Hf Hd].
  unfold path_exists, isfile, isdir. rewrite Hf, resolve_mkdtemp_path.
  by rewrite bool_decide_eq_false_2.
Qed.

Lemma run_finally_removes s :
  temp_dir s = Some mkdtemp_path ->
  mkdtemp_path ∈ dirs (fs s) ->
  run_finally s
  = (removal_result,
     set_fs removal (record (io_call (OpRmtree mkdtemp_path)) s)).
Proof.
  intros Ht Hd. unfold run_finally. rewrite Ht, mkdtemp_path_nonempty.
  unfold path_exists, isdir. rewrite resolve_mkdtemp_path.
  rewrite (bool_decide_eq_true_2 _ Hd), orb_true_r. cbn [negb andb].
  unfold rmtree, perform, removal_result, removal.
  by destruct (fault host (OpRmtree mkdtemp_path)).
Qed.

(** After the [try] block and the handler, which return, the removal
    decides what [run] returns. *)
Lemma removal_decides (s : State) :
  match removal_result with
  | Ret _ => (Ret tt, s)
  | Raise e => (Raise e, s)
  end = (removal_result, s).
Proof. by destruct removal_result as [[]|e]. Qed.

Lemma run_result_created :
  fault host (OpMkdtemp mkdtemp_path) = None -> run_result = removal_result.
Proof. intros H. unfold run_result. by rewrite H. Qed.

Lemma removal_gone f p :
  fault host (OpRmtree mkdtemp_path) = None ->
  inside mkdtemp_path p = true ->
  files (removal f) !! p = None /\ p ∉ dirs (removal f).
Proof. intros Hf. unfold removal. rewrite Hf. apply remove_tree_gone. Qed.

Lemma removal_mkdtemp_path f :
  fault host (OpRmtree mkdtemp_path) = None ->
  path_exists (removal f) mkdtemp_path = false.
Proof. intros Hf. unfold removal. rewrite Hf. apply remove_tree_mkdtemp_path. Qed.

Lemma run_finally_skips s : temp_dir s = None -> run_finally s = (Ret tt, s).
Proof. intros Ht. unfold run_finally. by rewrite Ht. Qed.


(** ** The whole of [run] *)

Lemma execute_cases r s :
  execute = (r, s) ->
  r = run_result
  /\ ((exists e st, fault host (OpMkdtemp mkdtemp_path) = Some e
                 /\ run_try (init_state (initial_fs host)) = (Raise e, st)
                 /\ trace s = opening ++ handler_events (Raise e)
                 /\ fs s = initial_fs host)
      \/ (fault host (OpMkdtemp mkdtemp_path) = None
          /\ ((project_file host = []
               /\ (exists st, run_try (init_state (initial_fs host)) = (Ret tt, st))
               /\ trace s = opening ++ [finished_signal false no_project_message;
                                        io_call (OpRmtree mkdtemp_path)]
               /\ fs s = removal (make_dir mkdtemp_path (initial_fs host)))
              \/ (project_file host <> []
                  /\ exists rt st evs,
                       run_try (init_state (initial_fs host)) = (rt, st)
                       /\ logged evs = [] /\ try_loaded rt st evs
                       /\ zipf s = zipf st
                       /\ fs s = removal (fs st)
                       /\ trace s = opening ++ evs ++ handler_events rt
                                    ++ [io_call (OpRmtree mkdtemp_path)])))).
Proof.
  unfold execute, run, try_finally, try_except.
  destruct (run_try (init_state (initial_fs host))) as [rt st] eqn:Etry.
  destruct (run_try_cases rt st Etry)
    as [(e & Hmk & -> & Ht & Htd & Hfs)
       |(Hmk & Htd & Hd & [(Hpf & -> & Ht & Hfs)|(Hpf & evs & Ht & Hl & Hr)])].
  - unfold run_except, bind, emit. rewrite run_finally_skips by done.
    intros [= <- <-]. split; [unfold run_result; by rewrite Hmk|]. left. exists e, st.
    cbn [trace fs record handler_events]. rewrite Ht.
    split; [done|]. split; [done|]. split; [|done]. by rewrite <- app_assoc.
  - rewrite run_finally_removes, removal_decides by done. intros [= <- <-].
    split; [by rewrite run_result_created|].
    right. split; [done|]. left.
    cbn [trace fs record set_fs]. rewrite Ht, Hfs.
    split; [done|]. split; [by exists st|]. split; [|done].
    by rewrite <- app_assoc.
  - destruct rt as [[]|e].
    + rewrite run_finally_removes, removal_decides by done. intros [= <- <-].
      split; [by rewrite run_result_created|].
      right. split; [done|]. right. split; [done|].
      exists (Ret tt), st, evs.
      cbn [trace fs zipf record set_fs handler_events]. rewrite Ht.
      split; [done|]. split; [done|]. split; [done|]. split; [done|].
      split; [done|]. by rewrite <- app_assoc.
    + unfold run_except, bind, emit. rewrite run_finally_removes, removal_decides by done.
      intros [= <- <-]. split; [by rewrite run_result_created|].
      right. split; [done|]. right. split; [done|].
      exists (Raise e), st, evs.
      cbn [trace fs zipf record set_fs handler_events]. rewrite Ht.
      split; [done|]. split; [done|]. split; [done|]. split; [done|].
      split; [done|]. by rewrite <- !app_assoc.
Qed.


(** ** Observations on the parts of a run's trace *)

Lemma opening_silent :
  progress_values opening = [] /\ outcomes opening = [] /\ logged opening = []
  /\ style_writes opening = [] /\ zip_writes opening = [].
Proof. by repeat split. Qed.

Lemma rmtree_silent p :
  progress_values [io_call (OpRmtree p)] = []
  /\ outcomes [io_call (OpRmtree p)] = []
  /\ logged [io_call (OpRmtree p)] = []
  /\ style_writes [io_call (OpRmtree p)] = []
  /\ zip_writes [io_call (OpRmtree p)] = [].
Proof. by repeat split. Qed.

Lemma handler_events_observed r :
  progress_values (handler_events r) = []
  /\ outcomes (handler_events r)
     = match r with Raise e => [(false, error_message e)] | Ret _ => [] end
  /\ logged (handler_events r) = match r with Raise e => [e] | Ret _ => [] end
  /\ style_writes (handler_events r) = []
  /\ zip_writes (handler_events r) = [].
Proof. by destruct r. Qed.

(** The observations of a run whose project is loaded, from those of
    its [try] block. *)
Lemma loaded_trace_observed evs rt tr :
  tr = opening ++ evs ++ handler_events rt ++ [io_call (OpRmtree mkdtemp_path)] ->
  progress_values tr = progress_values evs
  /\ outcomes tr
     = outcomes evs
       ++ match rt with Raise e => [(false, error_message e)] | Ret _ => [] end
  /\ logged tr
     = logged evs ++ match rt with Raise e => [e] | Ret _ => [] end
  /\ style_writes tr = style_writes evs
  /\ zip_writes tr = zip_writes evs.
Proof.
  intros ->.
  destruct opening_silent as (Ho1 & Ho2 & Ho3 & Ho4 & Ho5).
  destruct (rmtree_silent mkdtemp_path) as (Hr1 & Hr2 & Hr3 & Hr4 & Hr5).
  destruct (handler_events_observed rt) as (Hh1 & Hh2 & Hh3 & Hh4 & Hh5).
  rewrite !progress_values_app, !outcomes_app, !logged_app, !style_writes_app,
    !zip_writes_app.
  rewrite Ho1, Ho2, Ho3, Ho4, Ho5, Hr1, Hr2, Hr3, Hr4, Hr5, Hh1, Hh2, Hh3, Hh4, Hh5.
  by rewrite !app_nil_r.
Qed.

(** ** Progress values *)

Lemma interpolate_bounds i n :
  0 < n -> 0 <= i <= n -> 10 <= interpolate i n <= 90.
Proof.
  intros Hn Hi. unfold interpolate.
  assert (0 <= 80 * i / n) by (apply Z.div_pos; lia).
  assert (80 * i / n <= 80) by (apply Z.div_le_upper_bound; lia).
  lia.
Qed.

Lemma interpolate_mono i j n :
  0 < n -> i <= j -> interpolate i n <= interpolate j n.
Proof.
  intros Hn Hij. unfold interpolate.
  assert (80 * i / n <= 80 * j / n) by (apply Z.div_le_mono; lia). lia.
Qed.

Lemma elem_of_loop_progress total i k x :
  x ∈ loop_progress total i k <->
  exists j : nat, (j < k)%nat /\ x = interpolate (i + Z.of_nat j) total.
Proof.
  unfold loop_progress. rewrite list_elem_of_In, in_map_iff. split.
  - intros (j & <- & Hj%in_seq). exists j. split; [lia|done].
  - intros (j & Hj & ->). exists j. split; [done|]. apply in_seq. lia.
Qed.

Lemma loop_progress_app total i k m :
  loop_progress total i (k + m)
  = loop_progress total i k ++ loop_progress total (i + Z.of_nat k) m.
Proof.
  revert i. induction k as [|k IH]; intros i.
  - simpl. f_equal. lia.
  - change (S k + m)%nat with (S (k + m)). rewrite !loop_progress_S, IH. simpl.
    do 3 f_equal. lia.
Qed.

Lemma loop_progress_sorted total i k :
  0 < total -> StronglySorted Z.le (loop_progress total i k).
Proof.
  intros Hn. revert i. induction k as [|k IH]; intros i.
  - constructor.
  - rewrite loop_progress_S. constructor; [apply IH|].
    apply Forall_forall. intros x (j & _ & ->)%elem_of_loop_progress.
    apply interpolate_mono; lia.
Qed.

Lemma loop_progress_bounds (n k : nat) :
  (k <= n)%nat ->
  Forall (fun v => 10 <= v <= 90) (loop_progress (Z.of_nat n) 1 k).
Proof.
  intros Hk. apply Forall_forall. intros x (j & Hj & ->)%elem_of_loop_progress.
  apply interpolate_bounds; lia.
Qed.

Lemma full_progress_sorted :
  StronglySorted Z.le full_progress
  /\ Forall (fun v => 0 <= v <= 100) full_progress.
Proof.
  unfold full_progress. set (n := length (map_layers host)).
  pose proof (loop_progress_bounds n n (le_n _)) as Hb.
  rewrite Forall_forall in Hb. split.
  - constructor.
    + apply StronglySorted_app_2.
      * intros x y Hx%Hb ->%list_elem_of_singleton. lia.
      * destruct n as [|n']; [constructor|]. apply loop_progress_sorted. lia.
      * repeat constructor.
    + apply Forall_app. split.
      * apply Forall_forall. intros x Hx%Hb. lia.
      * repeat constructor. lia.
  - constructor; [lia|]. apply Forall_app. split.
    + apply Forall_forall. intros x Hx%Hb. lia.
    + repeat constructor; lia.
Qed.

Lemma partial_progress_prefix vals :
  partial_progress vals -> vals `prefix_of` full_progress.
Proof.
  intros [->|(k & Hk & ->)]; [apply prefix_nil|].
  unfold full_progress. set (n := length (map_layers host)) in *.
  assert (Hsplit : loop_progress (Z.of_nat n) 1 n
                   = loop_progress (Z.of_nat n) 1 k
                     ++ loop_progress (Z.of_nat n) (1 + Z.of_nat k) (n - k)).
  { rewrite <- loop_progress_app. f_equal. lia. }
  rewrite Hsplit. eexists. simpl. rewrite <- app_assoc. reflexivity.
Qed.

Lemma partial_progress_below vals :
  partial_progress vals -> Forall (fun v => v <= 90) vals.
Proof.
  intros [->|(k & Hk & ->)]; [constructor|].
  constructor; [lia|].
  eapply Forall_impl; [by apply loop_progress_bounds|]. simpl. lia.
Qed.

Lemma prefix_full_progress vals :
  vals `prefix_of` full_progress ->
  StronglySorted Z.le vals /\ Forall (fun v => 0 <= v <= 100) vals.
Proof.
  intros [rest Hrest]. destruct full_progress_sorted as [Hs Hb].
  rewrite Hrest in Hs, Hb. split.
  - by apply StronglySorted_app_1_l in Hs.
  - by apply Forall_app in Hb as [Hb _].
Qed.


(** ** The claims about the whole run *)

(** C3 (amended): when no project is loaded, the run first creates the
    working area; it then emits the single failure outcome, writes no
    archive and calls the removal of the working area.  Creating and
    removing that directory are its only I/O calls.  The failure is
    emitted, not raised; the directory is gone afterwards unless the
    removal itself raises, which is then what the run raises.  If
    creating the directory fails, that error is the failure reported. *)
Theorem no_project_fails_after_mkdtemp :
  project_file host = [] ->
  match fault host (OpMkdtemp mkdtemp_path) with
  | None =>
      trace (snd execute)
      = opening ++ [finished_signal false no_project_message;
                    io_call (OpRmtree mkdtemp_path)]
      /\ io_calls (trace (snd execute))
         = [OpMkdtemp mkdtemp_path; OpRmtree mkdtemp_path]
      /\ match fault host (OpRmtree mkdtemp_path) with
         | None =>
             fst execute = Ret tt
             /\ fs (snd execute)
                = remove_tree mkdtemp_path (make_dir mkdtemp_path (initial_fs host))
         | Some e =>
             fst execute = Raise e
             /\ fs (snd execute) = make_dir mkdtemp_path (initial_fs host)
         end
  | Some e =>
      fst execute = Ret tt
      /\ trace (snd execute)
         = opening ++ [log_message e; finished_signal false (error_message e)]
      /\ io_calls (trace (snd execute)) = [OpMkdtemp mkdtemp_path]
      /\ fs (snd execute) = initial_fs host
  end
  /\ (exists msg, outcomes (trace (snd execute)) = [(false, msg)])
  /\ zip_writes (trace (snd execute)) = [].
Proof.
  intros Hpf. destruct execute as [r s] eqn:E.
  apply execute_cases in E as [-> [(e & st & Hmk & _ & Ht & Hfs)
                                  |(Hmk & [(_ & _ & Ht & Hfs)|(Hne & _)])]];
    [| |done]; unfold run_result; rewrite Hmk; cbn [fst snd]; rewrite Ht.
  - split; [by repeat split|]. split; [by eexists|done].
  - split; [|split; [by eexists|done]].
    split; [done|]. split; [done|].
    rewrite Hfs. unfold removal_result, removal.
    by destruct (fault host (OpRmtree mkdtemp_path)).
Qed.

(** C4 (amended): once the working area has been created, its removal
    is the last action of the run, whatever happened in between.  When
    the removal goes through, neither the directory nor anything below it
    exists when the run returns; when the removal raises, the directory
    is left on disk and the run raises that error. *)
Theorem working_area_removed :
  fault host (OpMkdtemp mkdtemp_path) = None ->
  In (io_call (OpMkdtemp mkdtemp_path)) (trace (snd execute))
  /\ last (trace (snd execute)) = Some (io_call (OpRmtree mkdtemp_path))
  /\ match fault host (OpRmtree mkdtemp_path) with
     | None =>
         fst execute = Ret tt
         /\ path_exists (fs (snd execute)) mkdtemp_path = false
         /\ forall p, inside mkdtemp_path p = true ->
              files (fs (snd execute)) !! p = None /\ p ∉ dirs (fs (snd execute))
     | Some e =>
         fst execute = Raise e
         /\ isdir (fs (snd execute)) mkdtemp_path = true
     end.
Proof.
  intros Hmk.
  assert (Hcreated : forall f, mkdtemp_path ∈ dirs f -> isdir f mkdtemp_path = true).
  { intros f Hd. unfold isdir. rewrite resolve_mkdtemp_path.
    by apply bool_decide_eq_true_2. }
  assert (Hend : forall f r,
            mkdtemp_path ∈ dirs f ->
            r = removal_result ->
            match fault host (OpRmtree mkdtemp_path) with
            | None =>
                r = Ret tt
                /\ path_exists (removal f) mkdtemp_path = false
                /\ forall p, inside mkdtemp_path p = true ->
                     files (removal f) !! p = None /\ p ∉ dirs (removal f)
            | Some e => r = Raise e /\ isdir (removal f) mkdtemp_path = true
            end).
  { intros f r Hd ->. pose proof (removal_mkdtemp_path f) as H1.
    pose proof (removal_gone f) as H2. unfold removal_result, removal in *.
    destruct (fault host (OpRmtree mkdtemp_path)) as [e|].
    - split; [done|]. by apply Hcreated.
    - split; [done|]. split; [by apply H1|]. intros p. by apply H2. }
  destruct execute as [r s] eqn:E.
  apply execute_cases in E
    as [Hr [(e & st & Hmk' & _)
           |(_ & [(_ & _ & Ht & Hfs)
                 |(_ & rt & st & evs & Htry & _ & _ & _ & Hfs & Ht)])]];
    [congruence| |]; rewrite run_result_created in Hr by done;
    cbn [fst snd]; rewrite Ht, Hfs.
  - split; [right; by left|].
    split; [by rewrite last_app|].
    apply Hend; [|done]. simpl. apply elem_of_union. left. by apply elem_of_singleton.
  - split; [right; by left|].
    split.
    { rewrite !app_assoc. apply last_snoc. }
    apply Hend; [|done].
    destruct (run_try_cases rt st Htry)
      as [(e & Hmk' & _)|(_ & _ & Hd & _)]; [congruence|done].
Qed.


(** Every run returns what the removal of its working area returns, and
    it either succeeded in full or failed with partial progress. *)
Lemma run_observed :
  fst execute = run_result
  /\ ((outcomes (trace (snd execute)) = [(true, success_message)]
       /\ progress_values (trace (snd execute)) = full_progress
       /\ logged (trace (snd execute)) = []
       /\ exists st, run_try (init_state (initial_fs host)) = (Ret tt, st))
      \/ (exists msg,
            outcomes (trace (snd execute)) = [(false, msg)]
            /\ partial_progress (progress_values (trace (snd execute)))
            /\ (forall e st,
                  run_try (init_state (initial_fs host)) = (Raise e, st) ->
                  msg = error_message e /\ logged (trace (snd execute)) = [e])
            /\ (forall st,
                  run_try (init_state (initial_fs host)) = (Ret tt, st) ->
                  logged (trace (snd execute)) = []))).
Proof.
  destruct execute as [r s] eqn:E.
  apply execute_cases in E
    as [-> [(e & st & Hmk & Htry & Ht & Hfs)
           |(Hmk & [(Hpf & (st & Htry) & Ht & Hfs)
                   |(Hpf & rt & st & evs & Htry & Hl & Hr & _ & _ & Ht)])]];
    cbn [fst snd]; (split; [done|]).
  - right. exists (error_message e). rewrite Ht. split; [done|].
    split; [by left|]. split.
    + intros e' st' Htry'. rewrite Htry in Htry'. by injection Htry' as <- <-.
    + intros st' Htry'. by rewrite Htry in Htry'.
  - right. exists no_project_message. rewrite Ht. split; [done|].
    split; [by left|]. split.
    + intros e' st' Htry'. by rewrite Htry in Htry'.
    + done.
  - destruct (loaded_trace_observed evs rt _ Ht) as (Hp & Ho & Hlg & _ & _).
    rewrite Hp, Ho, Hlg, Hl.
    destruct rt as [[]|e]; cbn [try_loaded] in Hr.
    + left. destruct Hr as (Hout & Hprog & _). rewrite Hout, Hprog.
      split; [done|]. split; [done|]. split; [done|]. by exists st.
    + right. destruct Hr as (Hout & Hprog & _). rewrite Hout.
      exists (error_message e). split; [done|]. split; [exact Hprog|]. split.
      * intros e' st' Htry'. rewrite Htry in Htry'. by injection Htry' as <- <-.
      * intros st' Htry'. by rewrite Htry in Htry'.
Qed.

(** ** Successful runs *)

Lemma succeeded_inv :
  succeeded (snd execute) ->
  project_file host <> []
  /\ exists st evs,
       run_try (init_state (initial_fs host)) = (Ret tt, st)
       /\ try_loaded (Ret tt) st evs
       /\ zipf (snd execute) = zipf st
       /\ progress_values (trace (snd execute)) = progress_values evs
       /\ style_writes (trace (snd execute)) = style_writes evs
       /\ zip_writes (trace (snd execute)) = zip_writes evs.
Proof.
  intros [m Hm]. destruct execute as [r s] eqn:E. cbn [snd] in *.
  apply execute_cases in E
    as [-> [(e & st & Hmk & Htry & Ht & Hfs)
           |(Hmk & [(Hpf & _ & Ht & Hfs)
                   |(Hpf & rt & st & evs & Htry & Hl & Hr & Hz & _ & Ht)])]].
  - by rewrite Ht in Hm.
  - by rewrite Ht in Hm.
  - destruct (loaded_trace_observed evs rt _ Ht) as (Hp & Ho & _ & Hs & Hzw).
    destruct rt as [[]|e]; cbn [try_loaded] in Hr.
    + split; [done|]. by exists st, evs.
    + destruct Hr as (Hout & _). rewrite Ho, Hout in Hm. done.
Qed.

(** A loaded project is cloned successfully when no call but
    [writeLayer] raises and every data source has a directory part. *)
Lemma run_succeeds :
  project_file host <> [] ->
  (forall op, is_write_layer op = false -> fault host op = None) ->
  (include_data self = true ->
   forall l, l ∈ map_layers host -> dirname (layer_source l) <> []) ->
  succeeded (snd execute).
Proof.
  intros Hpf Hfault Hdir. destruct execute as [r s] eqn:E. cbn [snd].
  assert (Hblame : forall e, ~ blamed e).
  { intros e (op & Hop & Hf). rewrite Hfault in Hf; done. }
  apply execute_cases in E
    as [-> [(e & st & Hmk & Htry & Ht & Hfs)
           |(Hmk & [(Hpf' & _)
                   |(_ & rt & st & evs & Htry & Hl & Hr & Hz & _ & Ht)])]].
  - rewrite Hfault in Hmk; done.
  - done.
  - destruct (loaded_trace_observed evs rt _ Ht) as (_ & Ho & _).
    destruct rt as [[]|e]; cbn [try_loaded] in Hr.
    + destruct Hr as (Hout & _). exists success_message.
      rewrite Ho, Hout. done.
    + destruct Hr as (_ & _ & [Hb|(l & Hin & Hinc & Hd)]).
      * by apply Hblame in Hb.
      * by apply (Hdir Hinc l Hin) in Hd.
Qed.

Lemma style_file_in_outputs t ls : forall cs l,
  l ∈ ls -> length cs = length ls -> is_vector_or_raster l = true ->
  style_file t l ∈ layers_outputs t ls cs.
Proof.
  unfold layers_outputs.
  induction ls as [|l0 ls IH]; intros [|c cs] l Hin Hlen Hk; try done.
  { by apply elem_of_nil in Hin. }
  simpl. apply elem_of_app. apply elem_of_cons in Hin as [->|Hin].
  - left. unfold layer_outputs. rewrite Hk.
    apply elem_of_app. right. apply elem_of_cons. by left.
  - right. apply IH; [done| |done]. simpl in Hlen. lia.
Qed.

Lemma layers_outputs_no_data t ls : forall cs,
  Forall (eq false) cs -> length cs = length ls ->
  layers_outputs t ls cs = List.flat_map (fun l => layer_outputs t l false) ls.
Proof.
  unfold layers_outputs.
  induction ls as [|l ls IH]; intros [|c cs] Hc Hlen; try done.
  apply Forall_cons in Hc as [<- Hc]. simpl. f_equal.
  apply IH; [done|]. simpl in Hlen. lia.
Qed.

Lemma layer_outputs_without_definition t l c :
  is_vector_or_raster l = true ->
  has_writeLayer host = false
  \/ fault host (OpWriteLayer (layer_id l) (layer_def_file t l)) <> None ->
  layer_outputs t l c = (if c then [data_file t l] else []) ++ [style_file t l].
Proof.
  intros Hk Hno. unfold layer_outputs, def_written. rewrite Hk.
  destruct Hno as [->|Hf].
  - by rewrite andb_false_r.
  - rewrite bool_decide_eq_false_2 by done. by rewrite andb_false_r.
Qed.

(** C1 (amended): in a successful run every vector or raster layer has
    exactly one style file written, under its sanitized name with the
    [.qml] extension, and that file is put in the archive under this
    name, whether or not data files are included; a layer of any other
    kind has no style file. *)
Theorem style_file_per_vector_or_raster_layer :
  succeeded (snd execute) ->
  let t := mkdtemp_path in
  let tr := trace (snd execute) in
  style_writes tr
  = List.map (fun l => (layer_id l, style_file t l))
      (List.filter is_vector_or_raster (map_layers host))
  /\ (exists copied : list bool,
        length copied = length (map_layers host)
        /\ zip_writes tr = archive_calls copied
        /\ (include_data self = false ->
            zip_writes tr
            = (project_backup_path, py "project.qgz")
              :: List.map zip_call
                   (List.flat_map (fun l => layer_outputs t l false) (map_layers host))
              ++ [(metadata_path, py "metadata.json")]))
  /\ (forall l, l ∈ map_layers host -> is_vector_or_raster l = true ->
        (style_file t l, sanitize_filename (layer_name l) ++ py ".qml")
        ∈ zip_writes tr)
  /\ (forall l c, is_vector_or_raster l = false -> layer_outputs t l c = []).
Proof.
  intros Hok t tr.
  destruct (succeeded_inv Hok)
    as (_ & st & evs & _ & Hr & _ & _ & Hsw & Hzw).
  cbn [try_loaded] in Hr.
  destruct Hr as (_ & _ & Hstyle & copied & Hlen & Hinc & Hcalls & _).
  subst tr. rewrite Hsw, Hzw, Hstyle, Hcalls.
  split; [done|]. split; [|split].
  - exists copied. split; [done|]. split; [done|].
    intros Hno. unfold archive_calls.
    by rewrite (layers_outputs_no_data _ _ copied (Hinc Hno) Hlen).
  - intros l Hin Hk. unfold archive_calls.
    apply elem_of_cons. right. apply elem_of_app. left.
    rewrite <- (basename_style_file t l).
    apply list_elem_of_In, in_map_iff. exists (style_file t l).
    split; [done|]. apply list_elem_of_In. by apply style_file_in_outputs.
  - intros l c Hk. unfold layer_outputs. by rewrite Hk.
Qed.

(** The exact-arithmetic reading of the interpolation agrees with its
    binary64 evaluation for every project of up to 300 layers. *)
Lemma interpolate_float_agrees : floats_agree_upto 300 = true.
Proof. vm_compute. reflexivity. Qed.


(** * Further properties of the code *)

(** ** [sanitize_filename] and the paths built from it *)

(** X1: a name is left as it is exactly when every character of it is
    alphanumeric, a space, an underscore or a hyphen. *)
Theorem sanitize_filename_fixed_iff (name : pystr) :
  sanitize_filename name = name <-> Forall allowed name.
Proof.
  unfold sanitize_filename. induction name as [|c name IH]; simpl.
  - split; [constructor|done].
  - split.
    + intros [= Hc Hn]. constructor; [|by apply IH].
      apply keeps_allowed. destruct (keeps c) eqn:Hk; [done|].
      rewrite <- Hc in Hk. by rewrite keeps_underscore in Hk.
    + intros [Hc Hn]%Forall_cons. apply keeps_allowed in Hc. rewrite Hc.
      f_equal. by apply IH.
Qed.

Lemma startswith_app_same (a b c : pystr) :
  startswith (a ++ b) (a ++ c) = startswith b c.
Proof. induction a as [|x a IH]; [done|]. simpl. by rewrite N.eqb_refl. Qed.

Lemma startswith_prefix (p s : pystr) : startswith (p ++ s) p = true.
Proof.
  rewrite <- (app_nil_r p) at 2. rewrite startswith_app_same. by destruct s.
Qed.

Lemma startswith_take (p : pystr) k : startswith p (take k p) = true.
Proof. rewrite <- (take_drop k p) at 1. apply startswith_prefix. Qed.

(** [join t x] is [join t ""] followed by [x], for a name [x]. *)
Lemma join_name (t x : pystr) : sep ∉ x -> join t x = join t [] ++ x.
Proof.
  intros Hx. unfold join.
  destruct (startswith x [sep]) eqn:Hs.
  { apply startswith_cons_inv in Hs as [x' ->]. destruct Hx.
    apply elem_of_cons. by left. }
  simpl. destruct (is_empty t || endswith t [sep])%bool.
  - by rewrite app_nil_r.
  - by rewrite <- app_assoc.
Qed.

Lemma inside_join (t x : pystr) : sep ∉ x -> inside t (join t x) = true.
Proof.
  intros Hx. unfold inside. rewrite (join_name t x Hx), startswith_prefix.
  apply orb_true_r.
Qed.

Lemma join_name_inj (a b x y : pystr) :
  sep ∉ x -> sep ∉ y -> join a x = join b y -> x = y.
Proof.
  intros Hx Hy Heq. apply (f_equal basename) in Heq.
  by rewrite !basename_join in Heq.
Qed.

(** The files of one layer, as the loop writes them down, lie directly
    below the working area. *)
Lemma layer_outputs_below (t : pystr) (l : Layer) (copied : bool) :
  Forall (fun p => inside t p = true
                   /\ (sep ∉ basename p)
                   /\ p = join t (basename p))
         (layer_outputs t l copied).
Proof.
  assert (Hname : forall x, sep ∉ x ->
            inside t (join t x) = true /\ (sep ∉ basename (join t x))
            /\ join t x = join t (basename (join t x))).
  { intros x Hx. rewrite basename_join by done.
    split; [by apply inside_join|]. split; [exact Hx|reflexivity]. }
  assert (Hsan : forall ext, sep ∉ ext ->
            sep ∉ sanitize_filename (layer_name l) ++ ext).
  { intros ext Hext [H|H]%elem_of_app; [|done].
    by apply sanitize_filename_no_sep in H. }
  unfold layer_outputs. destruct (is_vector_or_raster l); [|constructor].
  apply Forall_app. split.
  { destruct copied; [|constructor]. constructor; [|constructor].
    apply Hname, Hsan, splitext_ext_no_sep. }
  apply Forall_app. split.
  { constructor; [|constructor]. apply Hname, Hsan.
    exact (bool_decide_unpack (sep ∉ py ".qml") I). }
  destruct (def_written t l); [|constructor]. constructor; [|constructor].
  apply Hname, Hsan. exact (bool_decide_unpack (sep ∉ py ".qlr") I).
Qed.

(** One iteration that returns has extended [layer_files] by the files
    of its layer. *)
Lemma export_layer_files t total i l lf s lf' s' :
  export_layer t total i l lf s = (Ret lf', s') ->
  exists copied, lf' = lf ++ layer_outputs t l copied.
Proof.
  intros E. destruct (decide (total = 0)) as [->|Ht].
  { unfold export_layer, progress_of in E. by cbn in E. }
  pose proof (export_layer_spec t total i l lf s Ht) as H.
  rewrite E in H. destruct H as (_ & _ & evs & _ & _ & _ & c & -> & _).
  by exists c.
Qed.

(** X2: whatever the names and the sources of the layers, every path
    that the loop over the layers returns in addition to the ones it
    was given lies in the working area, directly below it: the path is
    the working area joined with a name free of separators. *)
Theorem layer_files_inside_working_area (t : pystr) (total i : Z)
    (ls : list Layer) (lf lf' : list pystr) (s s' : State) :
  export_layers t total i ls lf s = (Ret lf', s') ->
  exists added,
    lf' = lf ++ added
    /\ Forall (fun p => inside t p = true
                        /\ (sep ∉ basename p)
                        /\ p = join t (basename p))
              added.
Proof.
  revert i lf s. induction ls as [|l rest IH]; intros i lf s E.
  { cbn in E. unfold ret in E. injection E as <- <-.
    exists []. by rewrite app_nil_r. }
  cbn [export_layers] in E. unfold bind in E.
  destruct (export_layer t total i l lf s) as [[lf1|e] s1] eqn:E1; [|done].
  apply export_layer_files in E1 as [c ->].
  apply IH in E as (added & -> & Hadded).
  exists (layer_outputs t l c ++ added). split; [by rewrite app_assoc|].
  apply Forall_app. split; [apply layer_outputs_below|done].
Qed.


(** ** [_copy_associated_files] *)

Lemma dirname_no_sep (p : pystr) : sep ∉ p -> dirname p = [].
Proof. intros H. unfold dirname. by rewrite rfind_absent. Qed.

(** X3: for a source without a directory part, a bare file name, the
    directory to list is the empty path: [_copy_associated_files]
    raises on [os.listdir] and copies nothing. *)
Theorem copy_associated_files_bare_name (source dest_dir : pystr) (s : State) :
  sep ∉ source ->
  _copy_associated_files source dest_dir s
  = (Raise (py "No such file or directory"), record (io_call (OpListdir [])) s).
Proof.
  intros H. unfold _copy_associated_files, bind, listdir.
  by rewrite (dirname_no_sep _ H).
Qed.

Lemma existsb_sep_false (f : pystr) : existsb (N.eqb sep) f = false -> sep ∉ f.
Proof.
  induction f as [|x f IH]; cbn [existsb]; [intros _; apply not_elem_of_nil|].
  intros [Hx Hf]%orb_false_iff. apply not_elem_of_cons. split; [|by apply IH].
  by apply N.eqb_neq in Hx.
Qed.

Lemma child_name_spec (d p f : pystr) :
  child_name d p = Some f -> (sep ∉ f) /\ f <> [].
Proof.
  unfold child_name. destruct (startswith p (join d [])); [|done].
  destruct (negb (is_empty (drop (length (join d [])) p))
            && negb (existsb (N.eqb sep) (drop (length (join d [])) p)))%bool
    eqn:Hc; [|done].
  intros [= <-]. apply andb_true_iff in Hc as [He Hs%negb_true_iff].
  split; [by apply existsb_sep_false|]. intros Hnil. by rewrite Hnil in He.
Qed.

Lemma child_name_join (d f : pystr) :
  sep ∉ f -> f <> [] -> child_name d (join d f) = Some f.
Proof.
  intros Hs Hf. unfold child_name. rewrite (join_name d f Hs), startswith_prefix.
  rewrite drop_app_length.
  assert (He : existsb (N.eqb sep) f = false).
  { apply not_true_is_false. intros (x & Hin & Hx%N.eqb_eq)%existsb_exists.
    subst x. by apply Hs, list_elem_of_In. }
  rewrite He. by destruct f.
Qed.

(** [os.listdir] names the entries directly below the directory. *)
Lemma dir_entries_no_sep (f0 : FS) (d f : pystr) :
  f ∈ dir_entries f0 d -> (sep ∉ f) /\ f <> [].
Proof.
  unfold dir_entries. rewrite elem_of_remove_dups, list_elem_of_omap.
  intros (p & _ & Hp). by apply child_name_spec in Hp.
Qed.

Lemma dir_entries_file (f0 : FS) (d f : pystr) (c : content) :
  sep ∉ f -> f <> [] -> files f0 !! join d f = Some c -> f ∈ dir_entries f0 d.
Proof.
  intros Hs Hf Hc. unfold dir_entries.
  rewrite elem_of_remove_dups, list_elem_of_omap.
  exists (join d f). split; [|by apply child_name_join].
  apply elem_of_app. left. apply list_elem_of_fmap.
  exists (join d f, c). split; [done|]. by apply elem_of_map_to_list.
Qed.

(** One iteration of the loop: it copies the entry below the
    destination directory, or does nothing. *)
Lemma copy_if_matching_step base_name base_dir dest_dir f s s' :
  sep ∉ f -> isdir (fs s) dest_dir = true ->
  copy_if_matching base_name base_dir dest_dir f s = (Ret tt, s') ->
  (fs s' = fs s
   /\ (startswith f base_name = false \/ files (fs s) !! join base_dir f = None))
  \/ (exists c, startswith f base_name = true
                /\ files (fs s) !! join base_dir f = Some c
                /\ fs s' = write_file (join dest_dir f) c (fs s)).
Proof.
  intros Hs Hd. unfold copy_if_matching.
  destruct (startswith f base_name) eqn:Hp.
  2:{ intros [= <-]. left. split; [done|by left]. }
  unfold bind, get_fs, isfile, copy2. cbv beta zeta.
  destruct (files (fs s) !! join base_dir f) as [c|] eqn:Hc.
  2:{ intros [= <-]. left. split; [done|by right]. }
  rewrite Hd, (basename_join base_dir f Hs), Hc.
  destruct (perform_spec (OpCopy2 (join base_dir f) dest_dir)
              (write_file (join dest_dir f) c) s) as [[_ ->]|(e & _ & ->)];
    [|done].
  intros [= <-]. right. by exists c.
Qed.

Lemma copy_matching_effect base_name base_dir dest_dir names : forall s s',
  Forall (fun f => sep ∉ f) names ->
  isdir (fs s) dest_dir = true ->
  copy_matching base_name base_dir dest_dir names s = (Ret tt, s') ->
  dirs (fs s') = dirs (fs s)
  /\ (forall g, sep ∉ g ->
        files (fs s') !! join base_dir g = files (fs s) !! join base_dir g)
  /\ (forall g c, sep ∉ g ->
        files (fs s) !! join dest_dir g = Some c ->
        files (fs s) !! join base_dir g = Some c ->
        files (fs s') !! join dest_dir g = Some c)
  /\ (forall f c, f ∈ names -> startswith f base_name = true ->
        files (fs s) !! join base_dir f = Some c ->
        files (fs s') !! join dest_dir f = Some c)
  /\ (forall p,
        (forall f, f ∈ names -> startswith f base_name = true ->
                   p <> join dest_dir f) ->
        files (fs s') !! p = files (fs s) !! p).
Proof.
  induction names as [|f rest IH]; intros s s' Hnames Hd; simpl.
  { intros [= <-]. repeat split; try done.
    intros f c Hin. by apply elem_of_nil in Hin. }
  apply Forall_cons in Hnames as [Hf Hrest]. unfold bind.
  destruct (copy_if_matching base_name base_dir dest_dir f s) as [[[]|e] s1] eqn:E1;
    [|done].
  intros E2.
  assert (Hstep : dirs (fs s1) = dirs (fs s)
            /\ (forall g, sep ∉ g ->
                  files (fs s1) !! join base_dir g = files (fs s) !! join base_dir g)
            /\ (forall g c, sep ∉ g ->
                  files (fs s) !! join dest_dir g = Some c ->
                  files (fs s) !! join base_dir g = Some c ->
                  files (fs s1) !! join dest_dir g = Some c)
            /\ (forall c, startswith f base_name = true ->
                  files (fs s) !! join base_dir f = Some c ->
                  files (fs s1) !! join dest_dir f = Some c)
            /\ (forall p, (startswith f base_name = true -> p <> join dest_dir f) ->
                  files (fs s1) !! p = files (fs s) !! p)).
  { destruct (copy_if_matching_step _ _ _ _ _ _ Hf Hd E1)
      as [[-> Hno]|(c & Hp & Hc & ->)].
    - repeat split; try done. intros c Hp Hc.
      destruct Hno as [Hno|Hno]; congruence.
    - simpl. split; [done|]. split; [|split; [|split]].
      + intros g Hg. rewrite lookup_insert. case_decide as Heq; [|done].
        apply join_name_inj in Heq; [|done..]. subst g. by rewrite Hc.
      + intros g c' Hg Hdst Hsrc. rewrite lookup_insert. case_decide as Heq; [|done].
        apply join_name_inj in Heq; [|done..]. subst g. congruence.
      + intros c' _ Hc'. rewrite lookup_insert_eq. congruence.
      + intros p Hne. rewrite lookup_insert_ne; [done|].
        intros Heq. by apply (Hne Hp). }
  destruct Hstep as (Hd1 & Hsrc1 & Hdst1 & Hhead & Hother1).
  assert (Hd' : isdir (fs s1) dest_dir = true).
  { unfold isdir in *. by rewrite Hd1. }
  destruct (IH s1 s' Hrest Hd' E2) as (Hd2 & Hsrc2 & Hdst2 & Hin2 & Hother2).
  split; [congruence|]. split; [|split; [|split]].
  - intros g Hg. by rewrite Hsrc2, Hsrc1.
  - intros g c Hg Hdst Hsrc. apply Hdst2; [done| |by rewrite Hsrc1].
    by apply Hdst1.
  - intros f' c [->|Hin]%elem_of_cons Hp Hc.
    + apply Hdst2; [done|by apply Hhead|by rewrite Hsrc1].
    + apply Hin2; [done|done|].
      rewrite Forall_forall in Hrest. by rewrite Hsrc1 by (by apply Hrest).
  - intros p Hne. rewrite Hother2, Hother1; [done| |].
    + intros Hp. apply Hne; [|done]. apply elem_of_cons. by left.
    + intros f' Hin Hp. apply Hne; [|done]. apply elem_of_cons. by right.
Qed.

Lemma splitext_stem_prefix (p : pystr) : startswith p (splitext p).1 = true.
Proof.
  unfold splitext.
  destruct (rfind p dot >? rfind p sep); simpl.
  - destruct (existsb _ _); simpl.
    + apply startswith_take.
    + rewrite <- (app_nil_r p) at 1. apply startswith_prefix.
  - rewrite <- (app_nil_r p) at 1. apply startswith_prefix.
Qed.

(** X4: when [_copy_associated_files] returns, every regular file of
    the source's directory whose name starts with the base name of the
    source, whatever follows that prefix, is in the destination
    directory under its own name and with its content; the source file
    itself passes this test.  No other file is written or removed, and
    no directory changes. *)
Theorem copy_associated_files_copies (source dest_dir : pystr) (s s' : State) :
  isdir (fs s) dest_dir = true ->
  _copy_associated_files source dest_dir s = (Ret tt, s') ->
  let base_name := (splitext (basename source)).1 in
  let base_dir := dirname source in
  (forall f c, sep ∉ f -> f <> [] -> startswith f base_name = true ->
     files (fs s) !! join base_dir f = Some c ->
     files (fs s') !! join dest_dir f = Some c)
  /\ (forall p,
        (forall f, sep ∉ f -> startswith f base_name = true ->
                   p <> join dest_dir f) ->
        files (fs s') !! p = files (fs s) !! p)
  /\ dirs (fs s') = dirs (fs s)
  /\ startswith (basename source) base_name = true.
Proof.
  intros Hd Hrun base_name base_dir.
  unfold _copy_associated_files, bind, listdir in Hrun. fold base_dir in Hrun.
  fold base_name in Hrun.
  destruct (is_empty base_dir); [done|]. unfold bind in Hrun.
  destruct (perform_spec (OpListdir base_dir) id s) as [[_ E]|(e & _ & E)];
    rewrite E in Hrun; [|done].
  unfold ret in Hrun.
  assert (Hnames : Forall (fun f => sep ∉ f) (dir_entries (fs s) base_dir)).
  { apply Forall_forall. intros f Hin. by destruct (dir_entries_no_sep _ _ _ Hin). }
  pose proof (copy_matching_effect base_name base_dir dest_dir _
                (set_fs id (record (io_call (OpListdir base_dir)) s)) s'
                Hnames Hd Hrun) as (Hdirs & _ & _ & Hin & Hother).
  change (fs (set_fs id (record (io_call (OpListdir base_dir)) s)))
    with (fs s) in *.
  split; [|split; [|split]].
  - intros f c Hs Hf Hp Hc. apply Hin; [|done|done].
    by eapply dir_entries_file.
  - intros p Hne. rewrite Hother; [done|].
    intros f Hf Hp. apply Hne; [|done]. by destruct (dir_entries_no_sep _ _ _ Hf).
  - exact Hdirs.
  - apply splitext_stem_prefix.
Qed.


(** ** The run, stage by stage *)

Lemma snapshot_state_facts :
  temp_dir snapshot_state = Some mkdtemp_path
  /\ mkdtemp_path ∈ dirs (fs snapshot_state)
  /\ isfile (fs snapshot_state) project_backup_path = true.
Proof.
  split; [done|]. split.
  - simpl. apply elem_of_union. left. by apply elem_of_singleton.
  - simpl. apply isfile_write_file_same.
Qed.

Lemma layers_counted :
  map_layers host <> [] -> Z.of_nat (length (map_layers host)) <> 0.
Proof. destruct (map_layers host); [done|]. simpl. lia. Qed.

Lemma execute_path r s : execute = (r, s) -> r = run_result /\ run_path s.
Proof.
  unfold execute, run, try_finally, try_except, run_try, mkdtemp.
  unfold bind at 1 2 3, emit at 1. cbv beta.
  destruct (perform_spec (OpMkdtemp mkdtemp_path) (make_dir mkdtemp_path)
              (record (status_updated (py "Starting project clone..."))
                 (init_state (initial_fs host))))
    as [[Hmk ->]|(e & Hmk & ->)].
  2:{ cbv beta iota. unfold run_except, bind, emit. cbv beta iota.
      rewrite run_finally_skips by done. intros [= <- <-].
      split; [unfold run_result; by rewrite Hmk|].
      apply (path_no_working_area _ e); [done|reflexivity]. }
  cbv beta iota. unfold ret at 1, bind at 1, set_temp_dir. cbv beta iota.
  set (sC := {| fs := _; temp_dir := Some mkdtemp_path; zipf := _; trace := _ |}).
  assert (HdC : mkdtemp_path ∈ dirs (fs sC)).
  { subst sC. simpl. apply elem_of_union. left. by apply elem_of_singleton. }
  destruct (is_empty (project_file host)) eqn:Hpf.
  { unfold emit. cbv beta iota. rewrite run_finally_removes, removal_decides by done.
    intros [= <- <-]. split; [by rewrite run_result_created|]. apply path_no_project; [done| |reflexivity].
    by destruct (project_file host). }
  assert (Hpf' : project_file host <> []) by (by destruct (project_file host)).
  unfold bind at 1, emit at 1, bind at 1, project_write.
  destruct (perform_spec (OpProjectWrite (join mkdtemp_path (py "project.qgz")))
              (write_file (join mkdtemp_path (py "project.qgz"))
                 (ProjectDoc (project_file host)))
              (record (status_updated (py "Backing up project file...")) sC))
    as [[Hpw ->]|(e & Hpw & ->)].
  2:{ cbv beta iota. unfold run_except, bind, emit. cbv beta iota.
      rewrite run_finally_removes, removal_decides by done. intros [= <- <-].
      split; [by rewrite run_result_created|].
      apply (path_snapshot_failed _ e); [done|done|done|reflexivity]. }
  cbv beta iota. unfold bind at 1, emit at 1, bind at 1. cbv beta iota.
  change (record (progress_updated 10) _) with snapshot_state.
  destruct snapshot_state_facts as (HtdF & HdF & HbF).
  pose proof (export_layers_spec mkdtemp_path (Z.of_nat (length (map_layers host)))
                (map_layers host) 1 [] snapshot_state layers_counted) as H.
  destruct (export_layers mkdtemp_path _ 1 (map_layers host) [] snapshot_state)
    as [[lf|e] sG] eqn:Eloop.
  2:{ destruct H as ((Htd & Hd & _) & _).
      unfold run_except, bind, emit. cbv beta iota.
      rewrite run_finally_removes; [|simpl; congruence|simpl; by rewrite Hd].
      rewrite removal_decides. intros [= <- <-].
      split; [by rewrite run_result_created|]. apply (path_export_failed _ e sG); [done|done|done|done|reflexivity]. }
  destruct H as (HfFG & _ & evs & k & _ & _ & _ & _ & _ & _
                 & _ & _ & copied & _ & Hlf & _ & Hex).
  unfold bind at 1, emit at 1, bind at 1. cbv beta iota.
  change (record (status_updated (py "Creating ZIP package...")) sG)
    with (packaging_state sG).
  assert (HbH : isfile (fs (packaging_state sG))
                  (join mkdtemp_path (py "project.qgz")) = true).
  { simpl. by apply HfFG. }
  assert (Hex' : Forall (fun p => path_exists (fs (packaging_state sG)) p = true) lf).
  { by rewrite Hlf. }
  pose proof (write_archive_spec mkdtemp_path lf (length (map_layers host))
                (packaging_state sG) HbH Hex') as H.
  destruct HfFG as (Htd1 & Hd1 & _).
  destruct (write_archive mkdtemp_path lf _ (packaging_state sG))
    as [[[]|e] sI] eqn:Ezip; destruct H as ((Htd2 & Hd2 & _) & _).
  - unfold emit, bind. cbv beta iota.
    rewrite run_finally_removes;
      [|simpl; rewrite Htd2; simpl; congruence
       |simpl; rewrite Hd2; simpl; by rewrite Hd1].
    rewrite removal_decides. intros [= <- <-].
    split; [by rewrite run_result_created|]. apply (path_success _ lf sG sI); [done|done|done|done|done|reflexivity].
  - unfold run_except, bind, emit. cbv beta iota.
    rewrite run_finally_removes;
      [|simpl; rewrite Htd2; simpl; congruence
       |simpl; rewrite Hd2; simpl; by rewrite Hd1].
    rewrite removal_decides. intros [= <- <-].
    split; [by rewrite run_result_created|]. apply (path_packaging_failed _ e lf sG sI); [done|done|done|done|done|reflexivity].
Qed.


(** ** What the run writes *)

Lemma confined_refl W f : confined_to W f f.
Proof. by split. Qed.

Lemma confined_trans W f1 f2 f3 :
  confined_to W f1 f2 -> confined_to W f2 f3 -> confined_to W f1 f3.
Proof.
  intros [Hd1 Hf1] [Hd2 Hf2]. split; [congruence|].
  intros p Hp. by rewrite Hf2, Hf1.
Qed.

Lemma confined_weaken (W W' : pystr -> Prop) f f' :
  (forall p, W p -> W' p) -> confined_to W f f' -> confined_to W' f f'.
Proof. intros HW [Hd Hf]. split; [done|]. intros p Hp. apply Hf. auto. Qed.

Lemma confined_write (W : pystr -> Prop) p c f :
  W p -> confined_to W f (write_file p c f).
Proof.
  intros Hw. split; [done|]. intros q Hq. simpl.
  apply lookup_insert_ne. by intros ->.
Qed.

Lemma perform_write_confined (W : pystr -> Prop) op p c s :
  W p -> confined_to W (fs s) (fs (perform op (write_file p c) s).2).
Proof.
  intros Hw.
  destruct (perform_spec op (write_file p c) s) as [[_ ->]|(e & _ & ->)]; simpl.
  - by apply confined_write.
  - apply confined_refl.
Qed.

Lemma basename_sep_free (p : pystr) : sep ∉ basename p.
Proof.
  destruct (decide (sep ∈ p)) as [Hin|Hin].
  - destruct (last_occurrence _ _ Hin) as (a & b & -> & Hb).
    by rewrite basename_after_sep.
  - by rewrite basename_no_sep.
Qed.

Lemma in_working_area_join x : sep ∉ x -> in_working_area (join mkdtemp_path x).
Proof. intros Hx. by apply inside_join. Qed.

Lemma in_working_area_join_join x b :
  sep ∉ x -> sep ∉ b -> in_working_area (join (join mkdtemp_path x) b).
Proof.
  intros Hx Hb. unfold in_working_area, inside.
  rewrite (join_name _ b Hb), (join_name mkdtemp_path x Hx).
  assert (Hsuffix : exists r, join (join mkdtemp_path [] ++ x) []
                              = (join mkdtemp_path [] ++ x) ++ r).
  { unfold join at 1. simpl. destruct (_ || _)%bool; eauto. }
  destruct Hsuffix as [r ->]. rewrite <- !app_assoc, startswith_prefix.
  apply orb_true_r.
Qed.

Lemma in_working_area_working_area : in_working_area mkdtemp_path.
Proof. apply inside_mkdtemp_path. Qed.

Lemma in_working_area_style_file l : in_working_area (style_file mkdtemp_path l).
Proof.
  apply in_working_area_join. intros [H|H]%elem_of_app.
  - by apply sanitize_filename_no_sep in H.
  - exact (bool_decide_unpack (sep ∉ py ".qml") I H).
Qed.

Lemma in_working_area_layer_def_file l : in_working_area (layer_def_file mkdtemp_path l).
Proof.
  apply in_working_area_join. intros [H|H]%elem_of_app.
  - by apply sanitize_filename_no_sep in H.
  - exact (bool_decide_unpack (sep ∉ py ".qlr") I H).
Qed.

Lemma copy2_confined src dst s :
  in_working_area dst -> in_working_area (join dst (basename src)) ->
  confined_to in_working_area (fs s) (fs (copy2 src dst s).2).
Proof.
  intros Hdst Hsub. unfold copy2.
  destruct (files (fs s) !! src) as [c|]; [|apply confined_refl].
  apply perform_write_confined. by destruct (isdir (fs s) dst).
Qed.

Lemma copy_matching_confined base_name base_dir names : forall s,
  confined_to in_working_area (fs s) (fs (copy_matching base_name base_dir mkdtemp_path names s).2).
Proof.
  induction names as [|f rest IH]; intros s; simpl; [apply confined_refl|].
  unfold bind.
  assert (Hstep : confined_to in_working_area (fs s)
            (fs (copy_if_matching base_name base_dir mkdtemp_path f s).2)).
  { unfold copy_if_matching. destruct (startswith f base_name); [|apply confined_refl].
    unfold bind, get_fs. destruct (isfile (fs s) (join base_dir f));
      [|apply confined_refl].
    apply copy2_confined; [apply in_working_area_working_area|].
    apply in_working_area_join, basename_sep_free. }
  destruct (copy_if_matching base_name base_dir mkdtemp_path f s) as [[[]|e] s1];
    [|done].
  eapply confined_trans; [exact Hstep|apply IH].
Qed.

Lemma copy_associated_files_confined source s :
  confined_to in_working_area (fs s) (fs (_copy_associated_files source mkdtemp_path s).2).
Proof.
  unfold _copy_associated_files, bind, listdir.
  destruct (is_empty (dirname source)); [apply confined_refl|]. unfold bind.
  destruct (perform_spec (OpListdir (dirname source)) id s) as [[_ ->]|(e & _ & ->)];
    [|apply confined_refl].
  unfold ret. apply (copy_matching_confined _ _ _ (set_fs id (record _ s))).
Qed.

Lemma copy_data_files_confined l lf s :
  confined_to in_working_area (fs s) (fs (copy_data_files mkdtemp_path l lf s).2).
Proof.
  assert (Hx : sep ∉ sanitize_filename (layer_name l) ++ (splitext (layer_source l)).2).
  { intros [H|H]%elem_of_app; [by apply sanitize_filename_no_sep in H|].
    by apply splitext_ext_no_sep in H. }
  unfold copy_data_files, bind, get_fs. cbv beta zeta.
  destruct (include_data self && isfile (fs s) (layer_source l))%bool;
    [|apply confined_refl].
  pose proof (copy2_confined (layer_source l) (data_file mkdtemp_path l) s
                (in_working_area_join _ Hx)
                (in_working_area_join_join _ _ Hx (basename_sep_free _))) as H1.
  destruct (copy2 (layer_source l) (data_file mkdtemp_path l) s) as [[[]|e] s1];
    [|done].
  pose proof (copy_associated_files_confined (layer_source l) s1) as H2.
  destruct (_copy_associated_files (layer_source l) mkdtemp_path s1) as [[[]|e] s2];
    by eapply confined_trans.
Qed.

Lemma save_layer_style_confined l lf s :
  confined_to in_working_area (fs s) (fs (save_layer_style mkdtemp_path l lf s).2).
Proof.
  pose proof (in_working_area_style_file l) as Hw.
  unfold save_layer_style, saveNamedStyle, bind.
  pose proof (perform_write_confined in_working_area
                (OpSaveNamedStyle (layer_id l) (style_file mkdtemp_path l))
                (style_file mkdtemp_path l) (StyleDoc (layer_id l)) s Hw) as H.
  by destruct (perform _ _ s) as [[[]|e] s1].
Qed.

Lemma save_layer_definition_confined l lf s :
  confined_to in_working_area (fs s) (fs (save_layer_definition mkdtemp_path l lf s).2).
Proof.
  unfold save_layer_definition.
  destruct (is_vector l); [|apply confined_refl].
  unfold try_except. destruct (has_writeLayer host); [|apply confined_refl].
  unfold bind, writeLayer.
  pose proof (perform_write_confined in_working_area
                (OpWriteLayer (layer_id l) (layer_def_file mkdtemp_path l))
                (layer_def_file mkdtemp_path l) (LayerDefDoc (layer_id l)) s
                (in_working_area_layer_def_file l)) as H.
  by destruct (perform _ _ s) as [[[]|e] s1].
Qed.

Lemma export_layer_confined total i l lf s :
  confined_to in_working_area (fs s) (fs (export_layer mkdtemp_path total i l lf s).2).
Proof.
  unfold export_layer, progress_of.
  destruct (Z.eqb total 0); [apply confined_refl|].
  unfold bind at 1 2, ret at 1, emit at 1. cbv beta.
  destruct (is_vector_or_raster l); [|apply confined_refl].
  unfold bind at 1, emit at 1.
  set (s1 := record (status_updated _) (record (progress_updated _) s)).
  change (fs s) with (fs s1). unfold bind.
  pose proof (copy_data_files_confined l lf s1) as H1.
  destruct (copy_data_files mkdtemp_path l lf s1) as [[lf1|e] s2]; [|done].
  pose proof (save_layer_style_confined l lf1 s2) as H2.
  destruct (save_layer_style mkdtemp_path l lf1 s2) as [[lf2|e] s3];
    [|by eapply confined_trans].
  pose proof (save_layer_definition_confined l lf2 s3) as H3.
  eapply confined_trans; [exact H1|]. by eapply confined_trans.
Qed.

Lemma export_layers_confined total ls : forall i lf s,
  confined_to in_working_area (fs s) (fs (export_layers mkdtemp_path total i ls lf s).2).
Proof.
  induction ls as [|l rest IH]; intros i lf s; simpl; [apply confined_refl|].
  unfold bind.
  pose proof (export_layer_confined total i l lf s) as H.
  destruct (export_layer mkdtemp_path total i l lf s) as [[lf1|e] s1]; [|done].
  eapply confined_trans; [exact H|apply IH].
Qed.

Lemma zip_write_same_fs p arcname s : fs (zip_write p arcname s).2 = fs s.
Proof.
  unfold zip_write.
  destruct (match files (fs s) !! p with
            | Some c => Some (arcname, c)
            | None => if isdir (fs s) p
                      then Some (dir_arcname arcname, DirMember) else None
            end); [|done].
  unfold bind.
  by destruct (perform_spec (OpZipWrite p arcname) id s) as [[_ ->]|(e & _ & ->)].
Qed.

Lemma zip_write_all_same_fs paths : forall s, fs (zip_write_all paths s).2 = fs s.
Proof.
  induction paths as [|p rest IH]; intros s; simpl; [done|]. unfold bind.
  pose proof (zip_write_same_fs p (basename p) s) as H.
  destruct (zip_write p (basename p) s) as [[[]|e] s1]; [|done].
  by rewrite IH.
Qed.

Lemma writable_metadata : writable (join mkdtemp_path (py "metadata.json")).
Proof.
  left. apply in_working_area_join. exact (bool_decide_unpack (sep ∉ py "metadata.json") I).
Qed.

Lemma in_working_area_backup : in_working_area project_backup_path.
Proof.
  apply in_working_area_join. exact (bool_decide_unpack (sep ∉ py "project.qgz") I).
Qed.

Lemma write_archive_confined lf n s :
  confined (fs s) (fs (write_archive mkdtemp_path lf n s).2).
Proof.
  assert (Hout : writable (output_path self)) by (by right).
  unfold write_archive, with_zipfile, zip_open. unfold bind at 1 2.
  pose proof (perform_write_confined writable (OpZipOpen (output_path self))
                (output_path self) (ZipArchive []) s Hout) as H0.
  destruct (perform (OpZipOpen (output_path self)) _ s) as [[[]|e] s0]; [|done].
  cbv beta iota.
  set (s1 := set_zipf [] s0). change (fs s0) with (fs s1) in H0.
  assert (Hbody : confined (fs s1)
            (fs ((zip_write (join mkdtemp_path (py "project.qgz")) (py "project.qgz");;
                  zip_write_all lf;;
                  dump_metadata (join mkdtemp_path (py "metadata.json")) (metadata n);;
                  zip_write (join mkdtemp_path (py "metadata.json"))
                    (py "metadata.json")) s1).2)).
  { unfold bind.
    pose proof (zip_write_same_fs (join mkdtemp_path (py "project.qgz"))
                  (py "project.qgz") s1) as Ha.
    destruct (zip_write (join mkdtemp_path (py "project.qgz")) _ s1) as [[[]|e] sa];
      simpl in Ha |- *; [|rewrite Ha; apply confined_refl].
    pose proof (zip_write_all_same_fs lf sa) as Hb.
    destruct (zip_write_all lf sa) as [[[]|e] sb];
      simpl in Hb |- *; [|rewrite Hb, Ha; apply confined_refl].
    unfold dump_metadata.
    pose proof (perform_write_confined writable
                  (OpDumpMetadata (join mkdtemp_path (py "metadata.json")))
                  (join mkdtemp_path (py "metadata.json"))
                  (ManifestDoc (metadata n)) sb writable_metadata) as Hc.
    rewrite Hb, Ha in Hc.
    destruct (perform (OpDumpMetadata _) _ sb) as [[[]|e] sc]; [|done].
    pose proof (zip_write_same_fs (join mkdtemp_path (py "metadata.json"))
                  (py "metadata.json") sc) as Hd.
    destruct (zip_write (join mkdtemp_path (py "metadata.json")) _ sc) as [r sd].
    simpl in Hd |- *. by rewrite Hd. }
  destruct ((zip_write (join mkdtemp_path (py "project.qgz")) (py "project.qgz");; _) s1)
    as [r s2].
  unfold zip_close.
  pose proof (perform_write_confined writable (OpZipClose (output_path self))
                (output_path self) (ZipArchive (zipf s2)) s2 Hout) as H2.
  destruct (perform (OpZipClose (output_path self)) _ s2) as [[[]|e] s3];
    simpl in *; eapply confined_trans; eauto using confined_trans.
Qed.

Lemma remove_tree_outside f p :
  inside mkdtemp_path p = false ->
  files (remove_tree mkdtemp_path f) !! p = files f !! p
  /\ (p ∈ dirs (remove_tree mkdtemp_path f) <-> p ∈ dirs f).
Proof.
  intros Hp. unfold remove_tree. simpl. split.
  - destruct (files f !! p) as [c|] eqn:Hc.
    + by apply map_lookup_filter_Some.
    + apply map_lookup_filter_None. by left.
  - rewrite elem_of_filter. tauto.
Qed.

Lemma removal_outside f p :
  inside mkdtemp_path p = false ->
  files (removal f) !! p = files f !! p
  /\ (p ∈ dirs (removal f) <-> p ∈ dirs f).
Proof.
  intros Hp. unfold removal.
  destruct (fault host (OpRmtree mkdtemp_path)); [done|].
  by apply remove_tree_outside.
Qed.

Lemma snapshot_state_confined :
  confined_to in_working_area
    (make_dir mkdtemp_path (initial_fs host)) (fs snapshot_state).
Proof. apply confined_write, in_working_area_backup. Qed.

Lemma export_confined r sG :
  export_layers mkdtemp_path (Z.of_nat (length (map_layers host))) 1
    (map_layers host) [] snapshot_state = (r, sG) ->
  confined_to in_working_area (make_dir mkdtemp_path (initial_fs host)) (fs sG).
Proof.
  intros E. eapply confined_trans; [apply snapshot_state_confined|].
  pose proof (export_layers_confined (Z.of_nat (length (map_layers host)))
                (map_layers host) 1 [] snapshot_state) as H.
  by rewrite E in H.
Qed.

Lemma in_working_area_writable p : in_working_area p -> writable p.
Proof. by left. Qed.

(** X5: the run writes nowhere but in its working area and at the
    output path.  Whatever the outcome, every other file is afterwards
    what it was before, and the directories outside the working area are
    the same: the data sources and the project file are only read. *)
Theorem run_writes_only_working_area_and_output (p : pystr) :
  inside mkdtemp_path p = false ->
  p <> output_path self ->
  files (fs (snd execute)) !! p = files (initial_fs host) !! p
  /\ (p ∈ dirs (fs (snd execute)) <-> p ∈ dirs (initial_fs host)).
Proof.
  intros Hin Hout.
  assert (Hnw : ~ writable p).
  { intros [H|H]; [congruence|done]. }
  assert (Hne : p <> mkdtemp_path).
  { intros ->. by rewrite inside_mkdtemp_path in Hin. }
  assert (Hfrom : forall f,
            confined (make_dir mkdtemp_path (initial_fs host)) f ->
            files (removal f) !! p = files (initial_fs host) !! p
            /\ (p ∈ dirs (removal f) <-> p ∈ dirs (initial_fs host))).
  { intros f [Hd Hf].
    destruct (removal_outside f p Hin) as [-> ->].
    rewrite Hf, Hd by done. simpl. split; [done|].
    rewrite elem_of_union, elem_of_singleton. tauto. }
  destruct execute as [r s] eqn:E. cbn [snd].
  apply execute_path in E as [_ Hpath].
  destruct Hpath as [e Hmk ->| Hmk Hpf ->| e Hmk Hpf Hpw ->
                    | e sG Hmk Hpf Hpw Eloop ->
                    | e lf sG sI Hmk Hpf Hpw Eloop Ezip ->
                    | lf sG sI Hmk Hpf Hpw Eloop Ezip ->].
  - done.
  - apply Hfrom, confined_refl.
  - apply Hfrom, confined_refl.
  - apply Hfrom.
    exact (confined_weaken _ _ _ _ in_working_area_writable (export_confined _ _ Eloop)).
  - apply Hfrom. eapply confined_trans.
    + exact (confined_weaken _ _ _ _ in_working_area_writable
               (export_confined _ _ Eloop)).
    + pose proof (write_archive_confined lf (length (map_layers host))
                    (packaging_state sG)) as H'.
      by rewrite Ezip in H'.
  - apply Hfrom. eapply confined_trans.
    + exact (confined_weaken _ _ _ _ in_working_area_writable
               (export_confined _ _ Eloop)).
    + pose proof (write_archive_confined lf (length (map_layers host))
                    (packaging_state sG)) as H'.
      by rewrite Ezip in H'.
Qed.


(** ** The events of a run *)

Lemma statuses_app a b : statuses (a ++ b) = statuses a ++ statuses b.
Proof. apply omap_app. Qed.

Lemma statuses_calls ops : statuses (List.map io_call ops) = [].
Proof. by induction ops. Qed.

Lemma outcomes_calls ops : outcomes (List.map io_call ops) = [].
Proof. by induction ops. Qed.

Lemma progress_values_calls ops : progress_values (List.map io_call ops) = [].
Proof. by induction ops. Qed.

Lemma io_calls_calls ops : io_calls (List.map io_call ops) = ops.
Proof. induction ops as [|op ops IH]; [done|]. cbn. by f_equal. Qed.

Lemma calls_refl P s : calls P s s.
Proof. exists []. by rewrite app_nil_r. Qed.

Lemma calls_trans P s1 s2 s3 : calls P s1 s2 -> calls P s2 s3 -> calls P s1 s3.
Proof.
  intros (o1 & H1 & F1) (o2 & H2 & F2). exists (o1 ++ o2).
  rewrite H2, H1, map_app, app_assoc. split; [done|]. by apply Forall_app.
Qed.

Lemma calls_perform (P : io_op -> bool) op effect s :
  P op = true -> calls P s (perform op effect s).2.
Proof.
  intros HP. exists [op]. split; [|by constructor].
  by destruct (perform_spec op effect s) as [[_ ->]|(e & _ & ->)].
Qed.

Lemma calls_record (P : io_op -> bool) op s :
  P op = true -> calls P s (record (io_call op) s).
Proof. intros HP. exists [op]. split; [done|by constructor]. Qed.

Lemma copy2_calls src dst s :
  include_data self = true -> calls loop_op s (copy2 src dst s).2.
Proof.
  intros Hinc. unfold copy2. destruct (files (fs s) !! src) as [c|].
  - by apply calls_perform.
  - by apply calls_record.
Qed.

Lemma copy_matching_calls base_name base_dir dest_dir names : forall s,
  include_data self = true ->
  calls loop_op s (copy_matching base_name base_dir dest_dir names s).2.
Proof.
  induction names as [|f rest IH]; intros s Hinc; simpl; [apply calls_refl|].
  unfold bind.
  assert (Hstep : calls loop_op s
            (copy_if_matching base_name base_dir dest_dir f s).2).
  { unfold copy_if_matching. destruct (startswith f base_name); [|apply calls_refl].
    unfold bind, get_fs. destruct (isfile (fs s) (join base_dir f));
      [|apply calls_refl].
    by apply copy2_calls. }
  destruct (copy_if_matching base_name base_dir dest_dir f s) as [[[]|e] s1];
    [|done].
  eapply calls_trans; [exact Hstep|by apply IH].
Qed.

Lemma copy_associated_files_calls source dest_dir s :
  include_data self = true ->
  calls loop_op s (_copy_associated_files source dest_dir s).2.
Proof.
  intros Hinc. unfold _copy_associated_files, bind, listdir.
  destruct (is_empty (dirname source)); [by apply calls_record|]. unfold bind.
  pose proof (calls_perform loop_op (OpListdir (dirname source)) id s Hinc) as H1.
  destruct (perform (OpListdir (dirname source)) id s) as [[[]|e] s1]; [|done].
  unfold ret. eapply calls_trans; [exact H1|by apply copy_matching_calls].
Qed.

Lemma copy_data_files_calls t l lf s :
  calls loop_op s (copy_data_files t l lf s).2.
Proof.
  unfold copy_data_files, bind, get_fs. cbv beta zeta.
  destruct (include_data self) eqn:Hinc; [|apply calls_refl].
  destruct (isfile (fs s) (layer_source l)); [|apply calls_refl].
  cbn [andb].
  pose proof (copy2_calls (layer_source l) (data_file t l) s Hinc) as H1.
  destruct (copy2 (layer_source l) (data_file t l) s) as [[[]|e] s1]; [|done].
  pose proof (copy_associated_files_calls (layer_source l) t s1 Hinc) as H2.
  destruct (_copy_associated_files (layer_source l) t s1) as [[[]|e] s2];
    by eapply calls_trans.
Qed.

Lemma save_layer_style_calls t l lf s :
  calls loop_op s (save_layer_style t l lf s).2.
Proof.
  unfold save_layer_style, saveNamedStyle, bind.
  pose proof (calls_perform loop_op (OpSaveNamedStyle (layer_id l) (style_file t l))
                (write_file (style_file t l) (StyleDoc (layer_id l))) s eq_refl) as H.
  by destruct (perform _ _ s) as [[[]|e] s1].
Qed.

Lemma save_layer_definition_calls t l lf s :
  calls loop_op s (save_layer_definition t l lf s).2.
Proof.
  unfold save_layer_definition.
  destruct (is_vector l); [|apply calls_refl].
  unfold try_except. destruct (has_writeLayer host); [|apply calls_refl].
  unfold bind, writeLayer.
  pose proof (calls_perform loop_op (OpWriteLayer (layer_id l) (layer_def_file t l))
                (write_file (layer_def_file t l) (LayerDefDoc (layer_id l))) s
                eq_refl) as H.
  by destruct (perform _ _ s) as [[[]|e] s1].
Qed.

(** One iteration: the progress value, then for a vector or raster layer
    its status text and calls of the loop, whether or not it raises. *)
Lemma export_layer_trace t total i l lf s :
  total <> 0 ->
  exists ops,
    trace (export_layer t total i l lf s).2
    = trace s ++ progress_updated (interpolate i total)
        :: (if is_vector_or_raster l
            then status_updated (processing l) :: List.map io_call ops else [])
    /\ Forall (fun op => loop_op op = true) ops.
Proof.
  intros Htotal. unfold export_layer, progress_of.
  destruct (Z.eqb_spec total 0) as [|_]; [done|].
  unfold bind at 1 2, ret at 1, emit at 1. cbv beta.
  destruct (is_vector_or_raster l); [|by exists []].
  unfold bind at 1, emit at 1.
  set (s1 := record (status_updated _) (record (progress_updated _) s)).
  assert (Hs1 : trace s1 = trace s ++ [progress_updated (interpolate i total);
                                        status_updated (processing l)]).
  { subst s1. cbn [trace record]. by rewrite <- app_assoc. }
  assert (Hcalls : calls loop_op s1
            ((layer_files <- copy_data_files t l lf;;
              layer_files <- save_layer_style t l layer_files;;
              save_layer_definition t l layer_files) s1).2).
  { unfold bind.
    pose proof (copy_data_files_calls t l lf s1) as H1.
    destruct (copy_data_files t l lf s1) as [[lf1|e] s2]; [|done].
    pose proof (save_layer_style_calls t l lf1 s2) as H2.
    destruct (save_layer_style t l lf1 s2) as [[lf2|e] s3];
      [|by eapply calls_trans].
    pose proof (save_layer_definition_calls t l lf2 s3) as H3.
    eapply calls_trans; [exact H1|]. by eapply calls_trans. }
  destruct Hcalls as (ops & Htr & Hops). exists ops. split; [|done].
  rewrite Htr, Hs1, <- app_assoc. done.
Qed.

Lemma loop_events_calls ops :
  Forall (fun op => loop_op op = true) ops -> Forall loop_event (List.map io_call ops).
Proof. intros H. apply Forall_map. by eapply Forall_impl. Qed.

(** The whole loop: its events are events of the loop, and its status
    texts name the vector and raster layers in order, all of them when
    the loop ends and the first of them when it raises. *)
Lemma export_layers_trace t total ls : forall i lf s,
  (ls <> [] -> total <> 0) ->
  exists evs,
    trace (export_layers t total i ls lf s).2 = trace s ++ evs
    /\ Forall loop_event evs
    /\ statuses evs
       `prefix_of` List.map processing (List.filter is_vector_or_raster ls)
    /\ (forall lf', (export_layers t total i ls lf s).1 = Ret lf' ->
          statuses evs
          = List.map processing (List.filter is_vector_or_raster ls)).
Proof.
  induction ls as [|l rest IH]; intros i lf s Htotal.
  { exists []. simpl. by rewrite app_nil_r. }
  assert (Ht : total <> 0) by (by apply Htotal).
  destruct (export_layer_trace t total i l lf s Ht) as (ops & Htr & Hops).
  set (e1 := progress_updated (interpolate i total)
               :: (if is_vector_or_raster l
                   then status_updated (processing l) :: List.map io_call ops
                   else [])) in Htr.
  assert (He1 : Forall loop_event e1).
  { subst e1. constructor; [done|]. destruct (is_vector_or_raster l); [|done].
    constructor; [done|]. by apply loop_events_calls. }
  assert (Hst : statuses e1 = List.map processing
                                (if is_vector_or_raster l then [l] else [])).
  { subst e1. destruct (is_vector_or_raster l); [|done].
    cbn. by rewrite statuses_calls. }
  assert (Hfilter : List.map processing (List.filter is_vector_or_raster (l :: rest))
                    = List.map processing (if is_vector_or_raster l then [l] else [])
                      ++ List.map processing (List.filter is_vector_or_raster rest)).
  { simpl. by destruct (is_vector_or_raster l). }
  rewrite Hfilter. simpl. unfold bind.
  destruct (export_layer t total i l lf s) as [[lf1|e] s1]; cbn [snd] in Htr.
  - destruct (IH (i + 1) lf1 s1) as (evs & Htr2 & Hev & Hpre & Heq);
      [by intros _|].
    exists (e1 ++ evs). rewrite Htr2, Htr, <- app_assoc. split; [done|].
    split; [by apply Forall_app|]. rewrite statuses_app, Hst.
    split; [by apply prefix_app|]. intros lf' Hr. by rewrite (Heq lf' Hr).
  - exists e1. split; [done|]. split; [done|]. rewrite Hst.
    split; [by apply prefix_app_r|]. done.
Qed.

Lemma zip_write_calls p arcname s : calls zip_op s (zip_write p arcname s).2.
Proof.
  unfold zip_write.
  destruct (match files (fs s) !! p with
            | Some c => Some (arcname, c)
            | None => if isdir (fs s) p
                      then Some (dir_arcname arcname, DirMember) else None
            end); [|by apply calls_record].
  unfold bind.
  pose proof (calls_perform zip_op (OpZipWrite p arcname) id s eq_refl) as H.
  by destruct (perform (OpZipWrite p arcname) id s) as [[[]|e] s1].
Qed.

Lemma zip_write_all_calls paths : forall s, calls zip_op s (zip_write_all paths s).2.
Proof.
  induction paths as [|p rest IH]; intros s; simpl; [apply calls_refl|].
  unfold bind.
  pose proof (zip_write_calls p (basename p) s) as H.
  destruct (zip_write p (basename p) s) as [[[]|e] s1]; [|done].
  eapply calls_trans; [exact H|apply IH].
Qed.

(** The packaging block opens the archive first; all it adds to the
    trace is calls of its own. *)
Lemma write_archive_trace t lf n s :
  exists ops,
    trace (write_archive t lf n s).2
    = trace s ++ io_call (OpZipOpen (output_path self)) :: List.map io_call ops
    /\ Forall (fun op => zip_op op = true) ops.
Proof.
  assert (Hgoal : forall s0 s1, trace s0 = trace s ++ [io_call (OpZipOpen (output_path self))] ->
            calls zip_op s0 s1 ->
            exists ops, trace s1 = trace s ++ io_call (OpZipOpen (output_path self))
                                     :: List.map io_call ops
                        /\ Forall (fun op => zip_op op = true) ops).
  { intros s0 s1 H0 (ops & H1 & F). exists ops. split; [|done].
    by rewrite H1, H0, <- app_assoc. }
  unfold write_archive, with_zipfile, zip_open. unfold bind at 1 2.
  destruct (perform_spec (OpZipOpen (output_path self))
              (write_file (output_path self) (ZipArchive [])) s)
    as [[_ ->]|(e & _ & ->)].
  2:{ cbn [snd]. apply (Hgoal (record (io_call (OpZipOpen (output_path self))) s));
      [done|apply calls_refl]. }
  cbv beta iota.
  set (s1 := set_zipf [] _).
  assert (Hbody : calls zip_op s1
            ((zip_write (join t (py "project.qgz")) (py "project.qgz");;
              zip_write_all lf;;
              dump_metadata (join t (py "metadata.json")) (metadata n);;
              zip_write (join t (py "metadata.json")) (py "metadata.json")) s1).2).
  { unfold bind.
    pose proof (zip_write_calls (join t (py "project.qgz")) (py "project.qgz") s1) as Ha.
    destruct (zip_write (join t (py "project.qgz")) _ s1) as [[[]|e] sa]; [|done].
    pose proof (zip_write_all_calls lf sa) as Hb.
    destruct (zip_write_all lf sa) as [[[]|e] sb]; [|by eapply calls_trans].
    unfold dump_metadata.
    pose proof (calls_perform zip_op (OpDumpMetadata (join t (py "metadata.json")))
                  (write_file (join t (py "metadata.json")) (ManifestDoc (metadata n)))
                  sb eq_refl) as Hc.
    destruct (perform (OpDumpMetadata _) _ sb) as [[[]|e] sc];
      [|eapply calls_trans; [exact Ha|by eapply calls_trans]].
    pose proof (zip_write_calls (join t (py "metadata.json")) (py "metadata.json") sc)
      as Hd.
    eapply calls_trans; [exact Ha|]. eapply calls_trans; [exact Hb|].
    by eapply calls_trans. }
  destruct ((zip_write (join t (py "project.qgz")) (py "project.qgz");; _) s1)
    as [r s2].
  unfold zip_close.
  pose proof (calls_perform zip_op (OpZipClose (output_path self))
                (write_file (output_path self) (ZipArchive (zipf s2))) s2 eq_refl) as H2.
  apply (Hgoal s1); [done|].
  destruct (perform (OpZipClose (output_path self)) _ s2) as [[[]|e] s3];
    by eapply calls_trans.
Qed.


Lemma trace_clean_up s :
  trace (clean_up s) = trace s ++ [io_call (OpRmtree mkdtemp_path)].
Proof. done. Qed.

Lemma trace_handle_error e s :
  trace (handle_error e s)
  = trace s ++ [log_message e; finished_signal false (error_message e)].
Proof. unfold handle_error. cbn [trace record]. by rewrite <- app_assoc. Qed.

Lemma trace_finish_success s :
  trace (finish_success s)
  = trace s ++ [progress_updated 100;
                status_updated (py "Clone completed successfully!");
                finished_signal true success_message].
Proof. unfold finish_success. cbn [trace record]. by rewrite <- !app_assoc. Qed.

Lemma trace_snapshot_state :
  trace snapshot_state
  = [status_updated (py "Starting project clone...");
     io_call (OpMkdtemp mkdtemp_path);
     status_updated (py "Backing up project file...");
     io_call (OpProjectWrite project_backup_path);
     progress_updated 10].
Proof. done. Qed.

(** The trace of the stages: after the layer loop, and after the
    packaging block. *)
Lemma export_trace r sG :
  export_layers mkdtemp_path (Z.of_nat (length (map_layers host))) 1
    (map_layers host) [] snapshot_state = (r, sG) ->
  exists evs,
    trace sG = trace snapshot_state ++ evs
    /\ Forall loop_event evs
    /\ statuses evs
       `prefix_of` List.map processing
                     (List.filter is_vector_or_raster (map_layers host))
    /\ (forall lf, r = Ret lf ->
          statuses evs
          = List.map processing (List.filter is_vector_or_raster (map_layers host))).
Proof.
  intros E.
  destruct (export_layers_trace mkdtemp_path (Z.of_nat (length (map_layers host)))
              (map_layers host) 1 [] snapshot_state layers_counted)
    as (evs & Htr & Hev & Hpre & Heq).
  rewrite E in Htr, Heq. cbn [fst snd] in Htr, Heq. by exists evs.
Qed.

Lemma archive_trace r lf sG sI :
  write_archive mkdtemp_path lf (length (map_layers host)) (packaging_state sG)
  = (r, sI) ->
  exists ops,
    trace sI = trace sG ++ status_updated (py "Creating ZIP package...")
                 :: io_call (OpZipOpen (output_path self)) :: List.map io_call ops
    /\ Forall (fun op => zip_op op = true) ops.
Proof.
  intros E.
  destruct (write_archive_trace mkdtemp_path lf (length (map_layers host))
              (packaging_state sG)) as (ops & Htr & Hops).
  rewrite E in Htr. cbn [snd] in Htr. exists ops. split; [|done].
  rewrite Htr. unfold packaging_state. cbn [trace record]. by rewrite <- app_assoc.
Qed.

Lemma loop_events_observed evs :
  Forall loop_event evs ->
  outcomes evs = []
  /\ Forall (fun op => loop_op op = true) (io_calls evs).
Proof.
  induction 1 as [|e evs He _ [IH1 IH2]]; [done|].
  destruct e as [v|m|ok m|m|op]; try done.
  split; [done|]. cbn. by constructor.
Qed.

Lemma loop_ops_without_data ops :
  include_data self = false ->
  Forall (fun op => loop_op op = true) ops ->
  Forall (fun op => copy_op op = false) ops.
Proof.
  intros Hinc H. eapply Forall_impl; [exact H|].
  intros [] Hop; try done; simpl in Hop; congruence.
Qed.

Lemma zip_ops_no_copy ops :
  Forall (fun op => zip_op op = true) ops ->
  Forall (fun op => copy_op op = false) ops.
Proof. intros H. eapply Forall_impl; [exact H|]. by intros []. Qed.

(** X6: with the data files excluded the run makes no call that copies
    a file or lists a directory, whatever its outcome: the data sources
    are not read. *)
Theorem no_copy_without_data :
  include_data self = false ->
  Forall (fun op => copy_op op = false) (io_calls (trace (snd execute))).
Proof.
  intros Hinc. destruct execute as [r s] eqn:E. cbn [snd].
  apply execute_path in E as [_ Hpath].
  destruct Hpath as [e Hmk ->| Hmk Hpf ->| e Hmk Hpf Hpw ->
                    | e sG Hmk Hpf Hpw Eloop ->
                    | e lf sG sI Hmk Hpf Hpw Eloop Ezip ->
                    | lf sG sI Hmk Hpf Hpw Eloop Ezip ->].
  - cbn. by repeat constructor.
  - cbn. by repeat constructor.
  - cbn. by repeat constructor.
  - destruct (export_trace _ _ Eloop) as (evs & Htr & Hev & _).
    rewrite trace_clean_up, trace_handle_error, Htr, trace_snapshot_state.
    rewrite !io_calls_app. repeat apply Forall_app_2; try (cbn; by repeat constructor).
    apply loop_ops_without_data; [done|]. by apply loop_events_observed.
  - destruct (export_trace _ _ Eloop) as (evs & Htr & Hev & _).
    destruct (archive_trace _ _ _ _ Ezip) as (ops & Htr' & Hops).
    rewrite trace_clean_up, trace_handle_error, Htr', Htr, trace_snapshot_state.
    rewrite !io_calls_app. repeat apply Forall_app_2; try (cbn; by repeat constructor).
    + apply loop_ops_without_data; [done|]. by apply loop_events_observed.
    + cbn. constructor; [done|]. rewrite io_calls_calls. by apply zip_ops_no_copy.
  - destruct (export_trace _ _ Eloop) as (evs & Htr & Hev & _).
    destruct (archive_trace _ _ _ _ Ezip) as (ops & Htr' & Hops).
    rewrite trace_clean_up, trace_finish_success, Htr', Htr, trace_snapshot_state.
    rewrite !io_calls_app. repeat apply Forall_app_2; try (cbn; by repeat constructor).
    + apply loop_ops_without_data; [done|]. by apply loop_events_observed.
    + cbn. constructor; [done|]. rewrite io_calls_calls. by apply zip_ops_no_copy.
Qed.


Lemma outcome_in_trace tr ok m :
  In (finished_signal ok m) tr -> In (ok, m) (outcomes tr).
Proof.
  intros H. apply list_elem_of_In, list_elem_of_omap.
  exists (finished_signal ok m). split; [by apply list_elem_of_In|done].
Qed.

(** Which signal a trace holds tells the outcome of the run. *)
Lemma outcome_by_signal :
  (In (finished_signal true success_message) (trace (snd execute)) ->
   succeeded (snd execute))
  /\ (forall m, In (finished_signal false m) (trace (snd execute)) ->
        ~ succeeded (snd execute)).
Proof.
  destruct run_observed as [_ [(Ho & _)|(msg & Ho & _)]]; split.
  - intros _. by exists success_message.
  - intros m Hin%outcome_in_trace [msg' Hm]. rewrite Ho in Hin.
    destruct Hin as [[=]|[]].
  - intros Hin%outcome_in_trace. rewrite Ho in Hin. destruct Hin as [[=]|[]].
  - intros m _ [msg' Hm]. congruence.
Qed.

Lemma statuses_loop_short evs :
  statuses evs
  `prefix_of` List.map processing (List.filter is_vector_or_raster (map_layers host)) ->
  [py "Starting project clone..."; py "Backing up project file..."] ++ statuses evs
  `prefix_of` full_statuses
  /\ (length ([py "Starting project clone..."; py "Backing up project file..."]
              ++ statuses evs) < length full_statuses)%nat.
Proof.
  intros Hpre. unfold full_statuses. split.
  - apply prefix_app. by apply prefix_app_r.
  - apply prefix_length in Hpre. rewrite !length_app. simpl. lia.
Qed.

(** X7: the status texts follow the stages of the run.  A run that
    succeeds shows, in this order, the start, the backup of the project,
    one text for each vector or raster layer under its sanitized name,
    the packaging and the completion; a run that fails shows a proper
    beginning of this list. *)
Theorem statuses_follow_the_stages :
  statuses (trace (snd execute)) `prefix_of` full_statuses
  /\ (statuses (trace (snd execute)) = full_statuses <-> succeeded (snd execute)).
Proof.
  destruct outcome_by_signal as [Hyes Hno].
  destruct execute as [r s] eqn:E. cbn [snd] in *.
  apply execute_path in E as [_ Hpath].
  assert (Hshort : forall l : list pystr,
            l `prefix_of` full_statuses ->
            (length l < length full_statuses)%nat ->
            (exists m, In (finished_signal false m) (trace s)) ->
            statuses (trace s) = l ->
            statuses (trace s) `prefix_of` full_statuses
            /\ (statuses (trace s) = full_statuses <-> succeeded s)).
  { intros l Hpre Hlen [m Hm] ->. split; [done|]. split.
    - intros ->. lia.
    - intros Hok. by apply Hno in Hm. }
  destruct Hpath as [e Hmk ->| Hmk Hpf ->| e Hmk Hpf Hpw ->
                    | e sG Hmk Hpf Hpw Eloop ->
                    | e lf sG sI Hmk Hpf Hpw Eloop Ezip ->
                    | lf sG sI Hmk Hpf Hpw Eloop Ezip ->].
  - apply (Hshort [py "Starting project clone..."]).
    + unfold full_statuses. by eexists.
    + unfold full_statuses. rewrite !length_app. simpl. lia.
    + exists (error_message e). cbn. tauto.
    + done.
  - apply (Hshort [py "Starting project clone..."]).
    + unfold full_statuses. by eexists.
    + unfold full_statuses. rewrite !length_app. simpl. lia.
    + exists no_project_message. cbn. tauto.
    + done.
  - destruct (statuses_loop_short [] (prefix_nil _)) as [Hp Hl].
    apply (Hshort _ Hp Hl).
    + exists (error_message e). cbn. tauto.
    + done.
  - destruct (export_trace _ _ Eloop) as (evs & Htr & _ & Hpre & _).
    destruct (statuses_loop_short evs Hpre) as [Hp Hl].
    apply (Hshort _ Hp Hl).
    + exists (error_message e). rewrite trace_clean_up, trace_handle_error.
      rewrite !in_app_iff. simpl. tauto.
    + rewrite trace_clean_up, trace_handle_error, Htr, trace_snapshot_state.
      rewrite !statuses_app. cbn. by rewrite !app_nil_r.
  - destruct (export_trace _ _ Eloop) as (evs & Htr & _ & _ & Heq).
    destruct (archive_trace _ _ _ _ Ezip) as (ops & Htr' & _).
    apply (Hshort ([py "Starting project clone..."; py "Backing up project file..."]
                   ++ List.map processing
                        (List.filter is_vector_or_raster (map_layers host))
                   ++ [py "Creating ZIP package..."])).
    + unfold full_statuses. do 2 apply prefix_app.
      by exists [py "Clone completed successfully!"].
    + unfold full_statuses. rewrite !length_app. simpl. lia.
    + exists (error_message e). rewrite trace_clean_up, trace_handle_error.
      rewrite !in_app_iff. simpl. tauto.
    + rewrite trace_clean_up, trace_handle_error, Htr', Htr, trace_snapshot_state.
      rewrite !statuses_app. cbn. rewrite statuses_calls, (Heq lf eq_refl).
      by rewrite !app_nil_r.
  - destruct (export_trace _ _ Eloop) as (evs & Htr & _ & _ & Heq).
    destruct (archive_trace _ _ _ _ Ezip) as (ops & Htr' & _).
    assert (Hst : statuses (trace (clean_up (finish_success sI))) = full_statuses).
    { rewrite trace_clean_up, trace_finish_success, Htr', Htr, trace_snapshot_state.
      rewrite !statuses_app. cbn. rewrite statuses_calls, (Heq lf eq_refl).
      unfold full_statuses. rewrite !app_nil_r, <- !app_assoc. done. }
    rewrite Hst. split; [done|]. split; [|done]. intros _. apply Hyes.
    rewrite trace_clean_up, trace_finish_success.
    rewrite !in_app_iff. simpl. tauto.
Qed.


(** ** The file at the output path *)

Lemma write_archive_output t lf n s r s' :
  write_archive t lf n s = (r, s') ->
  fault host (OpZipOpen (output_path self)) = None ->
  fault host (OpZipClose (output_path self)) = None ->
  files (fs s') !! output_path self = Some (ZipArchive (zipf s')).
Proof.
  intros E Hopen Hclose. revert E.
  unfold write_archive, with_zipfile, zip_open. unfold bind at 1 2.
  unfold perform at 1. rewrite Hopen. cbv beta iota zeta.
  destruct ((zip_write (join t (py "project.qgz")) (py "project.qgz");; _) _)
    as [r2 s2].
  unfold zip_close, perform. rewrite Hclose. cbv beta iota zeta.
  assert (Hlook : files (fs (set_fs (write_file (output_path self)
                                       (ZipArchive (zipf s2)))
                               (record (io_call (OpZipClose (output_path self))) s2)))
                  !! output_path self
                  = Some (ZipArchive (zipf s2))).
  { simpl. apply lookup_insert_eq. }
  by destruct r2 as [[]|e]; intros [= <- <-].
Qed.

Lemma outside_working_area p :
  inside mkdtemp_path p = false -> ~ in_working_area p.
Proof. unfold in_working_area. congruence. Qed.

Lemma untouched_when_removed f p :
  confined_to in_working_area (make_dir mkdtemp_path (initial_fs host)) f ->
  inside mkdtemp_path p = false ->
  files (removal f) !! p = files (initial_fs host) !! p.
Proof.
  intros [_ Hf] Hp. destruct (removal_outside f p Hp) as [-> _].
  by rewrite Hf by (by apply outside_working_area).
Qed.

(** X8: what a run leaves at the output path, when this lies outside
    the working area.  A run that does not get as far as opening the
    archive leaves there what was there before.  A run that opens it
    replaces the file, also when it fails afterwards: with [open] and
    [close] going through, the file is an archive of the members written
    up to the failure. *)
Theorem output_path_after_run :
  inside mkdtemp_path (output_path self) = false ->
  let out := output_path self in
  let s := snd execute in
  (~ In (OpZipOpen out) (io_calls (trace s)) ->
   files (fs s) !! out = files (initial_fs host) !! out)
  /\ (In (OpZipOpen out) (io_calls (trace s)) ->
      fault host (OpZipOpen out) = None ->
      fault host (OpZipClose out) = None ->
      files (fs s) !! out = Some (ZipArchive (zipf s))).
Proof.
  intros Hout out s. subst out s.
  destruct execute as [r s] eqn:E. cbn [snd].
  apply execute_path in E as [_ Hpath].
  assert (Hopened : forall sG sI r' lf (post : list event),
            write_archive mkdtemp_path lf (length (map_layers host))
              (packaging_state sG) = (r', sI) ->
            In (OpZipOpen (output_path self)) (io_calls (trace sI ++ post))).
  { intros sG sI r' lf post Ezip.
    destruct (archive_trace _ _ _ _ Ezip) as (ops & -> & _).
    rewrite !io_calls_app. apply in_or_app. left. apply in_or_app. right.
    cbn. by left. }
  assert (Hearly : forall evs : list event,
            Forall (fun op => loop_op op = true) (io_calls evs) ->
            ~ In (OpZipOpen (output_path self)) (io_calls evs)).
  { intros evs Hev Hin. apply list_elem_of_In in Hin.
    by apply (proj1 (Forall_forall _ _) Hev) in Hin. }
  destruct Hpath as [e Hmk ->| Hmk Hpf ->| e Hmk Hpf Hpw ->
                    | e sG Hmk Hpf Hpw Eloop ->
                    | e lf sG sI Hmk Hpf Hpw Eloop Ezip ->
                    | lf sG sI Hmk Hpf Hpw Eloop Ezip ->].
  - split; [done|]. cbn. intros [[=]|[]].
  - split; [|cbn; intros [[=]|[[=]|[]]]]. intros _. simpl fs.
    apply untouched_when_removed; [apply confined_refl|done].
  - split; [|cbn; intros [[=]|[[=]|[[=]|[]]]]]. intros _. simpl fs.
    apply untouched_when_removed; [apply confined_refl|done].
  - destruct (export_trace _ _ Eloop) as (evs & Htr & Hev & _).
    split.
    + intros _. simpl fs. apply untouched_when_removed; [|done].
      by apply (export_confined _ _ Eloop).
    + rewrite trace_clean_up, trace_handle_error, Htr, trace_snapshot_state.
      rewrite !io_calls_app, !in_app_iff.
      intros [[[Hin|Hin]|Hin]|Hin]; exfalso.
      * cbn in Hin. by destruct Hin as [[=]|[[=]|[]]].
      * by apply (Hearly evs (proj2 (loop_events_observed _ Hev))) in Hin.
      * cbn in Hin. done.
      * cbn in Hin. by destruct Hin as [[=]|[]].
  - split.
    + intros Hnot. exfalso. apply Hnot.
      rewrite trace_clean_up, trace_handle_error, <- app_assoc.
      by apply (Hopened sG sI (Raise e) lf).
    + intros _ Hopen Hclose. simpl fs.
      destruct (removal_outside (fs sI) _ Hout) as [-> _].
      by apply (write_archive_output _ _ _ _ _ _ Ezip).
  - split.
    + intros Hnot. exfalso. apply Hnot.
      rewrite trace_clean_up, trace_finish_success, <- app_assoc.
      by apply (Hopened sG sI (Ret tt) lf).
    + intros _ Hopen Hclose. simpl fs.
      destruct (removal_outside (fs sI) _ Hout) as [-> _].
      by apply (write_archive_output _ _ _ _ _ _ Ezip).
Qed.

(** X9: after a successful run whose output path lies outside the
    working area, the file at the output path is the archive.  Its first
    member is [project.qgz] and its last is [metadata.json]; the manifest
    counts every layer of the project, of whatever kind, and records
    whether data files were included. *)
Theorem archive_on_disk :
  succeeded (snd execute) ->
  inside mkdtemp_path (output_path self) = false ->
  exists c mid m,
    files (fs (snd execute)) !! output_path self
    = Some (ZipArchive ((py "project.qgz", c) :: mid
                        ++ [(py "metadata.json", ManifestDoc m)]))
    /\ layer_count m = length (map_layers host)
    /\ include_data_flag m = include_data self
    /\ created m = now_isoformat host
    /\ qgis_version m = QGIS_VERSION host.
Proof.
  intros [msg Hm] Hout. destruct execute as [r s] eqn:E. cbn [snd] in *.
  apply execute_cases in E
    as [-> [(e & st & Hmk & Htry & Ht & Hfs)
           |(Hmk & [(Hpf & _ & Ht & Hfs)
                   |(Hpf & rt & st & evs & Htry & Hl & Hr & Hz & Hfs & Ht)])]].
  - by rewrite Ht in Hm.
  - by rewrite Ht in Hm.
  - destruct (loaded_trace_observed evs rt _ Ht) as (_ & Ho & _).
    destruct rt as [[]|e]; cbn [try_loaded] in Hr.
    + destruct Hr as (_ & _ & _ & copied & _ & _ & _ & (c & mid & Hzf & _) & Hdisk).
      exists c, mid, (metadata (length (map_layers host))).
      rewrite Hfs. destruct (removal_outside (fs st) _ Hout) as [-> _].
      by rewrite Hdisk, Hzf.
    + destruct Hr as (Hout' & _). rewrite Ho, Hout' in Hm. done.
Qed.


(** ** The plugin and the signals of its worker *)

Lemma deliver_all_app a b p :
  deliver_all (a ++ b) p = deliver_all b (deliver_all a p).
Proof. apply fold_left_app. Qed.

Lemma deliver_all_calls ops : forall p, deliver_all (List.map io_call ops) p = p.
Proof. induction ops as [|op ops IH]; intros p; [done|]. apply IH. Qed.

Lemma last_cons {A} (x d : A) l : List.last (x :: l) d = List.last l x.
Proof.
  revert x d. induction l as [|y l IH]; intros x d; [done|].
  change (List.last (x :: y :: l) d) with (List.last (y :: l) d).
  by rewrite !IH.
Qed.

(** Before the outcome arrives the signals change the progress bar and
    the status label, and nothing else. *)
Lemma deliver_all_quiet tr : forall p,
  outcomes tr = [] ->
  let p' := deliver_all tr p in
  clone_button_enabled (dialog p') = clone_button_enabled (dialog p)
  /\ clone_thread p' = clone_thread p
  /\ boxes p' = boxes p
  /\ output_path_edit (dialog p') = output_path_edit (dialog p)
  /\ include_data_check (dialog p') = include_data_check (dialog p)
  /\ status_label (dialog p') = List.last (statuses tr) (status_label (dialog p)).
Proof.
  induction tr as [|e tr IH]; intros p Ho; [done|].
  destruct e as [v|m|ok m|m|op]; try done.
  - destruct (IH (with_dialog (setValue v) p) Ho) as (H1 & H2 & H3 & H4 & H5 & H6).
    cbn zeta. change (deliver_all (progress_updated v :: tr) p)
      with (deliver_all tr (with_dialog (setValue v) p)).
    rewrite H1, H2, H3, H4, H5, H6. unfold with_dialog, setValue. cbn [dialog].
    by destruct (_ && _)%bool.
  - destruct (IH (with_dialog (setText m) p) Ho) as (H1 & H2 & H3 & H4 & H5 & H6).
    cbn zeta. change (deliver_all (status_updated m :: tr) p)
      with (deliver_all tr (with_dialog (setText m) p)).
    rewrite H1, H2, H3, H4, H5, H6.
    change (statuses (status_updated m :: tr)) with (m :: statuses tr).
    by rewrite last_cons.
  - exact (IH p Ho).
  - exact (IH p Ho).
Qed.

Lemma deliver_all_progress tr : forall p,
  outcomes tr = [] ->
  Forall (fun v => 0 <= v <= 100) (progress_values tr) ->
  progress_bar (dialog (deliver_all tr p))
  = List.last (progress_values tr) (progress_bar (dialog p)).
Proof.
  induction tr as [|e tr IH]; intros p Ho Hr; [done|].
  destruct e as [v|m|ok m|m|op]; try done.
  - change (progress_values (progress_updated v :: tr)) with (v :: progress_values tr)
      in Hr |- *.
    apply Forall_cons in Hr as [Hv Hr].
    change (deliver_all (progress_updated v :: tr) p)
      with (deliver_all tr (with_dialog (setValue v) p)).
    rewrite (IH _ Ho Hr), last_cons. unfold with_dialog, setValue. cbn [dialog].
    destruct (Z.leb_spec 0 v); [|lia]. destruct (Z.leb_spec v 100); [|lia]. done.
  - exact (IH (with_dialog (setText m) p) Ho Hr).
  - exact (IH p Ho Hr).
  - exact (IH p Ho Hr).
Qed.

Lemma run_progress_in_range :
  Forall (fun v => 0 <= v <= 100) (progress_values (trace (snd execute))).
Proof.
  destruct run_observed as [_ [(_ & -> & _)|(msg & _ & Hp & _)]].
  - apply full_progress_sorted.
  - by apply prefix_full_progress, partial_progress_prefix.
Qed.

(** Every run emits its outcome once; before it, no outcome; after it,
    I/O calls only.  A successful run emits it right after progress 100
    and the completion text. *)
Lemma run_trace_outcome :
  exists pre ok msg post,
    trace (snd execute) = pre ++ finished_signal ok msg :: List.map io_call post
    /\ outcomes pre = []
    /\ (ok = true ->
        msg = success_message
        /\ exists pre',
             pre = pre' ++ [progress_updated 100;
                            status_updated (py "Clone completed successfully!")]).
Proof.
  destruct execute as [r s] eqn:E. cbn [snd].
  apply execute_path in E as [_ Hpath].
  destruct Hpath as [e Hmk ->| Hmk Hpf ->| e Hmk Hpf Hpw ->
                    | e sG Hmk Hpf Hpw Eloop ->
                    | e lf sG sI Hmk Hpf Hpw Eloop Ezip ->
                    | lf sG sI Hmk Hpf Hpw Eloop Ezip ->].
  - exists (opening ++ [log_message e]), false, (error_message e), [].
    split; [by rewrite <- app_assoc|]. by split.
  - exists opening, false, no_project_message, [OpRmtree mkdtemp_path]. by split.
  - exists (opening ++ [status_updated (py "Backing up project file...");
                        io_call (OpProjectWrite project_backup_path);
                        log_message e]),
      false, (error_message e), [OpRmtree mkdtemp_path].
    split; [|by split]. rewrite trace_clean_up, trace_handle_error.
    cbn [trace]. by rewrite <- !app_assoc.
  - destruct (export_trace _ _ Eloop) as (evs & Htr & Hev & _).
    exists (trace sG ++ [log_message e]), false, (error_message e),
      [OpRmtree mkdtemp_path].
    split; [|split; [|done]].
    + rewrite trace_clean_up, trace_handle_error. by rewrite <- !app_assoc.
    + rewrite Htr, !outcomes_app, (proj1 (loop_events_observed _ Hev)). done.
  - destruct (export_trace _ _ Eloop) as (evs & Htr & Hev & _).
    destruct (archive_trace _ _ _ _ Ezip) as (ops & Htr' & _).
    exists (trace sI ++ [log_message e]), false, (error_message e),
      [OpRmtree mkdtemp_path].
    split; [|split; [|done]].
    + rewrite trace_clean_up, trace_handle_error. by rewrite <- !app_assoc.
    + rewrite Htr', Htr, !outcomes_app, (proj1 (loop_events_observed _ Hev)).
      cbn. by rewrite outcomes_calls.
  - destruct (export_trace _ _ Eloop) as (evs & Htr & Hev & _).
    destruct (archive_trace _ _ _ _ Ezip) as (ops & Htr' & _).
    exists (trace sI ++ [progress_updated 100;
                         status_updated (py "Clone completed successfully!")]),
      true, success_message, [OpRmtree mkdtemp_path].
    split; [|split].
    + rewrite trace_clean_up, trace_finish_success. by rewrite <- !app_assoc.
    + rewrite Htr', Htr, !outcomes_app, (proj1 (loop_events_observed _ Hev)).
      cbn. by rewrite outcomes_calls.
    + intros _. split; [done|]. by exists (trace sI).
Qed.

Lemma start_clone_started (p : ProjectCloner) :
  output_path_edit (dialog p) = output_path self ->
  include_data_check (dialog p) = include_data self ->
  output_path self <> [] ->
  start_clone p
  = {| dialog := setText (py "Starting...") (setValue 0 (setEnabled false (dialog p)));
       clone_thread := Some self;
       boxes := boxes p |}.
Proof.
  intros Hpath Hdata Hne. unfold start_clone. rewrite Hpath, Hdata.
  destruct (output_path self) eqn:Ho; [done|]. cbn [is_empty].
  rewrite <- Ho. by destruct self.
Qed.

(** X10: a clone from the button to the message box.  When the dialog
    holds a non-empty output path, [start_clone] starts a worker for it,
    and once the signals of the run are delivered the button is enabled
    again, the worker is forgotten, and exactly one message box has been
    added: "Success" with the progress bar at 100 and the completion text
    in the status label, or "Error" with the progress bar back at 0.  The
    box shows the text of the outcome. *)
Theorem clone_session_outcome (p : ProjectCloner) :
  output_path_edit (dialog p) = output_path self ->
  include_data_check (dialog p) = include_data self ->
  output_path self <> [] ->
  let p' := deliver_all (trace (snd execute)) (start_clone p) in
  exists ok msg,
    outcomes (trace (snd execute)) = [(ok, msg)]
    /\ clone_thread (start_clone p) = Some self
    /\ clone_button_enabled (dialog p') = true
    /\ clone_thread p' = None
    /\ boxes p'
       = boxes p ++ [if ok then (BoxInformation, py "Success", msg)
                     else (BoxCritical, py "Error", msg)]
    /\ progress_bar (dialog p') = (if ok then 100 else 0)
    /\ output_path_edit (dialog p') = output_path self
    /\ (ok = true ->
        msg = py "Project cloned successfully to: " ++ output_path self
        /\ status_label (dialog p') = py "Clone completed successfully!").
Proof.
  intros Hpath Hdata Hne p'.
  pose proof (start_clone_started p Hpath Hdata Hne) as Hstart.
  destruct run_trace_outcome as (pre & ok & msg & post & Htr & Hpre & Hok).
  exists ok, msg. subst p'. rewrite Htr, deliver_all_app.
  change (deliver_all (finished_signal ok msg :: List.map io_call post) ?q)
    with (deliver_all (List.map io_call post) (clone_finished ok msg q)).
  rewrite deliver_all_calls.
  destruct (deliver_all_quiet pre (start_clone p) Hpre)
    as (_ & _ & Hboxes & Hedit & _ & Hlabel).
  set (q := deliver_all pre (start_clone p)) in *.
  split. { rewrite outcomes_app, Hpre. cbn. by rewrite outcomes_calls. }
  split; [by rewrite Hstart|].
  assert (Hb0 : boxes (start_clone p) = boxes p) by (by rewrite Hstart).
  assert (He0 : output_path_edit (dialog (start_clone p)) = output_path self).
  { rewrite Hstart. cbn [dialog]. unfold setText, setValue, setEnabled. by cbn. }
  destruct ok; unfold clone_finished; cbn [dialog clone_thread boxes].
  - split; [done|]. split; [done|]. split; [by rewrite Hboxes, Hb0|].
    split; [done|]. split; [cbn; congruence|].
    intros _. destruct (Hok eq_refl) as (-> & pre' & ->). split; [done|].
    cbn. rewrite Hlabel, statuses_app. cbn.
    by rewrite last_last.
  - split; [done|]. split; [done|]. split; [by rewrite Hboxes, Hb0|].
    split; [done|]. split; [cbn; congruence|]. done.
Qed.

(** X11: while the worker runs.  Up to the outcome the clone button
    stays disabled, no message box is shown, the progress bar shows the
    last value emitted, starting from 0, and the status label the last
    text emitted, starting from "Starting...".  Every value emitted is
    within the range of the bar, so none is dropped. *)
Theorem clone_session_running (p : ProjectCloner) (tr1 tr2 : list event) :
  output_path_edit (dialog p) = output_path self ->
  include_data_check (dialog p) = include_data self ->
  output_path self <> [] ->
  trace (snd execute) = tr1 ++ tr2 ->
  outcomes tr1 = [] ->
  let p1 := deliver_all tr1 (start_clone p) in
  clone_button_enabled (dialog p1) = false
  /\ clone_thread p1 = Some self
  /\ boxes p1 = boxes p
  /\ progress_bar (dialog p1) = List.last (progress_values tr1) 0
  /\ status_label (dialog p1) = List.last (statuses tr1) (py "Starting...")
  /\ Forall (fun v => 0 <= v <= 100) (progress_values tr1).
Proof.
  intros Hpath Hdata Hne Htr Ho p1.
  pose proof (start_clone_started p Hpath Hdata Hne) as Hstart.
  assert (Hrange : Forall (fun v => 0 <= v <= 100) (progress_values tr1)).
  { pose proof run_progress_in_range as H.
    rewrite Htr, progress_values_app in H. by apply Forall_app in H as [H _]. }
  destruct (deliver_all_quiet tr1 (start_clone p) Ho)
    as (Hbutton & Hthread & Hboxes & _ & _ & Hlabel).
  pose proof (deliver_all_progress tr1 (start_clone p) Ho Hrange) as Hbar.
  subst p1. rewrite Hbutton, Hthread, Hboxes, Hbar, Hlabel, Hstart.
  by repeat split.
Qed.


(** ** The output path in the dialog *)

Lemma endswith_app (x s : pystr) : endswith (x ++ s) s = true.
Proof. unfold endswith. rewrite rev_app_distr. apply startswith_prefix. Qed.

Lemma is_empty_app_cons (a b : pystr) c : is_empty (a ++ c :: b) = false.
Proof. by destruct a. Qed.

(** Lowering leaves a final [.zip] in place, whatever precedes it. *)
Lemma lower_from_zip os (x : pystr) : forall before,
  exists z, lower_from os before (x ++ py ".zip") = z ++ py ".zip".
Proof.
  induction x as [|c x IH]; intros before.
  - by exists [].
  - destruct (IH (before ++ [c])) as [z Hz].
    exists ((if N.ltb c 128 then [ascii_lower c] else unicode_lower os before c
                                                         (x ++ py ".zip")) ++ z).
    change ((c :: x) ++ py ".zip") with (c :: (x ++ py ".zip")).
    cbn [lower_from]. by rewrite Hz, app_assoc.
Qed.

Lemma lower_zip os (x : pystr) :
  endswith (lower os (x ++ py ".zip")) (py ".zip") = true.
Proof.
  unfold lower. destruct (lower_from_zip os x []) as [z ->]. apply endswith_app.
Qed.

(** X12: the path chosen in the file dialog is stored with a [.zip]
    ending.  A path that ends with [.zip] in any letter case is stored as
    it is, any other gets [.zip] appended; choosing the stored path again
    changes nothing. *)
Theorem browse_output_path_zip os (file_path : pystr) (d : Dialog) :
  file_path <> [] ->
  let d' := browse_output_path os file_path d in
  endswith (lower os (output_path_edit d')) (py ".zip") = true
  /\ output_path_edit d'
     = (if endswith (lower os file_path) (py ".zip") then file_path
        else file_path ++ py ".zip")
  /\ browse_output_path os (output_path_edit d') d' = d'.
Proof.
  intros Hne d'. subst d'.
  assert (Hemp : is_empty file_path = false) by (by destruct file_path).
  unfold browse_output_path. rewrite Hemp. cbv zeta.
  destruct (endswith (lower os file_path) (py ".zip")) eqn:Hz;
    cbn [output_path_edit setText_edit].
  - rewrite Hemp, Hz. by repeat split.
  - assert (Hemp' : is_empty (file_path ++ py ".zip") = false) by (by destruct file_path).
    rewrite Hemp', lower_zip. by repeat split.
Qed.

Lemma join_suffix (a b : pystr) : exists y, join a b = y ++ b.
Proof.
  unfold join. destruct (startswith b [sep]); [by exists []|].
  destruct (_ || _)%bool; [by exists a|].
  exists (a ++ [sep]). by rewrite <- app_assoc.
Qed.

Lemma expanduser_home os (x : pystr) :
  exists y, expanduser os (py "~/" ++ x) = y ++ x.
Proof.
  change (py "~/" ++ x) with (ch "~" :: sep :: x).
  unfold expanduser. rewrite N.eqb_refl. cbn [until_sep]. rewrite N.eqb_refl.
  destruct (homes os []) as [userhome|].
  - cbv zeta. rewrite is_empty_app_cons.
    exists (rstrip_sep userhome ++ [sep]). by rewrite <- app_assoc.
  - by exists [ch "~"; sep].
Qed.

(** The default path: something, then the default name. *)
Lemma default_path_shape os :
  project_file host <> [] ->
  exists y, output_path_edit (init_ui os) = y ++ default_name os.
Proof.
  intros Hpf. unfold init_ui, set_default_output_path.
  destruct (project_file host) eqn:E; [done|]. cbn [is_empty]. cbv zeta.
  cbn [output_path_edit setText_edit].
  destruct (path_exists _ _).
  - apply join_suffix.
  - apply expanduser_home.
Qed.

(** X13: the clone button on a dialog as [init_ui] leaves it.  With no
    project open the path field is empty, and the button only shows the
    warning: no worker is made.  With a project open the field holds a
    path that ends with the project file's name without its extension,
    [_clone_], the time stamp and [.zip]; the button starts a worker for
    this path with the data files included, and the file dialog's [.zip]
    rule leaves the path as it is. *)
Theorem fresh_dialog_clone os (p : ProjectCloner) :
  dialog p = init_ui os ->
  (project_file host = [] ->
   start_clone p
   = show_box (BoxWarning, py "Warning", py "Please select output path.") p)
  /\ (project_file host <> [] ->
      let default := output_path_edit (dialog p) in
      endswith default (default_name os) = true
      /\ start_clone p
         = {| dialog := setText (py "Starting...")
                          (setValue 0 (setEnabled false (dialog p)));
              clone_thread := Some {| output_path := default; include_data := true |};
              boxes := boxes p |}
      /\ browse_output_path os default (dialog p) = dialog p).
Proof.
  intros Hd. split.
  - intros Hpf. unfold start_clone. rewrite Hd.
    unfold init_ui, set_default_output_path. by rewrite Hpf.
  - intros Hpf default. subst default. rewrite Hd.
    destruct (default_path_shape os Hpf) as [y Hy].
    assert (Hcheck : include_data_check (init_ui os) = true).
    { unfold init_ui, set_default_output_path. by destruct (is_empty _). }
    assert (Hname : default_name os
                    = ((splitext (basename (project_file host))).1
                         ++ py "_clone_" ++ strftime_now os) ++ py ".zip").
    { unfold default_name. by rewrite <- !app_assoc. }
    assert (Hemp : is_empty (output_path_edit (init_ui os)) = false).
    { rewrite Hy, Hname, app_assoc. apply is_empty_app_cons. }
    split; [rewrite Hy; apply endswith_app|]. split.
    + unfold start_clone. by rewrite Hd, Hemp, Hcheck.
    + unfold browse_output_path. rewrite Hemp. cbv zeta.
      rewrite Hy at 1. rewrite Hname, app_assoc, lower_zip.
      by destruct (init_ui os).
Qed.


(** ** Layers without a file behind them *)

Lemma isfile_confined f f' p :
  confined_to in_working_area f f' ->
  inside mkdtemp_path p = false ->
  isfile f' p = isfile f p.
Proof.
  intros [_ Hf] Hp. unfold isfile. by rewrite Hf by (by apply outside_working_area).
Qed.

Lemma copy_data_files_skips t l lf s :
  isfile (fs s) (layer_source l) = false ->
  copy_data_files t l lf s = (Ret lf, s).
Proof.
  intros H. unfold copy_data_files, bind, get_fs. cbv beta zeta iota.
  by rewrite H, andb_false_r.
Qed.

Lemma save_layer_definition_writes t l lf s :
  calls is_write_layer s (save_layer_definition t l lf s).2.
Proof.
  unfold save_layer_definition.
  destruct (is_vector l); [|apply calls_refl].
  unfold try_except. destruct (has_writeLayer host); [|apply calls_refl].
  unfold bind, writeLayer.
  pose proof (calls_perform is_write_layer
                (OpWriteLayer (layer_id l) (layer_def_file t l))
                (write_file (layer_def_file t l) (LayerDefDoc (layer_id l))) s
                eq_refl) as H.
  by destruct (perform _ _ s) as [[[]|e] s1].
Qed.

(** One iteration over a layer whose source is not a file: no copy is
    tried, and the iteration goes through unless writing the style
    raises. *)
Lemma export_layer_skips total i l lf s :
  total <> 0 ->
  isfile (fs s) (layer_source l) = false ->
  exists evs,
    trace (export_layer mkdtemp_path total i l lf s).2 = trace s ++ evs
    /\ Forall (fun op => copy_op op = false) (io_calls evs)
    /\ ((forall op, is_write_layer op = false -> fault host op = None) ->
        exists lf', (export_layer mkdtemp_path total i l lf s).1 = Ret lf').
Proof.
  intros Htotal Hfile.
  set (s1 := record (status_updated (processing l))
               (record (progress_updated (interpolate i total)) s)).
  assert (Hrun : export_layer mkdtemp_path total i l lf s
                 = if is_vector_or_raster l
                   then (layer_files <- save_layer_style mkdtemp_path l lf;;
                         save_layer_definition mkdtemp_path l layer_files) s1
                   else (Ret lf, record (progress_updated (interpolate i total)) s)).
  { unfold export_layer, progress_of.
    destruct (Z.eqb_spec total 0) as [|_]; [done|].
    unfold bind at 1 2, ret at 1, emit at 1. cbv beta.
    destruct (is_vector_or_raster l); [|done].
    unfold bind at 1, emit at 1. unfold bind at 1.
    by rewrite (copy_data_files_skips mkdtemp_path l lf
                  (record (status_updated
                             (py "Processing layer: " ++ sanitize_filename (layer_name l)))
                     (record (progress_updated (interpolate i total)) s)) Hfile). }
  rewrite Hrun. clear Hrun.
  destruct (is_vector_or_raster l).
  2:{ exists [progress_updated (interpolate i total)]. split; [done|].
      split; [done|]. intros _. by exists lf. }
  assert (Hs1 : trace s1 = trace s ++ [progress_updated (interpolate i total);
                                        status_updated (processing l)]).
  { subst s1. cbn [trace record]. by rewrite <- app_assoc. }
  unfold bind.
  pose proof (save_layer_style_spec mkdtemp_path l lf s1) as Hstyle.
  destruct (save_layer_style mkdtemp_path l lf s1) as [[lf1|e] s2].
  - destruct Hstyle as (_ & _ & Htr2 & _).
    destruct (save_layer_definition_writes mkdtemp_path l lf1 s2)
      as (ops & Htr3 & Hops).
    destruct (save_layer_definition_spec mkdtemp_path l lf1 s2) as (s3 & Heq & _).
    rewrite Heq in Htr3 |- *. cbn [fst snd] in *.
    exists ([progress_updated (interpolate i total);
             status_updated (processing l);
             io_call (OpSaveNamedStyle (layer_id l) (style_file mkdtemp_path l))]
            ++ List.map io_call ops).
    split. { rewrite Htr3, Htr2, Hs1, <- !app_assoc. done. }
    split; [|intros _; eauto].
    rewrite io_calls_app, io_calls_calls.
    apply Forall_app_2; [cbn; by repeat constructor|].
    eapply Forall_impl; [exact Hops|]. by intros [].
  - destruct Hstyle as (_ & _ & Htr2 & Hb). cbn [fst snd].
    exists [progress_updated (interpolate i total);
            status_updated (processing l);
            io_call (OpSaveNamedStyle (layer_id l) (style_file mkdtemp_path l))].
    split. { rewrite Htr2, Hs1, <- !app_assoc. done. }
    split; [cbn; by repeat constructor|].
    intros Hno. destruct Hb as (op & Hop & Hf). rewrite (Hno op Hop) in Hf. done.
Qed.

Lemma export_layers_skips total ls : forall i lf s,
  (ls <> [] -> total <> 0) ->
  (forall l, l ∈ ls ->
     inside mkdtemp_path (layer_source l) = false
     /\ isfile (fs s) (layer_source l) = false) ->
  exists evs,
    trace (export_layers mkdtemp_path total i ls lf s).2 = trace s ++ evs
    /\ Forall (fun op => copy_op op = false) (io_calls evs)
    /\ ((forall op, is_write_layer op = false -> fault host op = None) ->
        exists lf', (export_layers mkdtemp_path total i ls lf s).1 = Ret lf').
Proof.
  induction ls as [|l rest IH]; intros i lf s Htotal Hsrc.
  { exists []. simpl. rewrite app_nil_r. split; [done|]. split; [done|].
    intros _. by exists lf. }
  assert (Ht : total <> 0) by (by apply Htotal).
  destruct (Hsrc l) as [_ Hl]; [apply elem_of_cons; by left|].
  destruct (export_layer_skips total i l lf s Ht Hl) as (e1 & Htr & Hc & Hret).
  pose proof (export_layer_confined total i l lf s) as Hconf.
  simpl. unfold bind.
  destruct (export_layer mkdtemp_path total i l lf s) as [[lf1|e] s1];
    cbn [fst snd] in *.
  - destruct (IH (i + 1) lf1 s1) as (evs & Htr2 & Hc2 & Hret2); [by intros _| |].
    { intros l' Hin. destruct (Hsrc l') as [Hout Hfile];
        [apply elem_of_cons; by right|].
      split; [done|]. by rewrite (isfile_confined _ _ _ Hconf Hout). }
    exists (e1 ++ evs). rewrite Htr2, Htr, <- app_assoc. split; [done|].
    split; [|done]. rewrite io_calls_app. by apply Forall_app_2.
  - exists e1. split; [done|]. split; [done|].
    intros Hno. destruct (Hret Hno) as [lf' [=]].
Qed.

(** X14: a layer whose source is not a file on disk (a database
    connection, a service address, a file that has gone) is exported
    without its data and without an error.  When no layer has a file
    behind it, the run makes no call that copies a file or lists a
    directory, also with the data files included; and with a project
    open it succeeds whenever no call other than [writeLayer] raises. *)
Theorem missing_sources_are_skipped :
  (forall l, l ∈ map_layers host ->
     inside mkdtemp_path (layer_source l) = false
     /\ isfile (initial_fs host) (layer_source l) = false) ->
  Forall (fun op => copy_op op = false) (io_calls (trace (snd execute)))
  /\ (project_file host <> [] ->
      (forall op, is_write_layer op = false -> fault host op = None) ->
      succeeded (snd execute)).
Proof.
  intros Hsrc.
  destruct outcome_by_signal as [Hyes _].
  destruct execute as [r s] eqn:E. cbn [snd] in *.
  apply execute_path in E as [_ Hpath].
  assert (Hsnap : forall l, l ∈ map_layers host ->
            inside mkdtemp_path (layer_source l) = false
            /\ isfile (fs snapshot_state) (layer_source l) = false).
  { intros l Hin. destruct (Hsrc l Hin) as [Hout Hfile]. split; [done|].
    by rewrite (isfile_confined _ _ _ snapshot_state_confined Hout). }
  destruct (export_layers_skips (Z.of_nat (length (map_layers host)))
              (map_layers host) 1 [] snapshot_state layers_counted Hsnap)
    as (evs & Htr & Hev & Hret).
  destruct Hpath as [e Hmk ->| Hmk Hpf ->| e Hmk Hpf Hpw ->
                    | e sG Hmk Hpf Hpw Eloop ->
                    | e lf sG sI Hmk Hpf Hpw Eloop Ezip ->
                    | lf sG sI Hmk Hpf Hpw Eloop Ezip ->].
  - split; [cbn; by repeat constructor|]. intros _ Hno.
    rewrite (Hno (OpMkdtemp mkdtemp_path) eq_refl) in Hmk. done.
  - split; [cbn; by repeat constructor|]. done.
  - split; [cbn; by repeat constructor|]. intros _ Hno.
    rewrite (Hno (OpProjectWrite project_backup_path) eq_refl) in Hpw. done.
  - rewrite Eloop in Htr, Hret. cbn [fst snd] in *. split.
    + rewrite trace_clean_up, trace_handle_error, Htr, trace_snapshot_state.
      rewrite !io_calls_app.
      repeat apply Forall_app_2; try (cbn; by repeat constructor).
    + intros _ Hno. destruct (Hret Hno) as [lf' [=]].
  - rewrite Eloop in Htr. cbn [fst snd] in *.
    destruct (archive_trace _ _ _ _ Ezip) as (ops & Htr' & Hops).
    split.
    + rewrite trace_clean_up, trace_handle_error, Htr', Htr, trace_snapshot_state.
      rewrite !io_calls_app.
      repeat apply Forall_app_2; try (cbn; by repeat constructor).
      cbn. constructor; [done|]. rewrite io_calls_calls. by apply zip_ops_no_copy.
    + intros _ Hno. exfalso.
      pose proof (export_layers_spec mkdtemp_path (Z.of_nat (length (map_layers host)))
                    (map_layers host) 1 [] snapshot_state layers_counted) as H.
      rewrite Eloop in H.
      destruct H as (HfFG & _ & evs' & k & _ & _ & _ & _ & _ & _
                     & _ & _ & copied & _ & Hlf & _ & Hex).
      destruct snapshot_state_facts as (_ & _ & HbF).
      assert (HbH : isfile (fs (packaging_state sG))
                      (join mkdtemp_path (py "project.qgz")) = true).
      { simpl. by apply HfFG. }
      assert (Hex' : Forall (fun p => path_exists (fs (packaging_state sG)) p = true) lf).
      { by rewrite Hlf. }
      pose proof (write_archive_spec mkdtemp_path lf (length (map_layers host))
                    (packaging_state sG) HbH Hex') as H.
      rewrite Ezip in H. destruct H as (_ & evs'' & _ & _ & (op & Hop & Hf)).
      rewrite (Hno op Hop) in Hf. done.
  - rewrite Eloop in Htr. cbn [fst snd] in *.
    destruct (archive_trace _ _ _ _ Ezip) as (ops & Htr' & Hops).
    split.
    + rewrite trace_clean_up, trace_finish_success, Htr', Htr, trace_snapshot_state.
      rewrite !io_calls_app.
      repeat apply Forall_app_2; try (cbn; by repeat constructor).
      cbn. constructor; [done|]. rewrite io_calls_calls. by apply zip_ops_no_copy.
    + intros _ _. apply Hyes. rewrite trace_clean_up, trace_finish_success.
      rewrite !in_app_iff. simpl. tauto.
Qed.


(** ** Layers that share a sanitized name *)

Lemma layers_outputs_app t (a b : list Layer) (cs : list bool) :
  length cs = length (a ++ b) ->
  layers_outputs t (a ++ b) cs
  = layers_outputs t a (take (length a) cs)
    ++ layers_outputs t b (drop (length a) cs).
Proof.
  intros Hlen. unfold layers_outputs.
  rewrite <- (take_drop (length a) cs) at 1.
  rewrite zip_with_app, concat_app; [done|].
  rewrite length_take, Hlen, length_app. lia.
Qed.

Lemma layers_outputs_from t l (b : list Layer) (cs : list bool) :
  length cs = length (l :: b) ->
  exists c cs', cs = c :: cs' /\ length cs' = length b
    /\ layers_outputs t (l :: b) cs = layer_outputs t l c ++ layers_outputs t b cs'.
Proof.
  destruct cs as [|c cs']; [done|]. intros [= Hlen]. by exists c, cs'.
Qed.

Lemma style_in_layer_outputs t l c :
  is_vector_or_raster l = true ->
  exists p q, layer_outputs t l c = p ++ style_file t l :: q.
Proof.
  intros Hk. unfold layer_outputs. rewrite Hk.
  by exists (if c then [data_file t l] else []),
    (if def_written t l then [layer_def_file t l] else []).
Qed.

Lemma twice_in_outputs t pre l1 mid l2 post (cs : list bool) :
  length cs = length (pre ++ l1 :: mid ++ l2 :: post) ->
  is_vector_or_raster l1 = true ->
  is_vector_or_raster l2 = true ->
  style_file t l2 = style_file t l1 ->
  exists a b c,
    layers_outputs t (pre ++ l1 :: mid ++ l2 :: post) cs
    = a ++ style_file t l1 :: b ++ style_file t l1 :: c.
Proof.
  intros Hlen H1 H2 Hsame.
  rewrite layers_outputs_app by done.
  destruct (layers_outputs_from t l1 (mid ++ l2 :: post) (drop (length pre) cs))
    as (c1 & cs1 & _ & Hlen1 & ->).
  { rewrite length_drop, Hlen, length_app. simpl. lia. }
  rewrite layers_outputs_app by done.
  destruct (layers_outputs_from t l2 post (drop (length mid) cs1))
    as (c2 & cs2 & _ & _ & ->).
  { rewrite length_drop, Hlen1, length_app. simpl. lia. }
  destruct (style_in_layer_outputs t l1 c1 H1) as (p1 & q1 & ->).
  destruct (style_in_layer_outputs t l2 c2 H2) as (p2 & q2 & ->).
  rewrite Hsame.
  exists (layers_outputs t pre (take (length pre) cs) ++ p1),
    (q1 ++ layers_outputs t mid (take (length mid) cs1) ++ p2),
    (q2 ++ layers_outputs t post cs2).
  by rewrite <- ?app_assoc, <- ?app_comm_cons, <- ?app_assoc.
Qed.

(** X15: sanitizing is not injective, and the run does not tell two
    layers apart whose names sanitize to the same string.  In a
    successful run two such vector or raster layers write their styles to
    the same file, the second over the first, and this one file is put
    in the archive twice under the same name. *)
Theorem same_sanitized_name_same_entry (l1 l2 : Layer) (pre mid post : list Layer) :
  map_layers host = pre ++ l1 :: mid ++ l2 :: post ->
  is_vector_or_raster l1 = true ->
  is_vector_or_raster l2 = true ->
  sanitize_filename (layer_name l1) = sanitize_filename (layer_name l2) ->
  succeeded (snd execute) ->
  let path := style_file mkdtemp_path l1 in
  let entry := (path, sanitize_filename (layer_name l1) ++ py ".qml") in
  (exists a b c,
     style_writes (trace (snd execute))
     = a ++ (layer_id l1, path) :: b ++ (layer_id l2, path) :: c)
  /\ (exists a b c,
        zip_writes (trace (snd execute)) = a ++ entry :: b ++ entry :: c).
Proof.
  intros Hlayers H1 H2 Hname Hok path entry.
  assert (Hsame : style_file mkdtemp_path l2 = style_file mkdtemp_path l1).
  { unfold style_file. by rewrite Hname. }
  destruct (succeeded_inv Hok)
    as (_ & st & evs & _ & Hr & _ & _ & Hsw & Hzw).
  cbn [try_loaded] in Hr.
  destruct Hr as (_ & _ & Hstyle & copied & Hlen & _ & Hcalls & _).
  rewrite Hsw, Hzw, Hstyle, Hcalls. split.
  - rewrite Hlayers, !List.filter_app. cbn [List.filter]. rewrite H1.
    rewrite !List.filter_app. cbn [List.filter]. rewrite H2.
    rewrite !map_app. cbn [List.map]. rewrite !map_app. cbn [List.map].
    rewrite Hsame. eauto.
  - unfold archive_calls. rewrite Hlayers in Hlen |- *.
    destruct (twice_in_outputs mkdtemp_path pre l1 mid l2 post copied Hlen H1 H2 Hsame)
      as (a & b & c & ->).
    rewrite !map_app. cbn [List.map]. rewrite !map_app. cbn [List.map].
    unfold zip_call at 2 4. rewrite (basename_style_file mkdtemp_path l1).
    exists ((project_backup_path, py "project.qgz") :: List.map zip_call a),
      (List.map zip_call b),
      (List.map zip_call c ++ [(metadata_path, py "metadata.json")]).
    subst entry path. by rewrite <- ?app_assoc, <- ?app_comm_cons, <- ?app_assoc.
Qed.


(** ** A data file given by a bare name *)

Lemma copy_data_files_bare_name t l lf s :
  include_data self = true ->
  sep ∉ layer_source l ->
  isfile (fs s) (layer_source l) = true ->
  fault host (OpCopy2 (layer_source l) (data_file t l)) = None ->
  exists s', copy_data_files t l lf s
             = (Raise (py "No such file or directory"), s').
Proof.
  intros Hinc Hbare Hfile Hfault.
  unfold copy_data_files, bind, get_fs. cbv beta zeta.
  rewrite Hinc, Hfile. cbn [andb]. unfold copy2.
  destruct (isfile_lookup _ _ Hfile) as [c ->].
  unfold perform. rewrite Hfault. cbv beta iota zeta.
  unfold _copy_associated_files, bind, listdir.
  rewrite (dirname_no_sep _ Hbare). cbn [is_empty]. eauto.
Qed.

Lemma export_layer_bare_name total i l lf s :
  total <> 0 ->
  include_data self = true ->
  is_vector_or_raster l = true ->
  sep ∉ layer_source l ->
  isfile (fs s) (layer_source l) = true ->
  (forall op, is_write_layer op = false -> fault host op = None) ->
  exists e s', export_layer mkdtemp_path total i l lf s = (Raise e, s').
Proof.
  intros Htotal Hinc Hk Hbare Hfile Hno. unfold export_layer, progress_of.
  destruct (Z.eqb_spec total 0) as [|_]; [done|].
  unfold bind at 1 2, ret at 1, emit at 1. cbv beta. rewrite Hk.
  unfold bind at 1, emit at 1. unfold bind at 1.
  destruct (copy_data_files_bare_name mkdtemp_path l lf
              (record (status_updated
                         (py "Processing layer: " ++ sanitize_filename (layer_name l)))
                 (record (progress_updated (interpolate i total)) s))
              Hinc Hbare Hfile
              (Hno (OpCopy2 (layer_source l) (data_file mkdtemp_path l)) eq_refl))
    as [s' ->].
  eauto.
Qed.

Lemma export_layers_bare_name total l ls : forall i lf s,
  total <> 0 ->
  include_data self = true ->
  l ∈ ls ->
  is_vector_or_raster l = true ->
  sep ∉ layer_source l ->
  isfile (fs s) (layer_source l) = true ->
  (forall op, is_write_layer op = false -> fault host op = None) ->
  exists e s', export_layers mkdtemp_path total i ls lf s = (Raise e, s').
Proof.
  induction ls as [|l0 rest IH]; intros i lf s Htotal Hinc Hin Hk Hbare Hfile Hno.
  { by apply elem_of_nil in Hin. }
  simpl. unfold bind.
  pose proof (export_layer_spec mkdtemp_path total i l0 lf s Htotal) as Hspec.
  destruct (export_layer mkdtemp_path total i l0 lf s) as [[lf1|e] s1] eqn:E;
    [|eauto].
  destruct Hspec as ((_ & _ & Hkeep) & _).
  apply elem_of_cons in Hin as [->|Hin].
  - destruct (export_layer_bare_name total i l0 lf s Htotal Hinc Hk Hbare Hfile Hno)
      as (e & s' & E').
    congruence.
  - apply IH; auto.
Qed.

Lemma loop_ops_no_open ops p :
  Forall (fun op => loop_op op = true) ops -> ~ In (OpZipOpen p) ops.
Proof.
  intros H Hin%list_elem_of_In. by apply (proj1 (Forall_forall _ _) H) in Hin.
Qed.

(** X16: with the data files included, a vector or raster layer whose
    data file is given by a bare name, without a directory part, makes
    the whole run fail although no call of the host fails: the file is
    copied, then its directory, the empty path, cannot be listed.  The
    failure is reported as the outcome, and the archive is not opened. *)
Theorem bare_name_source_fails (l : Layer) :
  include_data self = true ->
  project_file host <> [] ->
  (forall op, is_write_layer op = false -> fault host op = None) ->
  l ∈ map_layers host ->
  is_vector_or_raster l = true ->
  sep ∉ layer_source l ->
  isfile (initial_fs host) (layer_source l) = true ->
  (exists e, outcomes (trace (snd execute)) = [(false, error_message e)])
  /\ forall p, ~ In (OpZipOpen p) (io_calls (trace (snd execute))).
Proof.
  intros Hinc Hpf Hno Hin Hk Hbare Hfile.
  assert (Htotal : Z.of_nat (length (map_layers host)) <> 0).
  { apply layers_counted. intros Hnil. rewrite Hnil in Hin.
    by apply elem_of_nil in Hin. }
  assert (Hsnap : isfile (fs snapshot_state) (layer_source l) = true).
  { simpl. by apply isfile_write_file_mono. }
  destruct (export_layers_bare_name (Z.of_nat (length (map_layers host))) l
              (map_layers host) 1 [] snapshot_state
              Htotal Hinc Hin Hk Hbare Hsnap Hno) as (e0 & s0 & Hloop).
  destruct execute as [r s] eqn:E. cbn [snd].
  apply execute_path in E as [_ Hpath].
  destruct Hpath as [e Hmk ->| Hmk Hpf' ->| e Hmk Hpf' Hpw ->
                    | e sG Hmk Hpf' Hpw Eloop ->
                    | e lf sG sI Hmk Hpf' Hpw Eloop Ezip ->
                    | lf sG sI Hmk Hpf' Hpw Eloop Ezip ->];
    try congruence.
  - rewrite (Hno (OpMkdtemp mkdtemp_path) eq_refl) in Hmk. done.
  - rewrite (Hno (OpProjectWrite project_backup_path) eq_refl) in Hpw. done.
  - destruct (export_trace _ _ Eloop) as (evs & Htr & Hev & _).
    destruct (loop_events_observed _ Hev) as [Hout Hops].
    rewrite trace_clean_up, trace_handle_error, Htr, trace_snapshot_state.
    split.
    + exists e. rewrite !outcomes_app, Hout. done.
    + intros p. rewrite !io_calls_app, !in_app_iff.
      intros [[[H|H]|H]|H].
      * cbn in H. by destruct H as [[=]|[[=]|[]]].
      * by apply (loop_ops_no_open _ p Hops) in H.
      * cbn in H. done.
      * cbn in H. by destruct H as [[=]|[]].
Qed.


(** * The run as a whole: outcome, progress and cleanup *)

(** ** The outcome and what leaves the run *)

(** Once the working area exists, the run ends with the outcome followed
    by the removal of the working area. *)
Lemma run_ends_with_removal :
  fault host (OpMkdtemp mkdtemp_path) = None ->
  exists pre ok msg,
    trace (snd execute)
    = pre ++ [finished_signal ok msg; io_call (OpRmtree mkdtemp_path)].
Proof.
  intros Hcreated. destruct execute as [r s] eqn:E. cbn [snd].
  apply execute_path in E as [_ Hpath].
  destruct Hpath as [e Hmk ->| Hmk Hpf ->| e Hmk Hpf Hpw ->
                    | e sG Hmk Hpf Hpw Eloop ->
                    | e lf sG sI Hmk Hpf Hpw Eloop Ezip ->
                    | lf sG sI Hmk Hpf Hpw Eloop Ezip ->].
  - congruence.
  - by exists opening, false, no_project_message.
  - exists (opening ++ [status_updated (py "Backing up project file...");
                        io_call (OpProjectWrite project_backup_path);
                        log_message e]),
      false, (error_message e).
    rewrite trace_clean_up, trace_handle_error. cbn [trace].
    by rewrite <- !app_assoc.
  - exists (trace sG ++ [log_message e]), false, (error_message e).
    by rewrite trace_clean_up, trace_handle_error, <- !app_assoc.
  - exists (trace sI ++ [log_message e]), false, (error_message e).
    by rewrite trace_clean_up, trace_handle_error, <- !app_assoc.
  - exists (trace sI ++ [progress_updated 100;
                         status_updated (py "Clone completed successfully!")]),
      true, success_message.
    by rewrite trace_clean_up, trace_finish_success, <- !app_assoc.
Qed.

(** C6 (amended): every run emits exactly one outcome, once.  An
    exception raised inside the [try] block is logged and becomes the
    failure outcome carrying its text; the success outcome carries the
    output path.  One exception leaves the run: that of removing the
    working area, in the [finally] block, which no handler covers.  It is
    raised after the outcome has been emitted; when the removal does not
    raise, or the working area was never created, the run returns
    normally. *)
Theorem single_outcome_no_escape :
  (exists ok msg,
     outcomes (trace (snd execute)) = [(ok, msg)]
     /\ (ok = true -> msg = success_message))
  /\ (forall e st,
        run_try (init_state (initial_fs host)) = (Raise e, st) ->
        logged (trace (snd execute)) = [e]
        /\ outcomes (trace (snd execute)) = [(false, error_message e)])
  /\ (forall st,
        run_try (init_state (initial_fs host)) = (Ret tt, st) ->
        logged (trace (snd execute)) = [])
  /\ fst execute
     = match fault host (OpMkdtemp mkdtemp_path),
             fault host (OpRmtree mkdtemp_path) with
       | None, Some e => Raise e
       | _, _ => Ret tt
       end
  /\ (forall e, fst execute = Raise e ->
        fault host (OpRmtree mkdtemp_path) = Some e
        /\ exists pre ok msg,
             trace (snd execute)
             = pre ++ [finished_signal ok msg; io_call (OpRmtree mkdtemp_path)]).
Proof.
  assert (Hresult : fst execute
                    = match fault host (OpMkdtemp mkdtemp_path),
                            fault host (OpRmtree mkdtemp_path) with
                      | None, Some e => Raise e
                      | _, _ => Ret tt
                      end).
  { destruct run_observed as [-> _]. unfold run_result, removal_result.
    destruct (fault host (OpMkdtemp mkdtemp_path)); [done|].
    by destruct (fault host (OpRmtree mkdtemp_path)). }
  assert (Hescape : forall e, fst execute = Raise e ->
            fault host (OpRmtree mkdtemp_path) = Some e
            /\ exists pre ok msg,
                 trace (snd execute)
                 = pre ++ [finished_signal ok msg; io_call (OpRmtree mkdtemp_path)]).
  { intros e He. rewrite Hresult in He.
    destruct (fault host (OpMkdtemp mkdtemp_path)) eqn:Hmk; [done|].
    destruct (fault host (OpRmtree mkdtemp_path)) eqn:Hrm; [|done].
    injection He as ->. split; [done|]. by apply run_ends_with_removal. }
  destruct run_observed
    as [_ [(Ho & _ & Hl & st & Htry)|(msg & Ho & _ & Hraise & Hok)]].
  - split; [by exists true, success_message|]. split.
    { intros e st' Htry'. by rewrite Htry in Htry'. }
    split; [done|]. by split.
  - split; [exists false, msg; by split|]. split.
    { intros e st Htry. destruct (Hraise e st Htry) as [-> Hl]. by rewrite Ho. }
    split; [exact Hok|]. by split.
Qed.


(** ** Progress, stage by stage *)

Lemma progress_values_loop_trace total blocks : forall i,
  Forall (Forall layer_event) blocks ->
  progress_values (loop_trace total i blocks)
  = loop_progress total i (length blocks).
Proof.
  induction blocks as [|b blocks IH]; intros i Hb; [done|].
  apply Forall_cons in Hb as [Hb Hrest].
  destruct (layer_events_silent _ Hb) as (Hp & _).
  cbn [loop_trace length]. rewrite loop_progress_S.
  change (progress_updated (interpolate i total) :: b ++ loop_trace total (i + 1) blocks)
    with ([progress_updated (interpolate i total)] ++ b ++ loop_trace total (i + 1) blocks).
  rewrite !progress_values_app, Hp, (IH _ Hrest). done.
Qed.

Lemma layer_block_events l b : layer_block l b -> Forall layer_event b.
Proof.
  unfold layer_block. destruct (is_vector_or_raster l); [|by intros ->].
  intros (ops & -> & Hops). constructor; [done|].
  apply Forall_map. eapply Forall_impl; [exact Hops|].
  intros [] H; try done; simpl in H.
Qed.

Lemma layer_blocks_events ls blocks :
  Forall2 layer_block ls blocks -> Forall (Forall layer_event) blocks.
Proof.
  induction 1 as [|l b ls blocks Hb _ IH]; constructor; [|done].
  by eapply layer_block_events.
Qed.

(** The loop emits, layer by layer, the progress value and then the
    events of the layer; when it raises, it does so inside a block. *)
Lemma export_layers_blocks t total ls : forall i lf s,
  (ls <> [] -> total <> 0) ->
  exists blocks,
    trace (export_layers t total i ls lf s).2 = trace s ++ loop_trace total i blocks
    /\ Forall2 layer_block (take (length blocks) ls) blocks
    /\ match (export_layers t total i ls lf s).1 with
       | Ret _ => length blocks = length ls
       | Raise _ => (1 <= length blocks <= length ls)%nat
       end.
Proof.
  induction ls as [|l rest IH]; intros i lf s Htotal.
  { exists []. simpl. rewrite app_nil_r. split; [done|]. split; [constructor|done]. }
  assert (Ht : total <> 0) by (by apply Htotal).
  destruct (export_layer_trace t total i l lf s Ht) as (ops & Htr & Hops).
  set (b := if is_vector_or_raster l
            then status_updated (processing l) :: List.map io_call ops else [])
    in Htr.
  assert (Hb : layer_block l b).
  { subst b. unfold layer_block. destruct (is_vector_or_raster l); [|done].
    by exists ops. }
  simpl. unfold bind.
  destruct (export_layer t total i l lf s) as [[lf1|e] s1]; cbn [snd] in Htr.
  - destruct (IH (i + 1) lf1 s1) as (blocks & Htr2 & Hbs & Hlen); [by intros _|].
    exists (b :: blocks). rewrite Htr2, Htr. cbn [loop_trace length take].
    split; [by rewrite <- app_assoc|].
    split; [by constructor|].
    destruct (export_layers t total (i + 1) rest lf1 s1).1; lia.
  - exists [b]. cbn [snd fst loop_trace length take]. rewrite app_nil_r, take_0.
    split; [done|]. split; [by repeat constructor|]. lia.
Qed.

(** A packaging block that returns ends with the closing of the
    archive. *)
Lemma write_archive_closes t lf n s s' :
  write_archive t lf n s = (Ret tt, s') ->
  exists ops,
    trace s' = trace s ++ List.map io_call ops
                 ++ [io_call (OpZipClose (output_path self))]
    /\ Forall (fun op => zip_op op = true) ops.
Proof.
  unfold write_archive, with_zipfile, zip_open. unfold bind at 1 2.
  destruct (perform_spec (OpZipOpen (output_path self))
              (write_file (output_path self) (ZipArchive [])) s)
    as [[_ ->]|(e & _ & ->)]; [|done].
  cbv beta iota.
  set (s1 := set_zipf [] _).
  assert (Hs1 : trace s1 = trace s ++ [io_call (OpZipOpen (output_path self))]) by done.
  assert (Hbody : calls zip_op s1
            ((zip_write (join t (py "project.qgz")) (py "project.qgz");;
              zip_write_all lf;;
              dump_metadata (join t (py "metadata.json")) (metadata n);;
              zip_write (join t (py "metadata.json")) (py "metadata.json")) s1).2).
  { unfold bind.
    pose proof (zip_write_calls (join t (py "project.qgz")) (py "project.qgz") s1) as Ha.
    destruct (zip_write (join t (py "project.qgz")) _ s1) as [[[]|e] sa]; [|done].
    pose proof (zip_write_all_calls lf sa) as Hb.
    destruct (zip_write_all lf sa) as [[[]|e] sb]; [|by eapply calls_trans].
    unfold dump_metadata.
    pose proof (calls_perform zip_op (OpDumpMetadata (join t (py "metadata.json")))
                  (write_file (join t (py "metadata.json")) (ManifestDoc (metadata n)))
                  sb eq_refl) as Hc.
    destruct (perform (OpDumpMetadata _) _ sb) as [[[]|e] sc];
      [|eapply calls_trans; [exact Ha|by eapply calls_trans]].
    pose proof (zip_write_calls (join t (py "metadata.json")) (py "metadata.json") sc)
      as Hd.
    eapply calls_trans; [exact Ha|]. eapply calls_trans; [exact Hb|].
    by eapply calls_trans. }
  destruct ((zip_write (join t (py "project.qgz")) (py "project.qgz");; _) s1)
    as [r s2].
  destruct Hbody as (ops & Htr & Hops). cbn [snd] in Htr.
  unfold zip_close.
  destruct (perform_spec (OpZipClose (output_path self))
              (write_file (output_path self) (ZipArchive (zipf s2))) s2)
    as [[_ ->]|(e & _ & ->)]; [|done].
  destruct r as [[]|e]; [|done]. intros [= <-].
  exists (OpZipOpen (output_path self) :: ops).
  split; [|by constructor].
  cbn [trace set_fs record List.map]. rewrite Htr, Hs1, <- !app_assoc. done.
Qed.

(** The trace of a run past the snapshot, stage by stage: the layer
    loop block by block, then what ends the run. *)
Lemma progress_by_stage :
  fault host (OpMkdtemp mkdtemp_path) = None ->
  project_file host <> [] ->
  fault host (OpProjectWrite project_backup_path) = None ->
  exists blocks tail,
    trace (snd execute)
    = opening
      ++ [status_updated (py "Backing up project file...");
          io_call (OpProjectWrite project_backup_path);
          progress_updated 10]
      ++ loop_trace (Z.of_nat (length (map_layers host))) 1 blocks ++ tail
    /\ Forall2 layer_block (take (length blocks) (map_layers host)) blocks
    /\ progress_values (trace (snd execute))
       = 10 :: loop_progress (Z.of_nat (length (map_layers host))) 1 (length blocks)
         ++ progress_values tail
    /\ ((exists e,
           (1 <= length blocks <= length (map_layers host))%nat
           /\ tail = [log_message e; finished_signal false (error_message e);
                      io_call (OpRmtree mkdtemp_path)])
        \/ (length blocks = length (map_layers host)
            /\ exists ops e,
                 Forall (fun op => zip_op op = true) ops
                 /\ tail = status_updated (py "Creating ZIP package...")
                             :: List.map io_call ops
                           ++ [log_message e; finished_signal false (error_message e);
                               io_call (OpRmtree mkdtemp_path)])
        \/ (length blocks = length (map_layers host)
            /\ exists ops,
                 Forall (fun op => zip_op op = true) ops
                 /\ tail = status_updated (py "Creating ZIP package...")
                             :: List.map io_call ops
                           ++ [io_call (OpZipClose (output_path self));
                               progress_updated 100;
                               status_updated (py "Clone completed successfully!");
                               finished_signal true success_message;
                               io_call (OpRmtree mkdtemp_path)])).
Proof.
  intros Hmk0 Hpf0 Hpw0.
  assert (Hvals : forall blocks tail,
            Forall (Forall layer_event) blocks ->
            progress_values
              (trace snapshot_state
               ++ loop_trace (Z.of_nat (length (map_layers host))) 1 blocks ++ tail)
            = 10 :: loop_progress (Z.of_nat (length (map_layers host))) 1 (length blocks)
              ++ progress_values tail).
  { intros blocks tail Hb.
    rewrite !progress_values_app, (progress_values_loop_trace _ _ _ Hb). done. }
  assert (Hevents : forall blocks,
            Forall2 layer_block (take (length blocks) (map_layers host)) blocks ->
            Forall (Forall layer_event) blocks).
  { intros blocks. apply layer_blocks_events. }
  destruct execute as [r s] eqn:E. cbn [snd].
  apply execute_path in E as [_ Hpath].
  destruct Hpath as [e Hmk ->| Hmk Hpf ->| e Hmk Hpf Hpw ->
                    | e sG Hmk Hpf Hpw Eloop ->
                    | e lf sG sI Hmk Hpf Hpw Eloop Ezip ->
                    | lf sG sI Hmk Hpf Hpw Eloop Ezip ->];
    try congruence.
  - destruct (export_layers_blocks mkdtemp_path (Z.of_nat (length (map_layers host)))
                (map_layers host) 1 [] snapshot_state layers_counted)
      as (blocks & Htr & Hb & Hlen).
    rewrite Eloop in Htr, Hlen. cbn [fst snd] in Htr, Hlen.
    exists blocks, [log_message e; finished_signal false (error_message e);
                    io_call (OpRmtree mkdtemp_path)].
    assert (Ht : trace (clean_up (handle_error e sG))
                 = trace snapshot_state
                   ++ loop_trace (Z.of_nat (length (map_layers host))) 1 blocks
                   ++ [log_message e; finished_signal false (error_message e);
                       io_call (OpRmtree mkdtemp_path)]).
    { rewrite trace_clean_up, trace_handle_error, Htr, <- !app_assoc. done. }
    split; [by rewrite Ht|]. split; [done|].
    split; [rewrite Ht, Hvals; [done|by apply Hevents]|]. left. exists e. by split.
  - destruct (export_layers_blocks mkdtemp_path (Z.of_nat (length (map_layers host)))
                (map_layers host) 1 [] snapshot_state layers_counted)
      as (blocks & Htr & Hb & Hlen).
    rewrite Eloop in Htr, Hlen. cbn [fst snd] in Htr, Hlen.
    destruct (archive_trace _ _ _ _ Ezip) as (ops & Htr' & Hops).
    set (tail := status_updated (py "Creating ZIP package...")
                   :: List.map io_call (OpZipOpen (output_path self) :: ops)
                 ++ [log_message e; finished_signal false (error_message e);
                     io_call (OpRmtree mkdtemp_path)]).
    exists blocks, tail.
    assert (Ht : trace (clean_up (handle_error e sI))
                 = trace snapshot_state
                   ++ loop_trace (Z.of_nat (length (map_layers host))) 1 blocks
                   ++ tail).
    { rewrite trace_clean_up, trace_handle_error, Htr', Htr. subst tail.
      cbn [List.map]. rewrite <- ?app_assoc, <- ?app_comm_cons, <- ?app_assoc. done. }
    split; [by rewrite Ht|]. split; [done|].
    split; [rewrite Ht, Hvals; [done|by apply Hevents]|]. right. left. split; [done|].
    exists (OpZipOpen (output_path self) :: ops), e. split; [by constructor|done].
  - destruct (export_layers_blocks mkdtemp_path (Z.of_nat (length (map_layers host)))
                (map_layers host) 1 [] snapshot_state layers_counted)
      as (blocks & Htr & Hb & Hlen).
    rewrite Eloop in Htr, Hlen. cbn [fst snd] in Htr, Hlen.
    destruct (write_archive_closes _ _ _ _ _ Ezip) as (ops & Htr' & Hops).
    set (tail := status_updated (py "Creating ZIP package...")
                   :: List.map io_call ops
                 ++ [io_call (OpZipClose (output_path self));
                     progress_updated 100;
                     status_updated (py "Clone completed successfully!");
                     finished_signal true success_message;
                     io_call (OpRmtree mkdtemp_path)]).
    exists blocks, tail.
    assert (Ht : trace (clean_up (finish_success sI))
                 = trace snapshot_state
                   ++ loop_trace (Z.of_nat (length (map_layers host))) 1 blocks
                   ++ tail).
    { rewrite trace_clean_up, trace_finish_success, Htr'. unfold packaging_state.
      cbn [trace record]. rewrite Htr. subst tail.
      rewrite <- !app_assoc, <- ?app_comm_cons, <- ?app_assoc. done. }
    split; [by rewrite Ht|]. split; [done|].
    split; [rewrite Ht, Hvals; [done|by apply Hevents]|]. right. right. split; [done|].
    exists ops. by split.
Qed.

Lemma progress_before_snapshot :
  fault host (OpMkdtemp mkdtemp_path) <> None
  \/ project_file host = []
  \/ fault host (OpProjectWrite project_backup_path) <> None ->
  progress_values (trace (snd execute)) = [].
Proof.
  intros Hnot. destruct execute as [r s] eqn:E. cbn [snd].
  apply execute_path in E as [_ Hpath].
  destruct Hpath as [e Hmk ->| Hmk Hpf ->| e Hmk Hpf Hpw ->
                    | e sG Hmk Hpf Hpw Eloop ->
                    | e lf sG sI Hmk Hpf Hpw Eloop Ezip ->
                    | lf sG sI Hmk Hpf Hpw Eloop Ezip ->];
    try done; try (by destruct Hnot as [H|[H|H]]).
Qed.


(** C5: the progress values of a run are integers that never decrease
    and stay within 0 and 100.  They are an initial part of the
    sequence 10 (after the snapshot), [10 + 80 * i / total] truncated
    for the i-th of [total] layers (90 for the last one), and 100 (after
    packaging); the sequence ends at 100 exactly when the outcome is
    success, and a failed run never emits 100.

    On the trace: a run that does not get its snapshot written emits no
    progress value.  A run that does emits 10 right after writing the
    snapshot; then the layer loop emits, for each layer it starts and in
    the order of the layers, the layer's value followed by the events of
    that layer (its status text and its I/O calls, none for a layer that
    is neither vector nor raster) and by no other progress value; all
    layers have been started, so with layers 90 has been emitted, when
    packaging begins; and 100 is emitted right after the archive is
    closed, which only a successful run does.  What ends a failed run
    holds no progress value. *)
Theorem progress_nondecreasing_bounded :
  let vals := progress_values (trace (snd execute)) in
  let total := length (map_layers host) in
  StronglySorted Z.le vals
  /\ Forall (fun v => 0 <= v <= 100) vals
  /\ vals `prefix_of` full_progress
  /\ full_progress !! 0%nat = Some 10
  /\ (forall i : nat, (1 <= i <= total)%nat ->
        full_progress !! i = Some (10 + (80 * Z.of_nat i) / Z.of_nat total))
  /\ ((0 < total)%nat -> full_progress !! total = Some 90)
  /\ last full_progress = Some 100
  /\ (last vals = Some 100 <-> succeeded (snd execute))
  /\ ((exists msg, outcomes (trace (snd execute)) = [(false, msg)]) -> 100 ∉ vals)
  /\ (fault host (OpMkdtemp mkdtemp_path) = None ->
      project_file host <> [] ->
      fault host (OpProjectWrite project_backup_path) = None ->
      exists blocks tail,
        trace (snd execute)
        = opening
          ++ [status_updated (py "Backing up project file...");
              io_call (OpProjectWrite project_backup_path);
              progress_updated 10]
          ++ loop_trace (Z.of_nat total) 1 blocks ++ tail
        /\ Forall2 layer_block (take (length blocks) (map_layers host)) blocks
        /\ vals = 10 :: loop_progress (Z.of_nat total) 1 (length blocks)
                   ++ progress_values tail
        /\ ((exists e,
               (1 <= length blocks <= total)%nat
               /\ tail = [log_message e; finished_signal false (error_message e);
                          io_call (OpRmtree mkdtemp_path)])
            \/ (length blocks = total
                /\ exists ops e,
                     Forall (fun op => zip_op op = true) ops
                     /\ tail = status_updated (py "Creating ZIP package...")
                                 :: List.map io_call ops
                               ++ [log_message e;
                                   finished_signal false (error_message e);
                                   io_call (OpRmtree mkdtemp_path)])
            \/ (length blocks = total
                /\ exists ops,
                     Forall (fun op => zip_op op = true) ops
                     /\ tail = status_updated (py "Creating ZIP package...")
                                 :: List.map io_call ops
                               ++ [io_call (OpZipClose (output_path self));
                                   progress_updated 100;
                                   status_updated (py "Clone completed successfully!");
                                   finished_signal true success_message;
                                   io_call (OpRmtree mkdtemp_path)])))
  /\ (fault host (OpMkdtemp mkdtemp_path) <> None
      \/ project_file host = []
      \/ fault host (OpProjectWrite project_backup_path) <> None ->
      vals = []).
Proof.
  intros vals total.
  assert (Hith : forall i : nat, (1 <= i <= total)%nat ->
            full_progress !! i = Some (10 + (80 * Z.of_nat i) / Z.of_nat total)).
  { intros i Hi. unfold full_progress. fold total.
    destruct i as [|i]; [lia|].
    change ((10 :: ?l) !! S i) with (l !! i).
    rewrite lookup_app_l by (unfold loop_progress; rewrite length_map, length_seq; lia).
    unfold loop_progress.
    change (List.map ?f ?l) with (f <$> l). rewrite list_lookup_fmap.
    rewrite lookup_seq_lt by lia. simpl. unfold interpolate. do 3 f_equal. lia. }
  assert (Hfail : partial_progress vals ->
            vals `prefix_of` full_progress /\ last vals <> Some 100 /\ 100 ∉ vals).
  { intros Hp. split; [by apply partial_progress_prefix|].
    pose proof (partial_progress_below _ Hp) as Hb. rewrite Forall_forall in Hb.
    split.
    - intros (l' & Hl')%last_Some.
      assert (H100 : 100 ∈ vals).
      { rewrite Hl'. apply elem_of_app. right. by apply list_elem_of_singleton. }
      apply Hb in H100. lia.
    - intros H100%Hb. lia. }
  assert (Hmain : vals `prefix_of` full_progress
                  /\ (last vals = Some 100 <-> succeeded (snd execute))
                  /\ ((exists msg, outcomes (trace (snd execute)) = [(false, msg)])
                      -> 100 ∉ vals)).
  { destruct run_observed as [_ [(Ho & Hp & _)|(msg & Ho & Hp & _)]].
    - subst vals. rewrite Hp. split; [done|]. split.
      + split; [intros _; by exists success_message|intros _].
        unfold full_progress. by rewrite app_comm_cons, last_snoc.
      + intros [msg Hmsg]. congruence.
    - destruct (Hfail Hp) as (Hpre & Hlast & H100). split; [done|]. split.
      + split; [done|]. intros [m Hm]. congruence.
      + done. }
  destruct Hmain as (Hpre & Hlast & H100).
  destruct (prefix_full_progress _ Hpre) as [Hs Hb].
  split; [done|]. split; [done|]. split; [done|]. split; [done|].
  split; [exact Hith|]. split.
  { intros Hpos. rewrite Hith by lia. f_equal.
    rewrite Z.div_mul by lia. done. }
  split; [unfold full_progress; by rewrite app_comm_cons, last_snoc|].
  split; [done|]. split; [done|].
  split; [exact progress_by_stage|exact progress_before_snapshot].
Qed.


(** ** The layer loop writes below the working area only *)

Lemma startswith_inv (q : pystr) : forall p,
  startswith p q = true -> exists r, p = q ++ r.
Proof.
  induction q as [|x q IH]; intros p H; [by exists p|].
  destruct p as [|y p]; [done|]. simpl in H.
  apply andb_true_iff in H as [->%N.eqb_eq H].
  destruct (IH p H) as [r ->]. by exists r.
Qed.

Lemma join_mkdtemp_path_nil : join mkdtemp_path [] = mkdtemp_path ++ [sep].
Proof.
  unfold join. cbn [startswith]. rewrite mkdtemp_path_nonempty. cbn [orb].
  destruct (endswith mkdtemp_path [sep]) eqn:He; [|done].
  apply endswith_inv in He as [s' Hs'].
  destruct mkdtemp_path_last as (x & c & Hx & Hc & _).
  rewrite Hx in Hs'. by apply app_inj_tail in Hs' as [_ ->].
Qed.

Lemma below_has_sep p : below_working_area p -> sep ∈ p.
Proof.
  intros [r ->]%startswith_inv. rewrite join_mkdtemp_path_nil, <- app_assoc.
  apply elem_of_app. right. apply elem_of_cons. by left.
Qed.

Lemma below_join x : sep ∉ x -> below_working_area (join mkdtemp_path x).
Proof.
  intros Hx. unfold below_working_area.
  by rewrite (join_name mkdtemp_path x Hx), startswith_prefix.
Qed.

Lemma below_join_join x b :
  sep ∉ x -> sep ∉ b -> below_working_area (join (join mkdtemp_path x) b).
Proof.
  intros Hx Hb. unfold below_working_area.
  rewrite (join_name _ b Hb), (join_name mkdtemp_path x Hx).
  assert (Hsuffix : exists r, join (join mkdtemp_path [] ++ x) []
                              = (join mkdtemp_path [] ++ x) ++ r).
  { unfold join at 1. simpl. destruct (_ || _)%bool; eauto. }
  destruct Hsuffix as [r ->]. by rewrite <- !app_assoc, startswith_prefix.
Qed.

Lemma isdir_mkdtemp_path f :
  mkdtemp_path ∈ dirs f -> isdir f mkdtemp_path = true.
Proof.
  intros Hd. unfold isdir. rewrite resolve_mkdtemp_path.
  by apply bool_decide_eq_true_2.
Qed.

Lemma copy2_below src dst s :
  (if isdir (fs s) dst
   then below_working_area (join dst (basename src))
   else below_working_area dst) ->
  confined_to below_working_area (fs s) (fs (copy2 src dst s).2).
Proof.
  intros Hw. unfold copy2.
  destruct (files (fs s) !! src) as [c|]; [|apply confined_refl].
  apply perform_write_confined. by destruct (isdir (fs s) dst).
Qed.

Lemma copy_matching_below base_name base_dir names : forall s,
  mkdtemp_path ∈ dirs (fs s) ->
  confined_to below_working_area (fs s)
    (fs (copy_matching base_name base_dir mkdtemp_path names s).2).
Proof.
  induction names as [|f rest IH]; intros s Hd; simpl; [apply confined_refl|].
  unfold bind.
  assert (Hstep : confined_to below_working_area (fs s)
            (fs (copy_if_matching base_name base_dir mkdtemp_path f s).2)).
  { unfold copy_if_matching. destruct (startswith f base_name); [|apply confined_refl].
    unfold bind, get_fs. destruct (isfile (fs s) (join base_dir f));
      [|apply confined_refl].
    apply copy2_below. rewrite (isdir_mkdtemp_path _ Hd).
    apply below_join, basename_sep_free. }
  destruct (copy_if_matching base_name base_dir mkdtemp_path f s) as [[[]|e] s1];
    [|done].
  eapply confined_trans; [exact Hstep|]. apply IH.
  cbn [snd] in Hstep. destruct Hstep as [-> _]. done.
Qed.

Lemma copy_associated_files_below source s :
  mkdtemp_path ∈ dirs (fs s) ->
  confined_to below_working_area (fs s)
    (fs (_copy_associated_files source mkdtemp_path s).2).
Proof.
  intros Hd. unfold _copy_associated_files, bind, listdir.
  destruct (is_empty (dirname source)); [apply confined_refl|]. unfold bind.
  destruct (perform_spec (OpListdir (dirname source)) id s) as [[_ ->]|(e & _ & ->)];
    [|apply confined_refl].
  unfold ret.
  by apply (copy_matching_below _ _ _ (set_fs id (record _ s))).
Qed.

Lemma copy_data_files_below l lf s :
  mkdtemp_path ∈ dirs (fs s) ->
  confined_to below_working_area (fs s)
    (fs (copy_data_files mkdtemp_path l lf s).2).
Proof.
  intros Hd.
  assert (Hx : sep ∉ sanitize_filename (layer_name l) ++ (splitext (layer_source l)).2).
  { intros [H|H]%elem_of_app; [by apply sanitize_filename_no_sep in H|].
    by apply splitext_ext_no_sep in H. }
  unfold copy_data_files, bind, get_fs. cbv beta zeta.
  destruct (include_data self && isfile (fs s) (layer_source l))%bool;
    [|apply confined_refl].
  assert (H1 : confined_to below_working_area (fs s)
                 (fs (copy2 (layer_source l) (data_file mkdtemp_path l) s).2)).
  { apply copy2_below. destruct (isdir (fs s) (data_file mkdtemp_path l)).
    - apply below_join_join; [done|apply basename_sep_free].
    - by apply below_join. }
  destruct (copy2 (layer_source l) (data_file mkdtemp_path l) s) as [[[]|e] s1];
    [|done].
  assert (Hd1 : mkdtemp_path ∈ dirs (fs s1)).
  { cbn [snd] in H1. destruct H1 as [-> _]. done. }
  pose proof (copy_associated_files_below (layer_source l) s1 Hd1) as H2.
  destruct (_copy_associated_files (layer_source l) mkdtemp_path s1) as [[[]|e] s2];
    by eapply confined_trans.
Qed.

Lemma save_layer_style_below l lf s :
  confined_to below_working_area (fs s)
    (fs (save_layer_style mkdtemp_path l lf s).2).
Proof.
  assert (Hw : below_working_area (style_file mkdtemp_path l)).
  { apply below_join. intros [H|H]%elem_of_app.
    - by apply sanitize_filename_no_sep in H.
    - exact (bool_decide_unpack (sep ∉ py ".qml") I H). }
  unfold save_layer_style, saveNamedStyle, bind.
  pose proof (perform_write_confined below_working_area
                (OpSaveNamedStyle (layer_id l) (style_file mkdtemp_path l))
                (style_file mkdtemp_path l) (StyleDoc (layer_id l)) s Hw) as H.
  by destruct (perform _ _ s) as [[[]|e] s1].
Qed.

Lemma save_layer_definition_below l lf s :
  confined_to below_working_area (fs s)
    (fs (save_layer_definition mkdtemp_path l lf s).2).
Proof.
  assert (Hw : below_working_area (layer_def_file mkdtemp_path l)).
  { apply below_join. intros [H|H]%elem_of_app.
    - by apply sanitize_filename_no_sep in H.
    - exact (bool_decide_unpack (sep ∉ py ".qlr") I H). }
  unfold save_layer_definition.
  destruct (is_vector l); [|apply confined_refl].
  unfold try_except. destruct (has_writeLayer host); [|apply confined_refl].
  unfold bind, writeLayer.
  pose proof (perform_write_confined below_working_area
                (OpWriteLayer (layer_id l) (layer_def_file mkdtemp_path l))
                (layer_def_file mkdtemp_path l) (LayerDefDoc (layer_id l)) s Hw) as H.
  by destruct (perform _ _ s) as [[[]|e] s1].
Qed.

Lemma export_layer_below total i l lf s :
  mkdtemp_path ∈ dirs (fs s) ->
  confined_to below_working_area (fs s)
    (fs (export_layer mkdtemp_path total i l lf s).2).
Proof.
  intros Hd. unfold export_layer, progress_of.
  destruct (Z.eqb total 0); [apply confined_refl|].
  unfold bind at 1 2, ret at 1, emit at 1. cbv beta.
  destruct (is_vector_or_raster l); [|apply confined_refl].
  unfold bind at 1, emit at 1.
  set (s1 := record (status_updated _) (record (progress_updated _) s)).
  change (fs s) with (fs s1) in Hd |- *. unfold bind.
  pose proof (copy_data_files_below l lf s1 Hd) as H1.
  destruct (copy_data_files mkdtemp_path l lf s1) as [[lf1|e] s2]; [|done].
  pose proof (save_layer_style_below l lf1 s2) as H2.
  destruct (save_layer_style mkdtemp_path l lf1 s2) as [[lf2|e] s3];
    [|by eapply confined_trans].
  pose proof (save_layer_definition_below l lf2 s3) as H3.
  eapply confined_trans; [exact H1|]. by eapply confined_trans.
Qed.

(** A path without a separator is not one the loop writes. *)
Lemma bare_name_untouched f f' p :
  confined_to below_working_area f f' -> sep ∉ p -> isfile f' p = isfile f p.
Proof.
  intros [_ Hf] Hp. unfold isfile. rewrite Hf; [done|].
  intros Hb%below_has_sep. done.
Qed.

(** ** A source with a separator has a directory part *)

Lemma drop_leading_nil c l :
  drop_leading c l = [] -> forallb (N.eqb c) l = true.
Proof.
  induction l as [|x l IH]; [done|]. simpl.
  destruct (N.eqb x c) eqn:Hx; [|done].
  intros H%IH. apply N.eqb_eq in Hx as ->. by rewrite N.eqb_refl.
Qed.

Lemma dirname_sep (p : pystr) : sep ∈ p -> dirname p <> [].
Proof.
  intros Hin. destruct (last_occurrence _ _ Hin) as (a & b & -> & Hb).
  unfold dirname, slice_to. rewrite rfind_last by done.
  replace (Z.to_nat (Z.of_nat (length a) + 1)) with (length a + 1)%nat by lia.
  replace (take (length a + 1) (a ++ sep :: b)) with (a ++ [sep]).
  2:{ change (sep :: b) with ([sep] ++ b). rewrite app_assoc.
      rewrite take_app_length'; [done|]. rewrite length_app. simpl. lia. }
  destruct (negb (is_empty (a ++ [sep])) && negb (forallb (N.eqb sep) (a ++ [sep])))%bool
    eqn:Hc; [|by destruct a].
  apply andb_true_iff in Hc as [_ Hc]. apply negb_true_iff in Hc.
  unfold rstrip_sep. intros Hnil.
  apply (f_equal (@rev _)) in Hnil. rewrite rev_involutive in Hnil. simpl in Hnil.
  apply drop_leading_nil in Hnil.
  rewrite forallb_forall in Hnil.
  assert (Hall : forallb (N.eqb sep) (a ++ [sep]) = true).
  { apply forallb_forall. intros x Hx. apply Hnil. by apply in_rev in Hx. }
  congruence.
Qed.


(** ** Best-effort steps do not decide the outcome *)

Lemma export_layer_other total i l lf s :
  total <> 0 ->
  is_vector_or_raster l = false ->
  export_layer mkdtemp_path total i l lf s
  = (Ret lf, record (progress_updated (interpolate i total)) s).
Proof.
  intros Htotal Hk. unfold export_layer, progress_of.
  destruct (Z.eqb_spec total 0) as [|_]; [done|].
  unfold bind, ret, emit. by rewrite Hk.
Qed.

(** One iteration returns when no call but [writeLayer] raises and the
    source, if it is a file to copy, has a directory part. *)
Lemma export_layer_returns total i l lf s :
  total <> 0 ->
  (forall op, is_write_layer op = false -> fault host op = None) ->
  (include_data self = true -> is_vector_or_raster l = true ->
   isfile (fs s) (layer_source l) = true -> dirname (layer_source l) <> []) ->
  exists lf' s', export_layer mkdtemp_path total i l lf s = (Ret lf', s').
Proof.
  intros Htotal Hno Hdir.
  destruct (is_vector_or_raster l) eqn:Hk.
  2:{ rewrite export_layer_other by done. eauto. }
  destruct (isfile (fs s) (layer_source l)) eqn:Hfile.
  - pose proof (export_layer_spec mkdtemp_path total i l lf s Htotal) as Hspec.
    destruct (export_layer mkdtemp_path total i l lf s) as [[lf'|e] s']; [eauto|].
    destruct Hspec as (_ & _ & evs & _ & _ & [(op & Hop & Hf)|[Hinc Hd]]).
    + rewrite (Hno op Hop) in Hf. done.
    + by destruct (Hdir Hinc eq_refl eq_refl).
  - destruct (export_layer_skips total i l lf s Htotal Hfile) as (evs & _ & _ & Hret).
    destruct (Hret Hno) as [lf' Hlf'].
    destruct (export_layer mkdtemp_path total i l lf s) as [r s'].
    cbn [fst] in Hlf'. subst r. eauto.
Qed.

Lemma export_layers_returns total ls : forall i lf s,
  (ls <> [] -> total <> 0) ->
  (forall op, is_write_layer op = false -> fault host op = None) ->
  (include_data self = true ->
   forall l, l ∈ ls -> is_vector_or_raster l = true ->
     isfile (initial_fs host) (layer_source l) = true ->
     dirname (layer_source l) <> []) ->
  mkdtemp_path ∈ dirs (fs s) ->
  (forall p, sep ∉ p -> isfile (fs s) p = isfile (initial_fs host) p) ->
  exists lf' s', export_layers mkdtemp_path total i ls lf s = (Ret lf', s').
Proof.
  induction ls as [|l rest IH]; intros i lf s Htotal Hno Hdir Hd Hbare.
  { simpl. unfold ret. eauto. }
  assert (Ht : total <> 0) by (by apply Htotal).
  assert (Hl : include_data self = true -> is_vector_or_raster l = true ->
               isfile (fs s) (layer_source l) = true ->
               dirname (layer_source l) <> []).
  { intros Hinc Hk Hfile.
    destruct (decide (sep ∈ layer_source l)) as [Hs|Hs]; [by apply dirname_sep|].
    apply (Hdir Hinc l); [apply elem_of_cons; by left|done|].
    by rewrite <- (Hbare _ Hs). }
  destruct (export_layer_returns total i l lf s Ht Hno Hl) as (lf1 & s1 & E).
  pose proof (export_layer_below total i l lf s Hd) as Hconf.
  simpl. unfold bind. rewrite E in Hconf |- *. cbn [snd] in Hconf.
  apply IH; [by intros _|done| | |].
  - intros Hinc l' Hin. apply (Hdir Hinc). apply elem_of_cons. by right.
  - destruct Hconf as [-> _]. done.
  - intros p Hp. rewrite (bare_name_untouched _ _ _ Hconf Hp). by apply Hbare.
Qed.

(** A loaded project is cloned successfully when no call but
    [writeLayer] raises and every data file to copy is given with a
    directory part. *)
Lemma run_succeeds_with_files :
  project_file host <> [] ->
  (forall op, is_write_layer op = false -> fault host op = None) ->
  (include_data self = true ->
   forall l, l ∈ map_layers host -> is_vector_or_raster l = true ->
     isfile (initial_fs host) (layer_source l) = true ->
     dirname (layer_source l) <> []) ->
  succeeded (snd execute).
Proof.
  intros Hpf Hno Hdir.
  destruct outcome_by_signal as [Hyes _].
  assert (Hloop : exists lf sG,
            export_layers mkdtemp_path (Z.of_nat (length (map_layers host))) 1
              (map_layers host) [] snapshot_state = (Ret lf, sG)).
  { apply export_layers_returns; [apply layers_counted|done|done| |].
    - apply snapshot_state_facts.
    - intros p Hp. simpl. rewrite isfile_write_file.
      rewrite bool_decide_eq_false_2; [done|].
      intros <-. apply Hp, below_has_sep, below_join.
      exact (bool_decide_unpack (sep ∉ py "project.qgz") I). }
  destruct Hloop as (lf0 & sG0 & Hloop).
  destruct execute as [r s] eqn:E. cbn [snd] in *.
  apply execute_path in E as [_ Hpath].
  destruct Hpath as [e Hmk ->| Hmk Hpf' ->| e Hmk Hpf' Hpw ->
                    | e sG Hmk Hpf' Hpw Eloop ->
                    | e lf sG sI Hmk Hpf' Hpw Eloop Ezip ->
                    | lf sG sI Hmk Hpf' Hpw Eloop Ezip ->];
    try congruence.
  - rewrite (Hno (OpMkdtemp mkdtemp_path) eq_refl) in Hmk. done.
  - rewrite (Hno (OpProjectWrite project_backup_path) eq_refl) in Hpw. done.
  - exfalso.
    pose proof (export_layers_spec mkdtemp_path (Z.of_nat (length (map_layers host)))
                  (map_layers host) 1 [] snapshot_state layers_counted) as H.
    rewrite Eloop in H.
    destruct H as (HfFG & _ & evs' & k & _ & _ & _ & _ & _ & _
                   & _ & _ & copied & _ & Hlf & _ & Hex).
    destruct snapshot_state_facts as (_ & _ & HbF).
    assert (HbH : isfile (fs (packaging_state sG))
                    (join mkdtemp_path (py "project.qgz")) = true).
    { simpl. by apply HfFG. }
    assert (Hex' : Forall (fun p => path_exists (fs (packaging_state sG)) p = true) lf).
    { by rewrite Hlf. }
    pose proof (write_archive_spec mkdtemp_path lf (length (map_layers host))
                  (packaging_state sG) HbH Hex') as H.
    rewrite Ezip in H. destruct H as (_ & evs'' & _ & _ & (op & Hop & Hf)).
    rewrite (Hno op Hop) in Hf. done.
  - apply Hyes. rewrite trace_clean_up, trace_finish_success.
    rewrite !in_app_iff. simpl. tauto.
Qed.

(** C7: writing the layer definition is best effort.  When no other
    call fails, the run succeeds whether or not [writeLayer] exists and
    whichever of its calls raise, and logs nothing; the manifest counts
    every layer; and a vector layer whose definition could not be
    written contributes its data file, if copied, and its style file,
    and no definition.  Nothing is asked of a layer without a file
    behind it (a memory layer, a database layer, a file that has gone);
    a data file that is to be copied must be given with a directory
    part, since the directory of a bare name cannot be listed. *)
Theorem definition_write_is_best_effort :
  project_file host <> [] ->
  (forall op, is_write_layer op = false -> fault host op = None) ->
  (include_data self = true ->
   forall l, l ∈ map_layers host -> is_vector_or_raster l = true ->
     isfile (initial_fs host) (layer_source l) = true ->
     dirname (layer_source l) <> []) ->
  succeeded (snd execute)
  /\ logged (trace (snd execute)) = []
  /\ (exists c mid,
        zipf (snd execute)
        = (py "project.qgz", c) :: mid
          ++ [(py "metadata.json", ManifestDoc (metadata (length (map_layers host))))])
  /\ layer_count (metadata (length (map_layers host))) = length (map_layers host)
  /\ (exists copied : list bool,
        length copied = length (map_layers host)
        /\ zip_writes (trace (snd execute)) = archive_calls copied)
  /\ (forall l c,
        is_vector l = true ->
        has_writeLayer host = false
        \/ fault host (OpWriteLayer (layer_id l) (layer_def_file mkdtemp_path l)) <> None ->
        layer_outputs mkdtemp_path l c
        = (if c then [data_file mkdtemp_path l] else []) ++ [style_file mkdtemp_path l])
  /\ (forall l lf s,
        exists s', save_layer_definition mkdtemp_path l lf s
                   = (Ret (lf ++ (if def_written mkdtemp_path l
                                  then [layer_def_file mkdtemp_path l] else [])), s')).
Proof.
  intros Hpf Hfault Hdir.
  pose proof (run_succeeds_with_files Hpf Hfault Hdir) as Hok.
  destruct (succeeded_inv Hok)
    as (_ & st & evs & _ & Hr & Hz & _ & _ & Hzw).
  cbn [try_loaded] in Hr.
  destruct Hr as (_ & _ & _ & copied & Hlen & _ & Hcalls & (c & mid & Hzf & _) & _).
  split; [done|]. split.
  { destruct run_observed as [_ [(_ & _ & Hl & _)|(msg & Ho & _)]]; [done|].
    destruct Hok as [m Hm]. congruence. }
  split; [exists c, mid; by rewrite Hz|]. split; [done|].
  split; [exists copied; by rewrite Hzw|]. split.
  - intros l c' Hv Hno. apply layer_outputs_without_definition; [|done].
    unfold is_vector in Hv. unfold is_vector_or_raster. by destruct (kind l).
  - intros l lf s.
    destruct (save_layer_definition_spec mkdtemp_path l lf s) as (s' & H & _).
    by exists s'.
Qed.


(** ** A project without layers *)

Lemma zip_write_file p arcname c s :
  files (fs s) !! p = Some c ->
  fault host (OpZipWrite p arcname) = None ->
  zip_write p arcname s
  = (Ret tt, set_zipf (zipf s ++ [(arcname, c)])
               (set_fs id (record (io_call (OpZipWrite p arcname)) s))).
Proof.
  intros Hc Hf. unfold zip_write. rewrite Hc. unfold bind, perform. by rewrite Hf.
Qed.

(** Packaging with no layer file: the archive written to the output
    path holds the snapshot as it is in the working area and the
    manifest. *)
Lemma write_archive_no_layers n c0 s :
  (forall op, fault host op = None) ->
  output_path self <> project_backup_path ->
  output_path self <> metadata_path ->
  files (fs s) !! project_backup_path = Some c0 ->
  exists s',
    write_archive mkdtemp_path [] n s = (Ret tt, s')
    /\ files (fs s') !! output_path self
       = Some (ZipArchive [(py "project.qgz", c0);
                           (py "metadata.json", ManifestDoc (metadata n))]).
Proof.
  intros Hno Hb Hm Hc0.
  unfold write_archive, with_zipfile, zip_open.
  unfold bind at 1 2. unfold perform at 1. rewrite Hno. cbv beta iota zeta.
  set (s1 := set_zipf [] _).
  assert (H1 : files (fs s1) !! project_backup_path = Some c0).
  { subst s1. simpl. by rewrite lookup_insert_ne. }
  assert (Hbody : exists s2,
            (zip_write (join mkdtemp_path (py "project.qgz")) (py "project.qgz");;
             zip_write_all [];;
             dump_metadata (join mkdtemp_path (py "metadata.json")) (metadata n);;
             zip_write (join mkdtemp_path (py "metadata.json")) (py "metadata.json")) s1
            = (Ret tt, s2)
            /\ zipf s2 = [(py "project.qgz", c0);
                          (py "metadata.json", ManifestDoc (metadata n))]).
  { unfold bind.
    rewrite (zip_write_file _ _ c0 s1 H1 (Hno _)). cbn [zip_write_all]. unfold ret.
    unfold dump_metadata, perform. rewrite Hno. cbv beta iota zeta.
    erewrite (zip_write_file _ _ (ManifestDoc (metadata n)));
      [|simpl; apply lookup_insert_eq|apply Hno].
    eexists. split; [reflexivity|]. done. }
  destruct Hbody as (s2 & -> & Hz).
  unfold zip_close, perform. rewrite Hno. cbv beta iota zeta.
  eexists. split; [reflexivity|]. simpl. rewrite Hz. apply lookup_insert_eq.
Qed.

(** C10: a loaded project without layers is cloned successfully when no
    call fails.  The interpolation, and with it the division by the
    layer count, is not reached: progress goes from 10 to 100, and the
    archive holds the snapshot and the manifest, which counts 0
    layers.  This is the file left at the output path: an archive of
    exactly these two members, the first the project as written to the
    working area (for an output path outside the working area, which is
    removed). *)
Theorem empty_project_succeeds :
  map_layers host = [] ->
  project_file host <> [] ->
  (forall op, fault host op = None) ->
  fst execute = Ret tt
  /\ succeeded (snd execute)
  /\ progress_values (trace (snd execute)) = [10; 100]
  /\ logged (trace (snd execute)) = []
  /\ (exists c m,
        zipf (snd execute)
        = [(py "project.qgz", c); (py "metadata.json", ManifestDoc m)]
        /\ layer_count m = 0%nat
        /\ include_data_flag m = include_data self)
  /\ zip_writes (trace (snd execute))
     = [(project_backup_path, py "project.qgz");
        (metadata_path, py "metadata.json")]
  /\ (forall t lf s, export_layers t 0 1 (map_layers host) lf s = (Ret lf, s))
  /\ (inside mkdtemp_path (output_path self) = false ->
      files (fs (snd execute)) !! output_path self
      = Some (ZipArchive [(py "project.qgz", ProjectDoc (project_file host));
                          (py "metadata.json", ManifestDoc (metadata 0))])).
Proof.
  intros Hnil Hpf Hfault.
  assert (Hok : succeeded (snd execute)).
  { apply run_succeeds; [done|by intros|].
    intros _ l Hin. rewrite Hnil in Hin. by apply elem_of_nil in Hin. }
  destruct run_observed as [Hret [(_ & Hp & Hl & _)|(msg & Ho & _)]].
  2:{ destruct Hok as [m Hm]. congruence. }
  destruct (succeeded_inv Hok)
    as (_ & st & evs & _ & Hr & Hz & _ & _ & Hzw).
  cbn [try_loaded] in Hr.
  destruct Hr as (_ & _ & _ & copied & Hlen & _ & Hcalls & (c & mid & Hzf & Hmid) & _).
  rewrite Hnil in Hlen. destruct copied; [|done].
  split. { rewrite Hret. unfold run_result, removal_result. by rewrite !Hfault. }
  split; [done|].
  split. { rewrite Hp. unfold full_progress. by rewrite Hnil. }
  split; [done|]. split.
  { exists c, (metadata (length (map_layers host))). rewrite Hz, Hzf.
    rewrite Hnil in Hmid |- *. destruct mid; [|done]. by repeat split. }
  split.
  { rewrite Hzw, Hcalls. unfold archive_calls. by rewrite Hnil. }
  split; [intros t lf s; by rewrite Hnil|].
  intros Hout.
  assert (Hinside : forall x, sep ∉ x -> output_path self <> join mkdtemp_path x).
  { intros x Hx Heq. rewrite Heq, inside_join in Hout; done. }
  destruct (write_archive_no_layers 0 (ProjectDoc (project_file host))
              (packaging_state snapshot_state) Hfault)
    as (s' & Hzip & Hdisk).
  { apply Hinside. exact (bool_decide_unpack (sep ∉ py "project.qgz") I). }
  { apply Hinside. exact (bool_decide_unpack (sep ∉ py "metadata.json") I). }
  { simpl. apply lookup_insert_eq. }
  destruct execute as [r s] eqn:E. cbn [snd].
  apply execute_path in E as [_ Hpath].
  destruct Hpath as [e Hmk ->| Hmk Hpf' ->| e Hmk Hpf' Hpw ->
                    | e sG Hmk Hpf' Hpw Eloop ->
                    | e lf sG sI Hmk Hpf' Hpw Eloop Ezip ->
                    | lf sG sI Hmk Hpf' Hpw Eloop Ezip ->].
  - by rewrite Hfault in Hmk.
  - done.
  - by rewrite Hfault in Hpw.
  - rewrite Hnil in Eloop. by cbn in Eloop.
  - rewrite Hnil in Eloop. cbn in Eloop. unfold ret in Eloop.
    injection Eloop as <- <-. rewrite Hnil in Ezip. cbn [length] in Ezip.
    rewrite Hzip in Ezip. done.
  - rewrite Hnil in Eloop. cbn in Eloop. unfold ret in Eloop.
    injection Eloop as <- <-. rewrite Hnil in Ezip. cbn [length] in Ezip.
    rewrite Hzip in Ezip.
    injection Ezip as <-. simpl fs.
    destruct (removal_outside (fs s') _ Hout) as [-> _]. exact Hdisk.
Qed.

End Worker.

(** * Concrete runs *)

(** C1, counterexample: a successful run without data files over a
    project whose only layer is neither vector nor raster writes no
    style file, and the archive has no style entry. *)
Lemma other_kind_layer_has_no_style_file :
  let s := snd (execute ascii_only notes_host without_data) in
  succeeded s
  /\ map_layers notes_host = [notes]
  /\ ~ (forall l, In l (map_layers notes_host) ->
          exists p, In (layer_id l, p) (style_writes (trace s)))
  /\ List.map fst (zipf s) = [py "project.qgz"; py "metadata.json"].
Proof.
  split; [|split; [|split]].
  - exists (py "Project cloned successfully to: /out/clone.zip"). by vm_compute.
  - reflexivity.
  - intros H. destruct (H notes (or_introl eq_refl)) as [p Hp].
    vm_compute in Hp. exact Hp.
  - by vm_compute.
Qed.

(** C2: the two-layer scenario as the code runs it.  The siblings
    [roads.dbf] and [roads.shx] are copied into the working area, but
    the archive holds the data file under the layer's name and neither
    sibling. *)
Lemma two_layer_scenario_archive :
  let s := snd (execute ascii_only two_layer_host with_data) in
  let t := py "/tmp/tmpabc012" in
  succeeded s
  /\ In (OpCopy2 (py "/data/roads.dbf") t) (io_calls (trace s))
  /\ In (OpCopy2 (py "/data/roads.shx") t) (io_calls (trace s))
  /\ List.map fst (zipf s)
     = [py "project.qgz"; py "Roads.shp"; py "Roads.qml";
        py "Rivers _ Lakes.qml"; py "metadata.json"]
  /\ ~ In (py "roads.dbf") (List.map fst (zipf s))
  /\ ~ In (py "roads.shx") (List.map fst (zipf s))
  /\ ~ In (py "roads.shp") (List.map fst (zipf s)).
Proof.
  split; [exists (py "Project cloned successfully to: /out/clone.zip"); by vm_compute|].
  split; [vm_compute; tauto|]. split; [vm_compute; tauto|].
  split; [by vm_compute|].
  repeat split; vm_compute; intros H; repeat destruct H as [H|H]; done.
Qed.

(** C3, counterexample: with no project loaded the run calls [mkdtemp],
    and so creates the working area, before it reports the failure. *)
Lemma no_project_run_creates_working_area :
  let s := snd (execute ascii_only no_project_host with_data) in
  project_file no_project_host = []
  /\ trace s
     = [status_updated (py "Starting project clone...");
        io_call (OpMkdtemp (py "/tmp/tmpabc012"));
        finished_signal false (py "No project file is currently open.");
        io_call (OpRmtree (py "/tmp/tmpabc012"))]
  /\ io_free_until_outcome (trace s) = false.
Proof. by vm_compute. Qed.

(** C4, counterexample: where [shutil.rmtree] raises, the run has
    created the working area, has attempted the removal as its last
    action, and the directory is still there afterwards. *)
Lemma removal_failure_leaves_working_area :
  let s := snd (execute ascii_only stuck_host with_data) in
  In (io_call (OpMkdtemp (py "/tmp/tmpabc012"))) (trace s)
  /\ last (trace s) = Some (io_call (OpRmtree (py "/tmp/tmpabc012")))
  /\ isdir (fs s) (py "/tmp/tmpabc012") = true
  /\ path_exists (fs s) (py "/tmp/tmpabc012") = true.
Proof.
  split; [vm_compute; tauto|]. split; [by vm_compute|].
  split; by vm_compute.
Qed.

(** C6, counterexample: on the same host the run emits its outcome,
    and then the error of [shutil.rmtree] leaves [run]: it is raised in
    the [finally] block, outside the [except] clause, so it is neither
    logged nor turned into a failure outcome. *)
Lemma removal_failure_escapes_run :
  let run := execute ascii_only stuck_host with_data in
  fst run = Raise (py "Permission denied")
  /\ outcomes (trace (snd run))
     = [(true, py "Project cloned successfully to: /out/clone.zip")]
  /\ logged (trace (snd run)) = [].
Proof. split; [by vm_compute|]. split; by vm_compute. Qed.

(** Witnesses: the theorems with hypotheses, at concrete runs. *)

Lemma style_file_per_vector_or_raster_layer_witness :
  let s := snd (execute ascii_only two_layer_host with_data) in
  succeeded s
  /\ style_writes (trace s)
     = List.map (fun l => (layer_id l,
                           style_file ascii_only (mkdtemp_path two_layer_host) l))
         (List.filter is_vector_or_raster (map_layers two_layer_host)).
Proof.
  assert (Hok : succeeded (snd (execute ascii_only two_layer_host with_data))).
  { exists (py "Project cloned successfully to: /out/clone.zip"). by vm_compute. }
  split; [exact Hok|].
  exact (proj1 (style_file_per_vector_or_raster_layer
                  ascii_only two_layer_host with_data Hok)).
Defined.

Lemma no_project_fails_after_mkdtemp_witness :
  project_file no_project_host = []
  /\ (exists msg,
        outcomes (trace (snd (execute ascii_only no_project_host with_data)))
        = [(false, msg)])
  /\ zip_writes (trace (snd (execute ascii_only no_project_host with_data))) = [].
Proof.
  split; [reflexivity|].
  exact (proj2 (no_project_fails_after_mkdtemp
                  ascii_only no_project_host with_data eq_refl)).
Defined.

Lemma working_area_removed_witness :
  fault two_layer_host (OpMkdtemp (mkdtemp_path two_layer_host)) = None
  /\ fst (execute ascii_only two_layer_host with_data) = Ret tt
  /\ path_exists (fs (snd (execute ascii_only two_layer_host with_data)))
       (mkdtemp_path two_layer_host) = false.
Proof.
  split; [reflexivity|].
  destruct (working_area_removed ascii_only two_layer_host with_data eq_refl)
    as (_ & _ & Hend).
  destruct Hend as (Hret & Hgone & _).
  split; [exact Hret|exact Hgone].
Defined.

Lemma definition_write_is_best_effort_witness :
  project_file failing_definition_host <> []
  /\ (forall op, is_write_layer op = false -> fault failing_definition_host op = None)
  /\ (include_data with_data = true ->
      forall l, l ∈ map_layers failing_definition_host ->
        is_vector_or_raster l = true ->
        isfile (initial_fs failing_definition_host) (layer_source l) = true ->
        dirname (layer_source l) <> [])
  /\ In (OpWriteLayer 1 (py "/tmp/tmpabc012/Roads.qlr"))
        (io_calls (trace (snd (execute ascii_only failing_definition_host with_data))))
  /\ succeeded (snd (execute ascii_only failing_definition_host with_data)).
Proof.
  assert (H1 : project_file failing_definition_host <> []) by discriminate.
  assert (H2 : forall op, is_write_layer op = false ->
                          fault failing_definition_host op = None).
  { intros op Hop. simpl. by rewrite Hop. }
  assert (H3 : include_data with_data = true ->
               forall l, l ∈ map_layers failing_definition_host ->
                 is_vector_or_raster l = true ->
                 isfile (initial_fs failing_definition_host) (layer_source l) = true ->
                 dirname (layer_source l) <> []).
  { intros _ l Hin _ _. simpl in Hin.
    apply elem_of_cons in Hin as [->|Hin]; [by vm_compute|].
    apply elem_of_cons in Hin as [->|Hin]; [by vm_compute|].
    by apply elem_of_nil in Hin. }
  split; [exact H1|]. split; [exact H2|]. split; [exact H3|].
  split; [vm_compute; tauto|].
  exact (proj1 (definition_write_is_best_effort
                  ascii_only failing_definition_host with_data H1 H2 H3)).
Defined.

Lemma empty_project_succeeds_witness :
  map_layers empty_host = []
  /\ project_file empty_host <> []
  /\ (forall op, fault empty_host op = None)
  /\ progress_values (trace (snd (execute ascii_only empty_host with_data)))
     = [10; 100]
  /\ List.map fst (zipf (snd (execute ascii_only empty_host with_data)))
     = [py "project.qgz"; py "metadata.json"].
Proof.
  assert (H2 : project_file empty_host <> []) by discriminate.
  split; [reflexivity|]. split; [exact H2|]. split; [reflexivity|].
  destruct (empty_project_succeeds ascii_only empty_host with_data eq_refl H2
              (fun _ => eq_refl))
    as (_ & _ & Hp & _ & (c & m & Hz & _) & _).
  split; [exact Hp|]. rewrite Hz. reflexivity.
Defined.

(** Witnesses of the further properties. *)

Lemma layer_files_inside_working_area_witness :
  let files := [py "/tmp/Roads.shp"; py "/tmp/Roads.qml"; py "/tmp/Rivers _ Lakes.qml"] in
  let run := export_layers ascii_only two_layer_host with_data (py "/tmp") 2 1
               [roads; rivers] [] (init_state data_disk) in
  run = (Ret files, snd run)
  /\ Forall (fun p => inside (py "/tmp") p = true
                      /\ (sep ∉ basename p)
                      /\ p = join (py "/tmp") (basename p))
            files.
Proof.
  intros files run.
  assert (Hrun : run = (Ret files, snd run)).
  { assert (Hr : fst run = Ret files) by (by vm_compute).
    revert Hr. generalize run. intros [r s'] Hr. simpl in *. congruence. }
  split; [exact Hrun|].
  destruct (layer_files_inside_working_area ascii_only two_layer_host with_data
              (py "/tmp") 2 1 [roads; rivers] [] files
              (init_state data_disk) (snd run) Hrun)
    as (added & Heq & Hadded).
  cbn [app] in Heq. rewrite Heq. exact Hadded.
Defined.

Lemma copy_associated_files_bare_name_witness :
  (sep ∉ py "roads.shp")
  /\ fst (_copy_associated_files two_layer_host (py "roads.shp") (py "/tmp")
            (init_state data_disk))
     = Raise (py "No such file or directory").
Proof.
  assert (H : sep ∉ py "roads.shp")
    by exact (bool_decide_unpack (sep ∉ py "roads.shp") I).
  split; [exact H|].
  exact (f_equal fst (copy_associated_files_bare_name two_layer_host
                        (py "roads.shp") (py "/tmp") (init_state data_disk) H)).
Defined.

Lemma copy_associated_files_copies_witness :
  let run := _copy_associated_files two_layer_host (py "/data/roads.shp") (py "/tmp")
               (init_state data_disk) in
  isdir (fs (init_state data_disk)) (py "/tmp") = true
  /\ run = (Ret tt, snd run)
  /\ files (fs (snd run)) !! py "/tmp/roads.dbf" = Some (Blob 2).
Proof.
  intros run.
  assert (Hd : isdir (fs (init_state data_disk)) (py "/tmp") = true) by (by vm_compute).
  assert (Hrun : run = (Ret tt, snd run)).
  { assert (Hr : fst run = Ret tt) by (by vm_compute).
    revert Hr. generalize run. intros [[[]|e] s'] Hr; simpl in *; congruence. }
  split; [exact Hd|]. split; [exact Hrun|].
  destruct (copy_associated_files_copies two_layer_host (py "/data/roads.shp")
              (py "/tmp") (init_state data_disk) (snd run) Hd Hrun) as [Hcopied _].
  replace (py "/tmp/roads.dbf") with (join (py "/tmp") (py "roads.dbf"))
    by (by vm_compute).
  apply Hcopied.
  - exact (bool_decide_unpack (sep ∉ py "roads.dbf") I).
  - discriminate.
  - by vm_compute.
  - by vm_compute.
Defined.

Lemma run_writes_only_working_area_and_output_witness :
  let p := py "/data/roads.shp" in
  inside (mkdtemp_path two_layer_host) p = false
  /\ p <> output_path with_data
  /\ files (fs (snd (execute ascii_only two_layer_host with_data))) !! p
     = files (initial_fs two_layer_host) !! p.
Proof.
  intros p.
  assert (H1 : inside (mkdtemp_path two_layer_host) p = false) by (by vm_compute).
  assert (H2 : p <> output_path with_data) by (by vm_compute).
  split; [exact H1|]. split; [exact H2|].
  exact (proj1 (run_writes_only_working_area_and_output
                  ascii_only two_layer_host with_data p H1 H2)).
Defined.

Lemma no_copy_without_data_witness :
  include_data without_data = false
  /\ Forall (fun op => copy_op op = false)
       (io_calls (trace (snd (execute ascii_only two_layer_host without_data)))).
Proof.
  split; [reflexivity|].
  exact (no_copy_without_data ascii_only two_layer_host without_data eq_refl).
Defined.

Lemma output_path_after_run_witness :
  let s := snd (execute ascii_only two_layer_host with_data) in
  inside (mkdtemp_path two_layer_host) (output_path with_data) = false
  /\ files (fs s) !! output_path with_data = Some (ZipArchive (zipf s)).
Proof.
  intros s.
  assert (H : inside (mkdtemp_path two_layer_host) (output_path with_data) = false)
    by (by vm_compute).
  split; [exact H|].
  apply (proj2 (output_path_after_run ascii_only two_layer_host with_data H)).
  - vm_compute. tauto.
  - reflexivity.
  - reflexivity.
Defined.

Lemma archive_on_disk_witness :
  let s := snd (execute ascii_only two_layer_host with_data) in
  succeeded s
  /\ inside (mkdtemp_path two_layer_host) (output_path with_data) = false
  /\ exists c mid m,
       files (fs s) !! output_path with_data
       = Some (ZipArchive ((py "project.qgz", c) :: mid
                           ++ [(py "metadata.json", ManifestDoc m)]))
       /\ layer_count m = 2%nat.
Proof.
  intros s.
  assert (Hok : succeeded s).
  { exists (py "Project cloned successfully to: /out/clone.zip"). by vm_compute. }
  assert (H : inside (mkdtemp_path two_layer_host) (output_path with_data) = false)
    by (by vm_compute).
  split; [exact Hok|]. split; [exact H|].
  destruct (archive_on_disk ascii_only two_layer_host with_data Hok H)
    as (c & mid & m & Hdisk & Hcount & _).
  exists c, mid, m. split; [exact Hdisk|exact Hcount].
Defined.

Lemma clone_session_outcome_witness :
  let p' := deliver_all (trace (snd (execute ascii_only two_layer_host with_data)))
              (start_clone ready_plugin) in
  output_path_edit (dialog ready_plugin) = output_path with_data
  /\ include_data_check (dialog ready_plugin) = include_data with_data
  /\ output_path with_data <> []
  /\ clone_button_enabled (dialog p') = true
  /\ clone_thread p' = None.
Proof.
  intros p'.
  assert (H3 : output_path with_data <> []) by discriminate.
  split; [reflexivity|]. split; [reflexivity|]. split; [exact H3|].
  destruct (clone_session_outcome ascii_only two_layer_host with_data ready_plugin
              eq_refl eq_refl H3) as (ok & msg & _ & _ & Hb & Ht & _).
  split; [exact Hb|exact Ht].
Defined.

Lemma clone_session_running_witness :
  let tr := trace (snd (execute ascii_only two_layer_host with_data)) in
  let p1 := deliver_all (take 5 tr) (start_clone ready_plugin) in
  output_path_edit (dialog ready_plugin) = output_path with_data
  /\ include_data_check (dialog ready_plugin) = include_data with_data
  /\ output_path with_data <> []
  /\ tr = take 5 tr ++ drop 5 tr
  /\ outcomes (take 5 tr) = []
  /\ clone_button_enabled (dialog p1) = false
  /\ progress_bar (dialog p1) = List.last (progress_values (take 5 tr)) 0.
Proof.
  intros tr p1.
  assert (H3 : output_path with_data <> []) by discriminate.
  assert (H4 : tr = take 5 tr ++ drop 5 tr) by (symmetry; apply take_drop).
  assert (H5 : outcomes (take 5 tr) = []) by (by vm_compute).
  split; [reflexivity|]. split; [reflexivity|]. split; [exact H3|].
  split; [exact H4|]. split; [exact H5|].
  destruct (clone_session_running ascii_only two_layer_host with_data ready_plugin
              (take 5 tr) (drop 5 tr) eq_refl eq_refl H3 H4 H5)
    as (Hb & _ & _ & Hbar & _).
  split; [exact Hb|exact Hbar].
Defined.

Lemma browse_output_path_zip_witness :
  let d' := browse_output_path posix_desk (py "/out/Clone.ZIP") (dialog ready_plugin) in
  py "/out/Clone.ZIP" <> []
  /\ endswith (lower posix_desk (output_path_edit d')) (py ".zip") = true.
Proof.
  intros d'.
  assert (H : py "/out/Clone.ZIP" <> []) by discriminate.
  split; [exact H|].
  exact (proj1 (browse_output_path_zip posix_desk (py "/out/Clone.ZIP")
                  (dialog ready_plugin) H)).
Defined.

Lemma fresh_dialog_clone_witness :
  let p := {| dialog := init_ui two_layer_host posix_desk;
              clone_thread := None; boxes := [] |} in
  dialog p = init_ui two_layer_host posix_desk
  /\ (project_file two_layer_host <> [] ->
      endswith (output_path_edit (dialog p)) (default_name two_layer_host posix_desk)
      = true).
Proof.
  intros p. split; [reflexivity|]. intros Hpf.
  exact (proj1 (proj2 (fresh_dialog_clone two_layer_host posix_desk p eq_refl) Hpf)).
Defined.

Lemma missing_sources_are_skipped_witness :
  (forall l, l ∈ map_layers twin_host ->
     inside (mkdtemp_path twin_host) (layer_source l) = false
     /\ isfile (initial_fs twin_host) (layer_source l) = false)
  /\ Forall (fun op => copy_op op = false)
       (io_calls (trace (snd (execute ascii_only twin_host with_data)))).
Proof.
  assert (H : forall l, l ∈ map_layers twin_host ->
                inside (mkdtemp_path twin_host) (layer_source l) = false
                /\ isfile (initial_fs twin_host) (layer_source l) = false).
  { intros l Hin. simpl in Hin.
    apply elem_of_cons in Hin as [->|Hin]; [by vm_compute|].
    apply elem_of_cons in Hin as [->|Hin]; [by vm_compute|].
    apply elem_of_cons in Hin as [->|Hin]; [by vm_compute|].
    by apply elem_of_nil in Hin. }
  split; [exact H|].
  exact (proj1 (missing_sources_are_skipped ascii_only twin_host with_data H)).
Defined.

Lemma same_sanitized_name_same_entry_witness :
  let s := snd (execute ascii_only twin_host with_data) in
  map_layers twin_host = [] ++ rivers :: [notes] ++ rivers_twin :: []
  /\ sanitize_filename ascii_only (layer_name rivers)
     = sanitize_filename ascii_only (layer_name rivers_twin)
  /\ succeeded s
  /\ exists a b c,
       style_writes (trace s)
       = a ++ (layer_id rivers, style_file ascii_only (mkdtemp_path twin_host) rivers)
           :: b
           ++ (layer_id rivers_twin,
               style_file ascii_only (mkdtemp_path twin_host) rivers)
           :: c.
Proof.
  intros s.
  assert (H1 : map_layers twin_host = [] ++ rivers :: [notes] ++ rivers_twin :: [])
    by reflexivity.
  assert (H2 : sanitize_filename ascii_only (layer_name rivers)
               = sanitize_filename ascii_only (layer_name rivers_twin))
    by (by vm_compute).
  assert (Hok : succeeded s).
  { exists (py "Project cloned successfully to: /out/clone.zip"). by vm_compute. }
  split; [exact H1|]. split; [exact H2|]. split; [exact Hok|].
  exact (proj1 (same_sanitized_name_same_entry ascii_only twin_host with_data
                  rivers rivers_twin [] [notes] [] H1 eq_refl eq_refl H2 Hok)).
Defined.

Lemma bare_name_source_fails_witness :
  include_data with_data = true
  /\ project_file local_host <> []
  /\ (forall op, is_write_layer op = false -> fault local_host op = None)
  /\ local_roads ∈ map_layers local_host
  /\ is_vector_or_raster local_roads = true
  /\ (sep ∉ layer_source local_roads)
  /\ isfile (initial_fs local_host) (layer_source local_roads) = true
  /\ exists e, outcomes (trace (snd (execute ascii_only local_host with_data)))
               = [(false, error_message e)].
Proof.
  assert (H2 : project_file local_host <> []) by discriminate.
  assert (H3 : forall op, is_write_layer op = false -> fault local_host op = None)
    by reflexivity.
  assert (H4 : local_roads ∈ map_layers local_host).
  { apply elem_of_cons. by left. }
  assert (H6 : sep ∉ layer_source local_roads)
    by exact (bool_decide_unpack (sep ∉ py "roads.shp") I).
  assert (H7 : isfile (initial_fs local_host) (layer_source local_roads) = true)
    by (by vm_compute).
  split; [reflexivity|]. split; [exact H2|]. split; [exact H3|].
  split; [exact H4|]. split; [reflexivity|]. split; [exact H6|]. split; [exact H7|].
  exact (proj1 (bare_name_source_fails ascii_only local_host with_data local_roads
                  eq_refl H2 H3 H4 eq_refl H6 H7)).
Defined.
